(** * Personalised schedule calendar (calendar.py): the data transformations

    A shallow embedding of the pure core of [calendar.py]: the day ordering
    ([sort_days]), the clock parser ([parse_time_minutes]), the column
    normaliser ([normalize_dataframe]), the slot grid
    ([create_calendar_heatmap]) and the flat export table
    ([create_excel_export]), then of their callers: the PNG export
    ([export_calendar_as_png], over an arbitrary renderer) and [main] from
    the loading of the files on, over an arbitrary renderer and an
    arbitrary answer of openpyxl (the legend it writes first is static
    markup and is left out).

    Conventions of the embedding.
    - A Python [str] is the [string] of its UTF-8 bytes.  Case mapping and
      white space are those of Python on the ASCII range, which is where the
      column keywords, the weekday names and the clock digits live; every
      other byte is carried unchanged.  Byte-wise lexicographic order on
      UTF-8 is the order of code points, which is how Python compares [str].
    - A value handed to [sort_days] or [parse_time_minutes] is a [cell]:
      [None] for a missing value (NaN/None), [Some s] for a value whose
      [str()] is [s].
    - A cell of a sheet that [pd.read_excel] has read is a [sheet_cell]:
      [Blank] for a missing value that [fillna] fills (NaN/None), [Value s]
      for a value that [astype(str)] prints as [s], and [NaT] for the missing
      entry of a datetime64 column, which [fillna] with a string does not
      fill.  pandas 2 then prints it as the text NaT, which is what the
      model does; pandas 3 keeps it missing, and a statement that depends on
      the difference says so.
    - Python [int] is [Z]; [int()] reads ASCII digits and skips, around
      them, the white space of C ([Py_ISSPACE]), which is less than what
      [str.strip] removes.
    - openpyxl refuses some texts (a control character in a value, one of
      the characters it reserves in a sheet title).  [create_excel_export]
      is the sheet it is asked for; its answer, the saved bytes or its
      exception, is an input of the application model, like the image
      renderer's.
    - Exceptions are the [Raise] branch of [result]; calls into streamlit
      are collected as a list of [ui_call].
    - CPython's configurable limit on the number of digits [int()] accepts
      is not part of the model. *)

From Stdlib Require Import String Ascii List ZArith Lia Bool Arith.
From Stdlib Require Import Sorted Permutation DecimalString DecimalPos.
Import ListNotations.

Open Scope list_scope.
Open Scope string_scope.

(* ================================================================== *)
(** ** Exceptions *)

Inductive exn : Type :=
| KeyError (key : string)
| ValueError
| AttributeError
| IllegalCharacterError.

Inductive result (A : Type) : Type :=
| Ok (a : A)
| Raise (e : exn).

Arguments Ok {A} a.
Arguments Raise {A} e.

Definition bind {A B : Type} (m : result A) (k : A -> result B) : result B :=
  match m with
  | Ok a => k a
  | Raise e => Raise e
  end.

Notation "x <- m ;; k" := (bind m (fun x => k))
  (at level 61, m at next level, right associativity).

(** [for x in xs: acc = body(acc, x)], stopping at the first exception. *)
Fixpoint for_each {A S : Type} (body : S -> A -> result S) (xs : list A) (acc : S)
  : result S :=
  match xs with
  | [] => Ok acc
  | x :: xs' => acc' <- body acc x ;; for_each body xs' acc'
  end.

(** A list comprehension whose element expression may raise. *)
Fixpoint map_each {A B : Type} (f : A -> result B) (xs : list A) : result (list B) :=
  match xs with
  | [] => Ok []
  | x :: xs' => y <- f x ;; ys <- map_each f xs' ;; Ok (y :: ys)
  end.

(** [[x for x in xs if p(x)]] with a test that may raise. *)
Fixpoint filter_each {A : Type} (p : A -> result bool) (xs : list A) : result (list A) :=
  match xs with
  | [] => Ok []
  | x :: xs' =>
      b <- p x ;; ys <- filter_each p xs' ;; Ok (if b then x :: ys else ys)
  end.

(* ================================================================== *)
(** ** Python [str] primitives *)

Module PyStr.

Definition code (c : ascii) : nat := nat_of_ascii c.

(** [str.isspace] on one ASCII character: TAB, LF, VT, FF, CR, the four
    separators 0x1c-0x1f, and the space. *)
Definition is_space (c : ascii) : bool :=
  let n := code c in
  (((9 <=? n) && (n <=? 13)) || ((28 <=? n) && (n <=? 32)))%nat.

Definition is_upper (c : ascii) : bool :=
  let n := code c in ((65 <=? n) && (n <=? 90))%nat.

Definition is_lower (c : ascii) : bool :=
  let n := code c in ((97 <=? n) && (n <=? 122))%nat.

Definition lower_char (c : ascii) : ascii :=
  if is_upper c then ascii_of_nat (code c + 32) else c.

Definition upper_char (c : ascii) : ascii :=
  if is_lower c then ascii_of_nat (code c - 32) else c.

(** [s.lower()] *)
Fixpoint lower (s : string) : string :=
  match s with
  | EmptyString => EmptyString
  | String c s' => String (lower_char c) (lower s')
  end.

(** [s.capitalize()]: first character upper-cased, the rest lower-cased. *)
Definition capitalize (s : string) : string :=
  match s with
  | EmptyString => EmptyString
  | String c s' => String (upper_char c) (lower s')
  end.

(** [s.lstrip()] *)
Fixpoint lstrip (s : string) : string :=
  match s with
  | EmptyString => EmptyString
  | String c s' => if is_space c then lstrip s' else s
  end.

(** [s.rstrip()] *)
Fixpoint rstrip (s : string) : string :=
  match s with
  | EmptyString => EmptyString
  | String c s' =>
      match rstrip s' with
      | EmptyString => if is_space c then EmptyString else String c EmptyString
      | r => String c r
      end
  end.

(** [s.strip()] *)
Definition strip (s : string) : string := rstrip (lstrip s).

(** [bool(s)]: a string is true when it is not empty. *)
Definition nonempty (s : string) : bool :=
  match s with
  | EmptyString => false
  | String _ _ => true
  end.

(** [sub in s] *)
Fixpoint contains (sub s : string) : bool :=
  prefix sub s ||
  match s with
  | EmptyString => false
  | String _ s' => contains sub s'
  end.

(** [s.split(sep)] for a one-character separator: never an empty list. *)
Fixpoint split_on (sep : ascii) (s : string) : list string :=
  match s with
  | EmptyString => [EmptyString]
  | String c s' =>
      if Ascii.eqb c sep then EmptyString :: split_on sep s'
      else match split_on sep s' with
           | p :: ps => String c p :: ps
           | [] => [String c EmptyString]
           end
  end.

(** [s.split()]: the maximal runs of non-space characters. *)
Fixpoint split_ws (s : string) : list string :=
  match s with
  | EmptyString => []
  | String c s' =>
      if is_space c then split_ws s'
      else match s' with
           | EmptyString => [String c EmptyString]
           | String c' _ =>
               if is_space c' then String c EmptyString :: split_ws s'
               else match split_ws s' with
                    | p :: ps => String c p :: ps
                    | [] => [String c EmptyString]
                    end
           end
  end.

(** A byte 10xxxxxx continues the code point opened before it. *)
Definition is_continuation (c : ascii) : bool :=
  let n := code c in ((128 <=? n) && (n <? 192))%nat.

(** [s[:n]]: the first [n] code points of [s]. *)
Fixpoint take_chars (n : nat) (s : string) : string :=
  match s with
  | EmptyString => EmptyString
  | String c s' =>
      if is_continuation c then String c (take_chars n s')
      else match n with
           | O => EmptyString
           | S n' => String c (take_chars n' s')
           end
  end.

Definition digit_value (c : ascii) : option Z :=
  let n := code c in
  if ((48 <=? n) && (n <=? 57))%nat then Some (Z.of_nat (n - 48)) else None.

(** The digit part of an integer literal: decimal digits, where one
    underscore may stand between two digits. *)
Fixpoint parse_digits (acc : Z) (after_digit : bool) (s : string) : option Z :=
  match s with
  | EmptyString => if after_digit then Some acc else None
  | String c s' =>
      match digit_value c with
      | Some d => parse_digits (10 * acc + d) true s'
      | None =>
          if Ascii.eqb c "_" && after_digit then parse_digits acc false s'
          else None
      end
  end.

(** The white space [int()] skips around a literal of ASCII characters:
    TAB, LF, VT, FF, CR and the space, not the separators 0x1c-0x1f. *)
Definition is_int_space (c : ascii) : bool :=
  let n := code c in
  (((9 <=? n) && (n <=? 13)) || (n =? 32))%nat.

Fixpoint int_lstrip (s : string) : string :=
  match s with
  | EmptyString => EmptyString
  | String c s' => if is_int_space c then int_lstrip s' else s
  end.

Fixpoint int_rstrip (s : string) : string :=
  match s with
  | EmptyString => EmptyString
  | String c s' =>
      match int_rstrip s' with
      | EmptyString => if is_int_space c then EmptyString else String c EmptyString
      | r => String c r
      end
  end.

(** [int(s)]: surrounding white space, an optional sign, then digits;
    anything else raises ValueError. *)
Definition py_int (s : string) : result Z :=
  let body :=
    match int_rstrip (int_lstrip s) with
    | String "+" d => parse_digits 0 false d
    | String "-" d => option_map Z.opp (parse_digits 0 false d)
    | d => parse_digits 0 false d
    end in
  match body with
  | Some n => Ok n
  | None => Raise ValueError
  end.

(** [f"{n:02d}"] *)
Definition format_02d (n : Z) : string :=
  let s := NilZero.string_of_int (Z.to_int n) in
  match s with
  | String _ EmptyString => String "0" s
  | _ => s
  end.

End PyStr.
Import PyStr.

(* ================================================================== *)
(** ** Time: [parse_time_minutes] *)

Definition cell : Type := option string.

(** The body of the [try] block of [parse_time_minutes]: [Ok None] is
    [return None], [Raise] an exception leaving the block. *)
Definition parse_time_body (time_str : cell) : result (option Z) :=
  match time_str with
  | None => Ok None                                   (* pd.isna(time_str) *)
  | Some raw =>
      let time_str := strip raw in
      if contains ":" time_str then
        let parts := split_on ":" time_str in
        match parts with
        | p0 :: p1 :: _ =>                            (* len(parts) >= 2 *)
            h <- py_int p0 ;;
            m <- py_int p1 ;;
            Ok (Some (h * 60 + m)%Z)
        | _ => Ok None
        end
      else Ok None
  end.

(** [parse_time_minutes]: the bare [except] turns every exception into
    [None]. *)
Definition parse_time_minutes (time_str : cell) : option Z :=
  match parse_time_body time_str with
  | Ok r => r
  | Raise _ => None
  end.

(* ================================================================== *)
(** ** Dictionaries and sorting *)

(** A Python [dict] with [str] keys, in insertion order. *)
Definition dict (V : Type) : Type := list (string * V).

Fixpoint dict_get {V : Type} (d : dict V) (k : string) : option V :=
  match d with
  | [] => None
  | (k', v) :: d' => if String.eqb k' k then Some v else dict_get d' k
  end.

(** [d[k] = v] *)
Fixpoint dict_set {V : Type} (d : dict V) (k : string) (v : V) : dict V :=
  match d with
  | [] => [(k, v)]
  | (k', v') :: d' =>
      if String.eqb k' k then (k, v) :: d' else (k', v') :: dict_set d' k v
  end.

(** [sorted]: Python's sort is stable, and a stable sort has only one
    possible result; it is computed here by insertion. *)
Fixpoint insert_sorted {A : Type} (le : A -> A -> bool) (x : A) (l : list A) : list A :=
  match l with
  | [] => [x]
  | y :: l' => if le x y then x :: l else y :: insert_sorted le x l'
  end.

Fixpoint sorted_with {A : Type} (le : A -> A -> bool) (l : list A) : list A :=
  match l with
  | [] => []
  | x :: l' => insert_sorted le x (sorted_with le l')
  end.

(** The comparison that [sorted(l, key=key)] makes, with integer keys. *)
Definition key_leb {A : Type} (key : A -> nat) (x y : A) : bool :=
  (key x <=? key y)%nat.

(** [sorted(l, key=key)] *)
Definition sorted_by_key {A : Type} (key : A -> nat) (l : list A) : list A :=
  sorted_with (key_leb key) l.

(** [sorted(set(l))] on strings: distinct values in code point order. *)
Definition sorted_set (l : list string) : list string :=
  sorted_with String.leb (nodup string_dec l).

(* ================================================================== *)
(** ** Day ordering: [sort_days] *)

Definition day_order : dict nat :=
  [ ("monday", 1); ("mon", 1); ("lundi", 1); ("lun", 1);
    ("tuesday", 2); ("tue", 2); ("mardi", 2); ("mar", 2);
    ("wednesday", 3); ("wed", 3); ("mercredi", 3); ("mer", 3);
    ("thursday", 4); ("thu", 4); ("jeudi", 4); ("jeu", 4);
    ("friday", 5); ("fri", 5); ("vendredi", 5); ("ven", 5);
    ("saturday", 6); ("sat", 6); ("samedi", 6); ("sam", 6);
    ("sunday", 7); ("sun", 7); ("dimanche", 7); ("dim", 7) ]%nat.

(** The inner test of the filtering loop: [d_str and d_str.lower() != "nan"]. *)
Definition keep_day (s : string) : bool :=
  let d_str := strip s in
  nonempty d_str && negb (String.eqb (lower d_str) "nan").

(** [filtered_days]: the values themselves are appended, not their stripped
    form; a missing value fails [pd.notna]. *)
Fixpoint filter_days (days_list : list cell) : list string :=
  match days_list with
  | [] => []
  | None :: rest => filter_days rest
  | Some s :: rest =>
      if keep_day s then s :: filter_days rest else filter_days rest
  end.

Definition get_day_order_key (day_str : string) : nat :=
  if negb (nonempty (strip day_str)) then 99%nat
  else
    let day_str_clean := lower (strip day_str) in
    let parts := split_ws day_str_clean in
    match parts with
    | [] => 99%nat
    | p0 :: _ =>
        match dict_get day_order p0 with               (* day_order.get(parts[0], 99) *)
        | Some rank => rank
        | None => 99%nat
        end
    end.

Definition sort_days (days_list : list cell) : list string :=
  sorted_by_key get_day_order_key (filter_days days_list).

(* ================================================================== *)
(** ** Data frames *)

(** A frame holds its columns in order, each a label with its values; the
    index has [n_rows] entries.  Labels may repeat, as in pandas. *)
Record DataFrame (V : Type) : Type := mkDataFrame {
  n_rows : nat;
  series : list (string * list V)
}.

Arguments mkDataFrame {V} n_rows series.
Arguments n_rows {V} d.
Arguments series {V} d.

(** [df.columns] *)
Definition columns {V : Type} (df : DataFrame V) : list string :=
  map fst (series df).

(** [name in df.columns] *)
Definition has_column {V : Type} (df : DataFrame V) (name : string) : bool :=
  existsb (String.eqb name) (columns df).

(** [df.empty]: one of the two axes has length zero. *)
Definition df_empty {V : Type} (df : DataFrame V) : bool :=
  (n_rows df =? 0)%nat || (length (series df) =? 0)%nat.

(** [df.rename(columns=mapping)]: every label found in the mapping is
    replaced, the values stay with their column. *)
Definition rename {V : Type} (df : DataFrame V) (mapping : dict string) : DataFrame V :=
  mkDataFrame (n_rows df)
    (map (fun c => (match dict_get mapping (fst c) with
                    | Some name => name
                    | None => fst c
                    end, snd c)) (series df)).

(** A cell of a sheet as [pd.read_excel] gives it. *)
Inductive sheet_cell : Type :=
| Blank                       (* NaN/None: a missing value [fillna] fills *)
| Value (text : string)       (* a value, with what [astype(str)] prints *)
| NaT.                        (* the missing entry of a datetime64 column *)

(** [df[name] = v] for a label that is not yet a column: a new last column
    holding the scalar in every row. *)
Definition add_column (df : DataFrame sheet_cell) (name v : string)
  : DataFrame sheet_cell :=
  mkDataFrame (n_rows df) ((series df ++ [(name, repeat (Value v) (n_rows df))])%list).

(** [if name not in df.columns: df[name] = v] *)
Definition ensure_column (df : DataFrame sheet_cell) (name v : string)
  : DataFrame sheet_cell :=
  if has_column df name then df else add_column df name v.

(** One row of [df.iterrows()]: a Series indexed by the column labels. *)
Definition Event : Type := dict string.

Definition row_at (df : DataFrame string) (i : nat) : Event :=
  map (fun c => (fst c, nth i (snd c) EmptyString)) (series df).

Definition iterrows (df : DataFrame string) : list Event :=
  map (row_at df) (seq 0 (n_rows df)).

(** [event[k]] *)
Definition getitem (event : Event) (k : string) : result string :=
  match dict_get event k with
  | Some v => Ok v
  | None => Raise (KeyError k)
  end.

(* ================================================================== *)
(** ** Record normaliser: [normalize_dataframe] *)

Inductive ui_call : Type :=
| st_sidebar_info (msg : string)
| st_sidebar_write_columns (cols : list string)
| st_warning (msg : string).

Definition CHRONOS : string := "CHR – Chronos".

(** The [if]/[elif] chain on one column label. *)
Definition canonical_name (col : string) : option string :=
  let col_str := strip col in
  let col_lower := lower col_str in
  if contains "date" col_lower || String.eqb col_lower "day" then Some "day"
  else if contains "activity" col_lower || contains "title" col_lower then Some "title"
  else if contains "start" col_lower then Some "start"
  else if contains "end" col_lower then Some "end"
  else if contains "archetype" col_lower then Some "archetype"
  else if contains "note" col_lower || contains "detail" col_lower
          || contains "exam" col_lower then Some "notes"
  else None.

(** The body of the loop that fills [column_mapping]. *)
Definition mapping_step (mapping : dict string) (col : string) : dict string :=
  match canonical_name col with
  | Some name => dict_set mapping col name               (* column_mapping[col] = name *)
  | None => mapping
  end.

Definition column_mapping (cols : list string) : dict string :=
  fold_left mapping_step cols [].

(** [fillna("").astype(str).str.strip()] on one value.  The filling does
    not reach the missing entry of a datetime64 column, which is then
    printed. *)
Definition clean_value (c : sheet_cell) : string :=
  match c with
  | Blank => EmptyString
  | Value s => strip s
  | NaT => strip "NaT"
  end.

(** The cleaning loop.  It visits the labels in order; [df[col]] is one
    Series only when the label occurs once.  With a repeated label it is a
    DataFrame, which has no [.str] accessor: AttributeError. *)
Fixpoint clean_columns (labels : list string) (todo : list (string * list sheet_cell))
  : result (list (string * list string)) :=
  match todo with
  | [] => Ok []
  | (col, vs) :: rest =>
      if (1 <? count_occ string_dec labels col)%nat then Raise AttributeError
      else
        rest' <- clean_columns labels rest ;;
        Ok ((col, map clean_value vs) :: rest')
  end.

Definition normalize_dataframe (df : DataFrame sheet_cell) (file_name : string)
  : result (DataFrame string * list ui_call) :=
  let mapping := column_mapping (columns df) in
  let df := rename df mapping in
  let required := ["day"; "title"; "start"; "end"] in
  let df := fold_left (fun df col => ensure_column df col EmptyString) required df in
  let df := ensure_column df "archetype" CHRONOS in
  let df := ensure_column df "notes" EmptyString in
  cleaned <- clean_columns (columns df) (series df) ;;
  let df := mkDataFrame (n_rows df) cleaned in
  Ok (df, [ st_sidebar_info ("📊 " ++ file_name);
            st_sidebar_write_columns (columns df) ]).

(* ================================================================== *)
(** ** Archetype catalogue *)

Record archetype_info : Type := mkInfo {
  description : string;
  color : string;
  symbol : string
}.

Definition EMPTY : string := "(empty)".

Definition GREEK_ARCHETYPES : dict archetype_info :=
  [ ("CHR – Chronos", mkInfo "Sequential, measurable clock time" "#1f77b4" "⏱️");
    ("KAI – Kairos", mkInfo "Perfect timing, opportune moments" "#ff7f0e" "🎯");
    ("AIO – Aion", mkInfo "Timeless, eternal perspective" "#2ca02c" "♾️");
    ("ANA – Ananke", mkInfo "Necessity, urgent obligations" "#d62728" "⚡");
    ("HEL – Helios", mkInfo "Daylight, active productive hours" "#ffd700" "☀️");
    ("NYX – Nyx", mkInfo "Night-time, rest and shadow work" "#4b0082" "🌙");
    ("EOS – Eos", mkInfo "Dawn, fresh starts and new beginnings" "#ff69b4" "🌅");
    ("HOR – Horae", mkInfo "Natural rhythms, seasons and cycles" "#32cd32" "🌱");
    ("MNE – Mnemosyne", mkInfo "Memory work, reflection and learning" "#8a2be2" "💭");
    ("HYP – Hypnos", mkInfo "Sleep, deep rest and recovery" "#4682b4" "😴");
    ("ONE – Oneiros", mkInfo "Dreams, imagination and creative play" "#da70d6" "✨");
    ("Movement/Commute", mkInfo "Travel and transportation" "#7f7f7f" "🚌");
    ("(empty)", mkInfo "Free/unscheduled time" "#f0f0f0" "⭕") ].

(* ================================================================== *)
(** ** Grid builder: [create_calendar_heatmap] *)

(** [list(range(start, stop, step))] for a positive step. *)
Definition py_range (start stop step : Z) : list Z :=
  map (fun k => (start + step * Z.of_nat k)%Z)
      (seq 0 (Z.to_nat ((stop - start + step - 1) / step))).

Definition slot_minutes : Z := 30.
Definition start_hour : Z := 6.
Definition end_hour : Z := 23.

Definition slots : list Z :=
  py_range (start_hour * 60) (end_hour * 60) slot_minutes.

Definition y_labels : list string :=
  map (fun m => format_02d (m / 60) ++ ":" ++ format_02d (m mod 60)) slots.

(** Truth value of what [parse_time_minutes] returns: [None] and [0] are
    false. *)
Definition truthy (m : option Z) : bool :=
  match m with
  | None => false
  | Some n => negb (n =? 0)%Z
  end.

(** [start_min and end_min and start_min <= slot < end_min] *)
Definition slot_test (start_min end_min : option Z) (slot : Z) : bool :=
  truthy start_min && truthy end_min &&
  match start_min, end_min with
  | Some s, Some e => (s <=? slot)%Z && (slot <? e)%Z
  | _, _ => false
  end.

(** The test of the loop over [day_events.iterrows()] for one event. *)
Definition event_in_slot (slot : Z) (event : Event) : result bool :=
  start_str <- getitem event "start" ;;
  let start_min := parse_time_minutes (Some start_str) in
  end_str <- getitem event "end" ;;
  let end_min := parse_time_minutes (Some end_str) in
  Ok (slot_test start_min end_min slot).

(** The row mask [df["day"].str.strip().str.lower() == day_str.lower()]. *)
Definition on_day (day : string) (event : Event) : bool :=
  let day_str := strip day in
  match dict_get event "day" with
  | Some d => String.eqb (lower (strip d)) (lower day_str)
  | None => false
  end.

(** [day_events]: the rows of [df] selected by the mask, in row order. *)
Definition day_events (df : DataFrame string) (day : string) : result (list Event) :=
  if has_column df "day" then Ok (filter (on_day day) (iterrows df))
  else Raise (KeyError "day").

(** [df[name]]: the values of a column along the index. *)
Definition getcol (df : DataFrame string) (name : string) : result (list string) :=
  map_each (fun event => getitem event name) (iterrows df).

(** [Series.unique()]: first occurrences, in order. *)
Fixpoint unique (l : list string) : list string :=
  match l with
  | [] => []
  | x :: l' => x :: filter (fun y => negb (String.eqb x y)) (unique l')
  end.

(** [d[k]] on the index dictionary. *)
Definition index_of (arch_to_idx : dict nat) (k : string) : result nat :=
  match dict_get arch_to_idx k with
  | Some i => Ok i
  | None => Raise (KeyError k)
  end.

Record grid_cell : Type := mkCell {
  cell_z : nat;
  cell_text : string;
  cell_hover : string
}.

Definition NL_INDENT : string := "
                ".

Definition arch_symbol (archetype : string) : string :=
  match dict_get GREEK_ARCHETYPES archetype with
  | Some info => symbol info
  | None => EmptyString
  end.

Definition arch_description (archetype : string) : string :=
  match dict_get GREEK_ARCHETYPES archetype with
  | Some info => description info
  | None => EmptyString
  end.

Definition arch_color (archetype : string) : string :=
  match dict_get GREEK_ARCHETYPES archetype with
  | Some info => color info
  | None => "#cccccc"
  end.

(** The three values appended for a cell whose [matching_events] starts
    with [event]. *)
Definition event_cell (arch_to_idx : dict nat) (day : string) (event : Event)
  : result grid_cell :=
  archetype <- getitem event "archetype" ;;
  z <- index_of arch_to_idx archetype ;;
  let symbol := arch_symbol archetype in
  title <- getitem event "title" ;;
  let display_text := if nonempty symbol then symbol ++ " " ++ title else title in
  start_str <- getitem event "start" ;;
  end_str <- getitem event "end" ;;
  let hover_text :=
    NL_INDENT ++ "<b>" ++ day ++ "</b><br>" ++
    NL_INDENT ++ "<b>⏰ " ++ start_str ++ " - " ++ end_str ++ "</b><br>" ++
    NL_INDENT ++ "📝 <b>" ++ title ++ "</b><br>" ++
    NL_INDENT ++ "🏛️ <i>" ++ archetype ++ "</i><br>" ++
    NL_INDENT ++ "📋 " ++ arch_description archetype ++ "<br>" ++
    NL_INDENT in
  let hover_text :=
    match dict_get event "notes" with                  (* event.get('notes') *)
    | Some notes =>
        if nonempty (strip notes)
        then hover_text ++ "📎 <i>Notes: " ++ notes ++ "</i><br>"
        else hover_text
    | None => hover_text
    end in
  Ok (mkCell z (take_chars 30 display_text) hover_text).

(** The values appended for a cell with no matching event. *)
Definition empty_cell (arch_to_idx : dict nat) (day : string) : result grid_cell :=
  z <- index_of arch_to_idx EMPTY ;;
  Ok (mkCell z EmptyString
        ("<b>" ++ day ++ "</b><br>Free time<br><i>No scheduled activities</i>")).

(** [matching_events] of one slot and day. *)
Definition matching_events (df : DataFrame string) (slot : Z) (day : string)
  : result (list Event) :=
  evs <- day_events df day ;;
  filter_each (event_in_slot slot) evs.

(** The body of the loop over [days] for one slot. *)
Definition resolve_cell (df : DataFrame string) (arch_to_idx : dict nat)
    (slot : Z) (day : string) : result grid_cell :=
  matching <- matching_events df slot day ;;
  match matching with
  | [] => empty_cell arch_to_idx day
  | event :: _ => event_cell arch_to_idx day event     (* matching_events[0] *)
  end.

(** What is handed to [go.Heatmap] and to the title of the layout; a colour
    stop [i/len] is kept as the pair of [i] and [len]. *)
Record Figure : Type := mkFigure {
  fig_z : list (list nat);
  fig_x : list string;
  fig_y : list string;
  fig_text : option (list (list string));
  fig_hovertext : list (list string);
  fig_colorscale : list (nat * nat * string);
  fig_title : string
}.

Definition all_archetypes_of (archetypes : list string) : list string :=
  sorted_set ((unique archetypes ++ [EMPTY])%list).

(** [{a: i for i, a in enumerate(all_archetypes)}] *)
Definition index_dict (all_archetypes : list string) : dict nat :=
  combine all_archetypes (seq 0 (length all_archetypes)).

Definition create_calendar_heatmap (df : DataFrame string) (days : list string)
    (week_key : string) (show_text : bool) : result (option Figure * list ui_call) :=
  if df_empty df then Ok (None, [st_warning "No data to display"])
  else
    archetypes <- getcol df "archetype" ;;
    let all_archetypes := all_archetypes_of archetypes in
    let arch_to_idx := index_dict all_archetypes in
    grid <- map_each (fun slot =>
                        map_each (resolve_cell df arch_to_idx slot) days) slots ;;
    let z := map (map cell_z) grid in
    let text := map (map cell_text) grid in
    let hover := map (map cell_hover) grid in
    let colorscale :=
      map (fun ia => (fst ia, length all_archetypes, arch_color (snd ia)))
          (combine (seq 0 (length all_archetypes)) all_archetypes) in
    Ok (Some (mkFigure z days y_labels
                (if show_text then Some text else None)
                hover colorscale
                ("📅 " ++ capitalize week_key ++ " Week Schedule")),
        []).

(* ================================================================== *)
(** ** Export table: [create_excel_export] *)

(** The sheet: its title and the cells written, oldest first, each with its
    row, its column and its value. *)
Record Worksheet : Type := mkSheet {
  ws_title : string;
  ws_cells : list (nat * nat * string)
}.

(** [ws.cell(row=row, column=column, value=value)], as a request: whether
    openpyxl takes the value is part of its answer for the whole sheet. *)
Definition ws_cell (cells : list (nat * nat * string)) (row column : nat) (value : string)
  : list (nat * nat * string) :=
  (cells ++ [(row, column, value)])%list.

(** The body of the loop over [day_events.iterrows()]; the state is the
    cells written so far and the counter [row]. *)
Definition export_event (day : string) (st : list (nat * nat * string) * nat)
    (event : Event) : result (list (nat * nat * string) * nat) :=
  let (cells, row) := st in
  let cells := ws_cell cells row 1 day in
  start_str <- getitem event "start" ;;
  end_str <- getitem event "end" ;;
  let cells := ws_cell cells row 2 (start_str ++ "-" ++ end_str) in
  title <- getitem event "title" ;;
  let cells := ws_cell cells row 3 title in
  archetype <- getitem event "archetype" ;;
  let cells := ws_cell cells row 4 archetype in
  let cells :=
    match dict_get event "notes" with                  (* pd.notna(event.get('notes')) *)
    | Some notes => ws_cell cells row 5 notes
    | None => cells
    end in
  Ok (cells, S row).

(** The body of the loop over [days]. *)
Definition export_day (df : DataFrame string) (st : list (nat * nat * string) * nat)
    (day : string) : result (list (nat * nat * string) * nat) :=
  evs <- day_events df day ;;
  match evs with
  | [] =>                                              (* day_events.empty *)
      let (cells, row) := st in
      let cells := ws_cell cells row 1 day in
      let cells := ws_cell cells row 3 "Free time" in
      Ok (cells, S row)
  | _ => for_each (export_event day) evs st
  end.

Definition HEADERS : list string := ["Day"; "Time"; "Activity"; "Archetype"; "Notes"].

(** The first data row of the sheet. *)
Definition FIRST_ROW : nat := 4.

(** [create_excel_export], up to openpyxl: the title and the cells it is
    asked for, in the order of the calls. *)
Definition create_excel_export (df : DataFrame string) (week_type : string)
    (days : list string) : result Worksheet :=
  let title := week_type ++ " Schedule" in
  let cells := ws_cell [] 1 1 ("📋 " ++ capitalize week_type ++ " Week Schedule") in
  let cells :=
    fold_left (fun cells ch => ws_cell cells 3 (fst ch) (snd ch))
              (combine (seq 1 (length HEADERS)) HEADERS) cells in
  st <- for_each (export_day df) days (cells, FIRST_ROW) ;;
  Ok (mkSheet title (fst st)).

(* ================================================================== *)
(** ** The specification's formulations

    Definitions that follow the wording of the specification, to be
    compared with the embedded code. *)

(** Slot occupancy as specified: both bounds parse, and
    start <= slot < end. *)
Definition occupies_slot_spec (event : Event) (slot : Z) : bool :=
  match dict_get event "start", dict_get event "end" with
  | Some start_str, Some end_str =>
      match parse_time_minutes (Some start_str), parse_time_minutes (Some end_str) with
      | Some s, Some e => (s <=? slot)%Z && (slot <? e)%Z
      | _, _ => false
      end
  | _, _ => false
  end.

(** The keyword rules in their priority order, on a lower-cased label;
    [is_day] is the test for the label that is the word "day". *)
Definition field_rules (is_day : string -> bool) : list (string * (string -> bool)) :=
  [ ("day", fun l => contains "date" l || is_day l);
    ("title", fun l => contains "activity" l || contains "title" l);
    ("start", fun l => contains "start" l);
    ("end", fun l => contains "end" l);
    ("archetype", fun l => contains "archetype" l);
    ("notes", fun l => contains "note" l || contains "detail" l || contains "exam" l) ].

(** The first field whose rule matches, if any. *)
Fixpoint first_match (rules : list (string * (string -> bool))) (l : string)
  : option string :=
  match rules with
  | [] => None
  | (field, rule) :: rules' => if rule l then Some field else first_match rules' l
  end.

(** The classification as specified: "day" when the label equals "day"
    exactly, case apart. *)
Definition classify_as_specified (label : string) : option string :=
  first_match (field_rules (fun l => String.eqb l "day")) (lower label).

(** The six canonical fields with the value synthesised for an absent one. *)
Definition canonical_defaults : list (string * string) :=
  [ ("day", EmptyString); ("title", EmptyString); ("start", EmptyString);
    ("end", EmptyString); ("archetype", CHRONOS); ("notes", EmptyString) ].

Definition canonical_fields : list string := map fst canonical_defaults.

(** The label a column carries after the renaming. *)
Definition renamed_label (col : string) : string :=
  match canonical_name col with
  | Some name => name
  | None => col
  end.

Definition renamed_labels (df : DataFrame sheet_cell) : list string :=
  map renamed_label (columns df).

(** A frame that has the six canonical columns. *)
Definition canonical (df : DataFrame string) : Prop :=
  forall field, In field canonical_fields -> has_column df field = true.

(** Order of two values by their keys. *)
Definition key_le {A : Type} (key : A -> nat) (x y : A) : Prop :=
  (key x <= key y)%nat.

(** Rank of a day label as specified: lower-case it, take its first
    white-space-delimited token, look it up in the weekday table; 99 when
    there is no token or the token is not in the table. *)
Definition day_rank (label : string) : nat :=
  match split_ws (lower label) with
  | [] => 99%nat
  | token :: _ =>
      match dict_get day_order token with
      | Some rank => rank
      | None => 99%nat
      end
  end.

(** A row of the export table as specified. *)
Inductive export_row : Type :=
| FreeTime (day : string)
| EventRow (day time_range title archetype notes : string).

Definition field_of (event : Event) (k : string) : string :=
  match dict_get event k with
  | Some v => v
  | None => EmptyString
  end.

Definition event_row (day : string) (event : Event) : export_row :=
  EventRow day (field_of event "start" ++ "-" ++ field_of event "end")
           (field_of event "title") (field_of event "archetype")
           (field_of event "notes").

(** The export table as specified: for each day in the order given, one
    placeholder row when no event is on that day, else one row per event
    of that day in stored order. *)
Definition export_table (df : DataFrame string) (days : list string) : list export_row :=
  flat_map (fun day =>
              match filter (on_day day) (iterrows df) with
              | [] => [FreeTime day]
              | evs => map (event_row day) evs
              end) days.

(** The cells of one table row on sheet row [r]. *)
Definition row_cells (r : nat) (row : export_row) : list (nat * nat * string) :=
  match row with
  | FreeTime day => [(r, 1%nat, day); (r, 3%nat, "Free time")]
  | EventRow day time_range title archetype notes =>
      [(r, 1%nat, day); (r, 2%nat, time_range); (r, 3%nat, title);
       (r, 4%nat, archetype); (r, 5%nat, notes)]
  end.

(** The table laid out from sheet row [r] downwards, one sheet row each. *)
Fixpoint layout (r : nat) (rows : list export_row) : list (nat * nat * string) :=
  match rows with
  | [] => []
  | row :: rows' => (row_cells r row ++ layout (S r) rows')%list
  end.

(** The title cell and the header row. *)
Definition sheet_head (week_type : string) : list (nat * nat * string) :=
  [ (1%nat, 1%nat, "📋 " ++ capitalize week_type ++ " Week Schedule");
    (3%nat, 1%nat, "Day"); (3%nat, 2%nat, "Time"); (3%nat, 3%nat, "Activity");
    (3%nat, 4%nat, "Archetype"); (3%nat, 5%nat, "Notes") ].

(** A string with no white space in it. *)
Fixpoint no_space (s : string) : bool :=
  match s with
  | EmptyString => true
  | String c s' => negb (is_space c) && no_space s'
  end.

(** A mapping that only holds what [canonical_name] answers. *)
Definition consistent (mapping : dict string) : Prop :=
  forall k v, dict_get mapping k = Some v -> canonical_name k = Some v.

(** No label occurs twice. *)
Definition distinct (labels : list string) : bool :=
  forallb (fun x => (count_occ string_dec labels x <=? 1)%nat) labels.

(** The canonical fields that no renamed column provides, with their
    synthesised value. *)
Definition missing_defaults (labels : list string) : list (string * string) :=
  filter (fun p => negb (existsb (String.eqb (fst p)) labels)) canonical_defaults.

(** The columns of the normalised frame: every input column in place, under
    its renamed label and with cleaned values, then the synthesised ones. *)
Definition normalized_series (df : DataFrame sheet_cell) : list (string * list string) :=
  (map (fun c => (renamed_label (fst c), map clean_value (snd c))) (series df) ++
   map (fun p => (fst p, repeat (snd p) (n_rows df)))
       (missing_defaults (renamed_labels df)))%list.

(** The [if ... not in df.columns] statements of the normaliser, as one
    loop over pairs of a label and its scalar. *)
Definition ensure_all (df : DataFrame sheet_cell) (pairs : list (string * string))
  : DataFrame sheet_cell :=
  fold_left (fun df p => ensure_column df (fst p) (snd p)) pairs df.

(** The value synthesised for a canonical field that no column provides. *)
Definition default_value (field : string) : string :=
  if String.eqb field "archetype" then CHRONOS else EmptyString.

(* ================================================================== *)
(** ** Sample data *)

(** The sheet shown in the help text of the application, with one more
    column, a missing note and padded cells. *)
Definition busy_sheet : DataFrame sheet_cell :=
  mkDataFrame 3
    [ ("Date", [Value "Monday"; Value " monday "; Value "Tuesday"]);
      ("Activity", [Value "Commute to school"; Value "Revision"; Value "Night shift"]);
      ("Room", [Value "B12"; Blank; Value " Hall "]);
      ("Start Time", [Value "08:00"; Value "08:30:00"; Value "00:00"]);
      ("End Time", [Value "08:45"; Value "10:00"; Value "07:00"]);
      ("Notes (Exam Duration)", [Value "Bus ride"; Blank; Value "soon"]) ].

(** [busy_sheet] once normalised. *)
Definition busy_week : DataFrame string :=
  mkDataFrame 3 (normalized_series busy_sheet).

(** A sheet with two columns that both classify as day. *)
Definition two_day_columns : DataFrame sheet_cell :=
  mkDataFrame 1
    [ ("Date", [Value "Monday"]); ("Day", [Value "Tuesday"]);
      ("Activity", [Value "Revision"]) ].

(** A sheet whose Date column holds dates and one empty cell, which
    [pd.read_excel] reads as a datetime64 column with a NaT; the note of
    the first row is missing, the other one padded. *)
Definition dated_sheet : DataFrame sheet_cell :=
  mkDataFrame 2
    [ ("Date", [Value "2024-01-01"; NaT]);
      ("Activity", [Value "Revision"; Value "Exam"]);
      ("Start", [Value "08:00"; Value "10:00"]);
      ("End", [Value "09:00"; Value "12:00"]);
      ("Notes", [Blank; Value "  bring ID "]) ].

(** A Monday with a watch that starts at midnight and, in the next row, a
    breakfast inside the hours of the watch. *)
Definition watch_sheet : DataFrame sheet_cell :=
  mkDataFrame 2
    [ ("Day", [Value "Monday"; Value "Monday"]);
      ("Activity", [Value "Night watch"; Value "Breakfast"]);
      ("Start", [Value "00:00"; Value "08:00"]);
      ("End", [Value "09:00"; Value "09:00"]);
      ("Archetype", [Value "NYX – Nyx"; Value "EOS – Eos"]) ].

(** [watch_sheet] once normalised. *)
Definition watch_week : DataFrame string :=
  mkDataFrame 2 (normalized_series watch_sheet).

(** The third row of the normalised sample: Tuesday, 00:00 to 07:00. *)
Definition night_shift : Event := row_at busy_week 2.

(** Entry of row [i] and column [j] of a matrix. *)
Definition cell_at {A : Type} (m : list (list A)) (i j : nat) : option A :=
  match nth_error m i with
  | Some row => nth_error row j
  | None => None
  end.

(** A test that may raise, read as a boolean: true when it returns true. *)
Definition passes {A : Type} (p : A -> result bool) (x : A) : bool :=
  match p x with
  | Ok true => true
  | _ => false
  end.

(** The days of the sample, in calendar order. *)
Definition busy_days : list string := ["Monday"; "Tuesday"].

(* ================================================================== *)
(** ** Further notions used in the statements *)

(** The f-string of one axis label, [f"{m//60:02d}:{m%60:02d}"]. *)
Definition slot_label (m : Z) : string :=
  format_02d (m / 60) ++ ":" ++ format_02d (m mod 60).

(** Value of a run of decimal digits read after the value [acc]. *)
Fixpoint uint_value (acc : Z) (d : Decimal.uint) : Z :=
  match d with
  | Decimal.Nil => acc
  | Decimal.D0 d' => uint_value (10 * acc + 0) d'
  | Decimal.D1 d' => uint_value (10 * acc + 1) d'
  | Decimal.D2 d' => uint_value (10 * acc + 2) d'
  | Decimal.D3 d' => uint_value (10 * acc + 3) d'
  | Decimal.D4 d' => uint_value (10 * acc + 4) d'
  | Decimal.D5 d' => uint_value (10 * acc + 5) d'
  | Decimal.D6 d' => uint_value (10 * acc + 6) d'
  | Decimal.D7 d' => uint_value (10 * acc + 7) d'
  | Decimal.D8 d' => uint_value (10 * acc + 8) d'
  | Decimal.D9 d' => uint_value (10 * acc + 9) d'
  end.

Definition is_digit (c : ascii) : bool :=
  match digit_value c with
  | Some _ => true
  | None => false
  end.

(** A string made of decimal digits only. *)
Fixpoint digits_only (s : string) : bool :=
  match s with
  | EmptyString => true
  | String c s' => is_digit c && digits_only s'
  end.

(** [str(n)] for an integer. *)
Definition decimal_digits (n : Z) : string :=
  NilZero.string_of_int (Z.to_int n).

(** A normalised frame read again as a sheet: every value present. *)
Definition as_sheet (df : DataFrame string) : DataFrame sheet_cell :=
  mkDataFrame (n_rows df) (map (fun c => (fst c, map Value (snd c))) (series df)).

(** No date column of the sheet has an empty cell. *)
Definition dates_complete (df : DataFrame sheet_cell) : bool :=
  forallb (fun c => forallb (fun v => match v with NaT => false | _ => true end) (snd c))
          (series df).

(** Every column has one value per index entry. *)
Definition rectangular {V : Type} (df : DataFrame V) : Prop :=
  Forall (fun c => length (snd c) = n_rows df) (series df).

(** A string made of white space only. *)
Fixpoint blank (s : string) : bool :=
  match s with
  | EmptyString => true
  | String c s' => is_space c && blank s'
  end.

(** [t] is [s] trimmed: [s] without the white space it starts with and
    the white space it ends with. *)
Definition trimmed_of (s t : string) : Prop :=
  (exists a b, s = a ++ t ++ b /\ blank a = true /\ blank b = true) /\
  (forall c r, t = String c r -> is_space c = false) /\
  (forall r c, t = r ++ String c EmptyString -> is_space c = false).

(** The code points Python counts as white space, on the ASCII range. *)
Definition WHITE_SPACE : list nat := [9; 10; 11; 12; 13; 28; 29; 30; 31; 32]%nat.

(** [len(s)]: the number of code points, one per byte that does not
    continue another. *)
Fixpoint code_points (s : string) : nat :=
  match s with
  | EmptyString => 0%nat
  | String c s' => ((if is_continuation c then 0 else 1) + code_points s')%nat
  end.

(** The hover text of a cell without event. *)
Definition free_hover (day : string) : string :=
  "<b>" ++ day ++ "</b><br>Free time<br><i>No scheduled activities</i>".

(** The hover text of a cell that shows [event]: day, hours, title,
    archetype and its description, then the notes when they are not
    blank. *)
Definition event_hover (day : string) (event : Event) : string :=
  let hover_text :=
    NL_INDENT ++ "<b>" ++ day ++ "</b><br>" ++
    NL_INDENT ++ "<b>⏰ " ++ field_of event "start" ++ " - "
              ++ field_of event "end" ++ "</b><br>" ++
    NL_INDENT ++ "📝 <b>" ++ field_of event "title" ++ "</b><br>" ++
    NL_INDENT ++ "🏛️ <i>" ++ field_of event "archetype" ++ "</i><br>" ++
    NL_INDENT ++ "📋 " ++ arch_description (field_of event "archetype") ++ "<br>" ++
    NL_INDENT in
  if nonempty (strip (field_of event "notes"))
  then hover_text ++ "📎 <i>Notes: " ++ field_of event "notes" ++ "</i><br>"
  else hover_text.

(** The day a row of the export table is for. *)
Definition row_day (row : export_row) : string :=
  match row with
  | FreeTime day => day
  | EventRow day _ _ _ _ => day
  end.

(** The label of a cell before it is cut: the symbol of the archetype, when
    it has one, a blank, and the title. *)
Definition display_text (archetype title : string) : string :=
  if nonempty (arch_symbol archetype)
  then arch_symbol archetype ++ " " ++ title
  else title.

(* ================================================================== *)
(** ** The application: [main] and [export_calendar_as_png]

    What the file system, [pd.read_excel], the widgets, the image
    renderer and openpyxl answer are inputs; the calls made on the sidebar
    and on the page are the output, in order. *)

(** The days of a tab: [sort_days(df["day"].unique())]. *)
Definition tab_days (df : DataFrame string) : result (list string) :=
  day_column <- getcol df "day" ;;
  Ok (sort_days (map Some (unique day_column))).

(** The calls made on the sidebar while the schedules are loaded; an error
    message is kept as its fixed text and the exception it prints. *)
Inductive sidebar_call : Type :=
| from_normalizer (call : ui_call)
| st_sidebar_success (msg : string)
| st_sidebar_note (msg : string)
| st_sidebar_error (msg : string) (e : exn).

(** The two schedules held by [main]. *)
Record schedules : Type := mkSchedules {
  busy_df : DataFrame string;
  quiet_df : DataFrame string
}.

(** [pd.DataFrame()] *)
Definition NO_FRAME : DataFrame string := mkDataFrame 0 [].

(** [pd.read_excel] then [normalize_dataframe], inside a [try]; what
    [pd.read_excel] gives, a sheet or an exception, is an input. *)
Definition read_and_normalize (read : result (DataFrame sheet_cell)) (file_name : string)
  : result (DataFrame string * list ui_call) :=
  raw <- read ;; normalize_dataframe raw file_name.

(** [if busy_path.exists(): ...]; [None] when the file is not there. *)
Definition load_busy_week (file : option (result (DataFrame sheet_cell)))
    (st : schedules * list sidebar_call) : schedules * list sidebar_call :=
  match file with
  | None => st
  | Some read =>
      match read_and_normalize read "busy_week.xlsx" with
      | Ok (df, calls) =>
          (mkSchedules df (quiet_df (fst st)),
           (snd st ++ map from_normalizer calls ++
            [st_sidebar_success "✅ Loaded busy week"])%list)
      | Raise e =>
          (fst st, (snd st ++ [st_sidebar_error "❌ Error loading busy week: " e])%list)
      end
  end.

(** [if quiet_path.exists(): ...] *)
Definition load_quiet_week (file : option (result (DataFrame sheet_cell)))
    (st : schedules * list sidebar_call) : schedules * list sidebar_call :=
  match file with
  | None => st
  | Some read =>
      match read_and_normalize read "quiet_week.xlsx" with
      | Ok (df, calls) =>
          (mkSchedules (busy_df (fst st)) df,
           (snd st ++ map from_normalizer calls ++
            [st_sidebar_success
               ("✅ Loaded quiet week: " ++ decimal_digits (Z.of_nat (n_rows df))
                ++ " events")])%list)
      | Raise e =>
          (fst st, (snd st ++ [st_sidebar_error "❌ Error loading quiet week: " e])%list)
      end
  end.

(** The body of the loop over [uploaded_files]; a file is its name and what
    [pd.read_excel] gives for it. *)
Definition load_upload (st : schedules * list sidebar_call)
    (uploaded_file : string * result (DataFrame sheet_cell))
  : schedules * list sidebar_call :=
  let name := fst uploaded_file in
  match read_and_normalize (snd uploaded_file) name with
  | Ok (normalized_df, calls) =>
      if contains "busy" (lower name) then
        (mkSchedules normalized_df (quiet_df (fst st)),
         (snd st ++ map from_normalizer calls ++
          [st_sidebar_success ("✅ Loaded " ++ name ++ " as busy week")])%list)
      else if contains "quiet" (lower name) then
        (mkSchedules (busy_df (fst st)) normalized_df,
         (snd st ++ map from_normalizer calls ++
          [st_sidebar_success ("✅ Loaded " ++ name ++ " as quiet week")])%list)
      else
        (mkSchedules normalized_df (quiet_df (fst st)),
         (snd st ++ map from_normalizer calls ++
          [st_sidebar_note ("📄 Loaded " ++ name)])%list)
  | Raise e =>
      (fst st, (snd st ++ [st_sidebar_error ("❌ Error loading " ++ name ++ ": ") e])%list)
  end.

(** The loading part of [main]: the two files of the data directory, then
    the uploaded files in order. *)
Definition load_schedules (busy_file quiet_file : option (result (DataFrame sheet_cell)))
    (uploaded_files : list (string * result (DataFrame sheet_cell)))
  : schedules * list sidebar_call :=
  let st := (mkSchedules NO_FRAME NO_FRAME, []) in
  let st := load_busy_week busy_file st in
  let st := load_quiet_week quiet_file st in
  fold_left load_upload uploaded_files st.


(** The calls made on the page; an error message is kept as its fixed text
    and the exception it prints. *)
Inductive page_call : Type :=
| from_builder (call : ui_call)
| st_error (msg : string) (e : exn)
| st_error_text (msg : string)
| st_tabs (labels : list string)
| st_subheader (text : string)
| st_write (text : string)
| st_expander_dataframe (label : string) (df : DataFrame string)
| st_checkbox (label key : string)
| st_plotly_chart (fig : Figure)
| st_columns (n : nat)
| st_button (label key : string)
| st_download_png (label file_name key : string) (data : string)
| st_download_excel (label file_name key : string) (data : string)
| st_page_warning (msg : string)
| st_info (msg : string).


(** [fig.update_layout(title=dict(text=...))] *)
Definition with_title (fig : Figure) (title : string) : Figure :=
  mkFigure (fig_z fig) (fig_x fig) (fig_y fig) (fig_text fig)
           (fig_hovertext fig) (fig_colorscale fig) title.


Section Rendering.

(** [pio.to_image(fig, format="png", ...)]: the bytes of the image, or an
    exception. *)
Variable to_image : Figure -> result string.

(** openpyxl asked for a sheet: the bytes [wb.save] writes, or the exception
    it raises on the way, ValueError for a title and IllegalCharacterError
    for a text that it refuses. *)
Variable save_workbook : Worksheet -> result string.

Definition export_calendar_as_png (df : DataFrame string) (days : list string)
    (week_key : string) : result (option string * list page_call) :=
  r <- create_calendar_heatmap df days week_key true ;;
  let calls := map from_builder (snd r) in
  match fst r with
  | None => Ok (None, calls)
  | Some fig =>
      let fig :=
        with_title fig ("📅 " ++ capitalize week_key ++ " Week Schedule - EXPORT") in
      match to_image fig with
      | Ok img_bytes => Ok (Some img_bytes, calls)
      | Raise e => Ok (None, (calls ++ [st_error "Error generating PNG: " e])%list)
      end
  end.





End Rendering.

(** The frame an uploaded file gives, when it can be read and normalised. *)
Definition loaded_frame (uploaded_file : string * result (DataFrame sheet_cell))
  : option (DataFrame string) :=
  match read_and_normalize (snd uploaded_file) (fst uploaded_file) with
  | Ok (df, _) => Some df
  | Raise _ => None
  end.

(** A file name that sends an upload to the quiet week: lower-cased, it
    has "quiet" in it and not "busy". *)
Definition goes_to_quiet (name : string) : bool :=
  negb (contains "busy" (lower name)) && contains "quiet" (lower name).

(** The frame of the last file of the list, among those whose name
    satisfies [p], that loads. *)
Fixpoint last_loaded (p : string -> bool)
    (files : list (string * result (DataFrame sheet_cell))) : option (DataFrame string) :=
  match files with
  | [] => None
  | file :: rest =>
      match last_loaded p rest with
      | Some df => Some df
      | None => if p (fst file) then loaded_frame file else None
      end
  end.

(** A schedule as [main] can hold one: the frame without rows and columns
    it starts with, or a frame with the six canonical columns and no label
    twice. *)
Definition held (df : DataFrame string) : Prop :=
  df = NO_FRAME \/ (canonical df /\ NoDup (columns df)).

(* ================================================================== *)
(** * Properties *)

(** ** Strings *)

Lemma split_on_nonnil : forall sep s, split_on sep s <> [].
Proof.
  intros sep s; destruct s as [|c s]; simpl; [discriminate|].
  destruct (Ascii.eqb c sep); [discriminate|].
  destruct (split_on sep s); discriminate.
Qed.

(** [sep in s] holds exactly when [s.split(sep)] has a second part. *)
Lemma contains_sep_split : forall sep s,
  contains (String sep EmptyString) s = (2 <=? length (split_on sep s))%nat.
Proof.
  intros sep; induction s as [|c s IH].
  - reflexivity.
  - cbn [contains split_on prefix].
    destruct (Ascii.eqb_spec c sep) as [->|Hne].
    + destruct (ascii_dec sep sep) as [_|Hc]; [|congruence].
      pose proof (split_on_nonnil sep s) as Hnn.
      destruct (split_on sep s) as [|p ps]; [congruence|].
      now destruct s.
    + destruct (ascii_dec sep c) as [Hc|_]; [congruence|].
      rewrite IH. simpl.
      pose proof (split_on_nonnil sep s) as Hnn.
      destruct (split_on sep s) as [|p ps]; [congruence|]. reflexivity.
Qed.

Lemma split_on_two_parts : forall sep s p0 p1 rest,
  split_on sep s = p0 :: p1 :: rest ->
  contains (String sep EmptyString) s = true.
Proof.
  intros sep s p0 p1 rest H. rewrite contains_sep_split, H. reflexivity.
Qed.

(** ** The clock parser *)

(** [int] on some texts: leading zeros, surrounding blanks, a sign and an
    underscore between digits are read; a decimal point, a base prefix, a
    blank inside, the empty text and a separator 0x1c-0x1f next to the
    digits are not. *)
Lemma py_int_samples :
  map py_int ["08"; " 8 "; "+8"; "-8"; "1_0"; "00";
              String "009" ("8" ++ String "010" EmptyString)] =
    [Ok 8%Z; Ok 8%Z; Ok 8%Z; Ok (-8)%Z; Ok 10%Z; Ok 0%Z; Ok 8%Z] /\
  map py_int ["8.5"; "0x10"; "1 0"; "- 8"; "_8"; "8_"; "1__0"; "ab";
              "8" ++ String "028" EmptyString; String "031" "8"] =
    repeat (Raise ValueError) 10 /\
  py_int EmptyString = Raise ValueError.
Proof. repeat split; vm_compute; reflexivity. Qed.

Lemma parse_time_minutes_some : forall t n,
  parse_time_minutes t = Some n <->
  exists raw p0 p1 rest h m,
    t = Some raw /\
    split_on ":" (strip raw) = p0 :: p1 :: rest /\
    py_int p0 = Ok h /\ py_int p1 = Ok m /\
    n = (h * 60 + m)%Z.
Proof.
  intros t n; split.
  - unfold parse_time_minutes, parse_time_body.
    destruct t as [raw|]; [|discriminate].
    destruct (contains ":" (strip raw)); [|discriminate].
    destruct (split_on ":" (strip raw)) as [|p0 [|p1 rest]] eqn:Hs; try discriminate.
    destruct (py_int p0) as [h|] eqn:Hh; [|discriminate].
    destruct (py_int p1) as [m|] eqn:Hm; [|discriminate].
    cbn. intros [= <-]. exists raw, p0, p1, rest, h, m. auto.
  - intros (raw & p0 & p1 & rest & h & m & -> & Hs & Hh & Hm & ->).
    unfold parse_time_minutes, parse_time_body.
    rewrite (split_on_two_parts _ _ _ _ _ Hs), Hs, Hh. cbn. rewrite Hm. reflexivity.
Qed.


(** ** White space and case *)

Lemma is_space_lower_char : forall c, is_space (lower_char c) = is_space c.
Proof.
  intros [b0 b1 b2 b3 b4 b5 b6 b7].
  destruct b0, b1, b2, b3, b4, b5, b6, b7; reflexivity.
Qed.

Lemma lstrip_length : forall s, (String.length (lstrip s) <= String.length s)%nat.
Proof.
  induction s as [|c s IH]; simpl; [lia|].
  destruct (is_space c); simpl; lia.
Qed.

Lemma lstrip_fixed_head : forall c s,
  lstrip (String c s) = String c s -> is_space c = false.
Proof.
  intros c s H. simpl in H. destruct (is_space c); [|reflexivity].
  pose proof (lstrip_length s) as Hl. rewrite H in Hl. simpl in Hl. lia.
Qed.

Lemma lstrip_idem : forall s, lstrip (lstrip s) = lstrip s.
Proof.
  induction s as [|c s IH]; [reflexivity|].
  simpl. destruct (is_space c) eqn:Hc; [exact IH|].
  simpl. now rewrite Hc.
Qed.

Lemma rstrip_cons_head : forall c s a r,
  rstrip (String c s) = String a r -> a = c.
Proof.
  intros c s a r. simpl.
  destruct (rstrip s); [destruct (is_space c)|]; congruence.
Qed.

Lemma rstrip_idem : forall s, rstrip (rstrip s) = rstrip s.
Proof.
  induction s as [|c s IH]; [reflexivity|].
  simpl. destruct (rstrip s) as [|a r] eqn:Hr.
  - destruct (is_space c) eqn:Hc; [reflexivity|]. simpl. now rewrite Hc.
  - change (rstrip (String c (String a r))) with
      (match rstrip (String a r) with
       | EmptyString => if is_space c then EmptyString else String c EmptyString
       | String _ _ as q => String c q
       end).
    now rewrite IH.
Qed.

Lemma lstrip_rstrip_fixed : forall s, lstrip s = s -> lstrip (rstrip s) = rstrip s.
Proof.
  intros [|c s] H; [reflexivity|].
  pose proof (lstrip_fixed_head _ _ H) as Hc.
  destruct (rstrip (String c s)) as [|a r] eqn:Hr; [reflexivity|].
  pose proof (rstrip_cons_head _ _ _ _ Hr) as ->.
  simpl. now rewrite Hc.
Qed.

(** [strip] leaves a stripped string alone. *)
Lemma strip_idem : forall s, strip (strip s) = strip s.
Proof.
  intros s. unfold strip.
  rewrite (lstrip_rstrip_fixed (lstrip s) (lstrip_idem s)).
  apply rstrip_idem.
Qed.

Lemma strip_first_not_space : forall s c r,
  strip s = String c r -> is_space c = false.
Proof.
  intros s c r H.
  assert (Hf : lstrip (strip s) = strip s).
  { unfold strip. apply lstrip_rstrip_fixed, lstrip_idem. }
  rewrite H in Hf. exact (lstrip_fixed_head _ _ Hf).
Qed.

Lemma rstrip_last_not_space : forall s r c,
  rstrip s = (r ++ String c EmptyString) -> is_space c = false.
Proof.
  induction s as [|a s IH]; intros r c H.
  - destruct r; discriminate.
  - simpl in H. destruct (rstrip s) as [|b q] eqn:Hq.
    + destruct (is_space a) eqn:Ha; [destruct r; discriminate|].
      destruct r as [|x r]; simpl in H.
      * congruence.
      * destruct r; discriminate.
    + destruct r as [|x r]; simpl in H; [discriminate|].
      injection H as _ H. exact (IH _ _ H).
Qed.

Lemma strip_last_not_space : forall s r c,
  strip s = (r ++ String c EmptyString) -> is_space c = false.
Proof. intros s r c; unfold strip; apply rstrip_last_not_space. Qed.

Lemma lower_lstrip : forall s, lower (lstrip s) = lstrip (lower s).
Proof.
  induction s as [|c s IH]; [reflexivity|].
  simpl. rewrite is_space_lower_char.
  destruct (is_space c); [exact IH | reflexivity].
Qed.

Lemma lower_rstrip : forall s, lower (rstrip s) = rstrip (lower s).
Proof.
  induction s as [|c s IH]; [reflexivity|].
  simpl. rewrite <- IH, is_space_lower_char.
  destruct (rstrip s); [destruct (is_space c)|]; reflexivity.
Qed.

Lemma lower_strip : forall s, lower (strip s) = strip (lower s).
Proof. intros s; unfold strip; now rewrite lower_rstrip, lower_lstrip. Qed.

Lemma split_ws_lstrip : forall s, split_ws (lstrip s) = split_ws s.
Proof.
  induction s as [|c s IH]; [reflexivity|].
  simpl lstrip. destruct (is_space c) eqn:Hc; [|reflexivity].
  rewrite IH. simpl. now rewrite Hc.
Qed.

Lemma rstrip_empty_split_ws : forall s, rstrip s = EmptyString -> split_ws s = [].
Proof.
  induction s as [|c s IH]; [reflexivity|].
  simpl. destruct (rstrip s); [|discriminate].
  destruct (is_space c); [|discriminate]. intros _. now apply IH.
Qed.

Lemma rstrip_empty_head : forall c s,
  rstrip (String c s) = EmptyString -> is_space c = true.
Proof.
  intros c s. simpl. destruct (rstrip s); [|discriminate].
  destruct (is_space c); [reflexivity | discriminate].
Qed.

Lemma split_ws_rstrip : forall s, split_ws (rstrip s) = split_ws s.
Proof.
  induction s as [|c s IH]; [reflexivity|].
  destruct (rstrip s) as [|a r] eqn:Hr.
  - (* nothing but white space after [c] *)
    pose proof (rstrip_empty_split_ws _ Hr) as Hs.
    simpl rstrip. rewrite Hr.
    destruct (is_space c) eqn:Hc.
    + simpl. now rewrite Hc, Hs.
    + cbn [split_ws]. rewrite Hc.
      destruct s as [|c' s']; [reflexivity|].
      rewrite (rstrip_empty_head _ _ Hr). now rewrite Hs.
  - simpl rstrip. rewrite Hr.
    destruct s as [|c' s']; [discriminate|].
    pose proof (rstrip_cons_head _ _ _ _ Hr) as ->.
    cbn [split_ws] in *.
    destruct (is_space c); [exact IH|].
    destruct (is_space c') eqn:Hc'.
    + f_equal. exact IH.
    + now rewrite IH.
Qed.

Lemma split_ws_strip : forall s, split_ws (strip s) = split_ws s.
Proof. intros s; unfold strip; now rewrite split_ws_rstrip, split_ws_lstrip. Qed.

(** ** Substring tests and stripping *)

Lemma prefix_empty_r : forall kw, prefix kw EmptyString = true -> kw = EmptyString.
Proof. intros [|k kw]; [reflexivity | discriminate]. Qed.

Lemma prefix_cons : forall k kw c s,
  prefix (String k kw) (String c s) = if ascii_dec k c then prefix kw s else false.
Proof. reflexivity. Qed.

Lemma prefix_all_space : forall kw s,
  no_space kw = true -> rstrip s = EmptyString ->
  prefix kw s = prefix kw EmptyString.
Proof.
  intros [|k kw] s Hk Hs; [now destruct s|].
  destruct s as [|c s]; [reflexivity|].
  simpl. simpl in Hk. apply andb_prop in Hk as [Hk _].
  destruct (ascii_dec k c) as [->|_]; [|reflexivity].
  rewrite (rstrip_empty_head _ _ Hs) in Hk. discriminate.
Qed.

Lemma prefix_rstrip : forall kw s,
  no_space kw = true -> prefix kw (rstrip s) = prefix kw s.
Proof.
  induction kw as [|k kw IH]; intros s Hk.
  - destruct (rstrip s); destruct s; reflexivity.
  - simpl in Hk. apply andb_prop in Hk as [Hk Hkw].
    destruct s as [|c s]; [reflexivity|].
    simpl rstrip. destruct (rstrip s) as [|a r] eqn:Hr.
    + destruct (is_space c) eqn:Hc.
      * simpl. destruct (ascii_dec k c) as [->|_]; [|reflexivity].
        rewrite Hc in Hk. discriminate.
      * simpl. destruct (ascii_dec k c) as [_|_]; [|reflexivity].
        rewrite (prefix_all_space kw s Hkw Hr). reflexivity.
    + rewrite !prefix_cons. destruct (ascii_dec k c) as [_|_]; [|reflexivity].
      rewrite <- Hr. now apply IH.
Qed.

Lemma contains_empty_r : forall kw,
  contains kw EmptyString = prefix kw EmptyString.
Proof. intros kw. simpl. now rewrite orb_false_r. Qed.

Lemma contains_rstrip : forall kw s,
  no_space kw = true -> contains kw (rstrip s) = contains kw s.
Proof.
  intros kw s Hk; induction s as [|c s IH]; [reflexivity|].
  cbn [contains]. rewrite <- (prefix_rstrip kw (String c s) Hk), <- IH.
  simpl rstrip. destruct (rstrip s) as [|a r] eqn:Hr.
  - rewrite contains_empty_r.
    destruct (is_space c).
    + rewrite contains_empty_r. now rewrite orb_diag.
    + cbn [contains]. rewrite orb_false_r. reflexivity.
  - reflexivity.
Qed.

Lemma contains_lstrip : forall kw s,
  no_space kw = true -> contains kw (lstrip s) = contains kw s.
Proof.
  intros kw s Hk; induction s as [|c s IH]; [reflexivity|].
  simpl lstrip. destruct (is_space c) eqn:Hc; [|reflexivity].
  rewrite IH. cbn [contains].
  destruct kw as [|k kw].
  - now destruct s.
  - simpl in Hk. apply andb_prop in Hk as [Hk _].
    simpl prefix. destruct (ascii_dec k c) as [->|_]; [|reflexivity].
    rewrite Hc in Hk. discriminate.
Qed.

(** A keyword without white space is in a label exactly when it is in the
    stripped label. *)
Lemma contains_strip : forall kw s,
  no_space kw = true -> contains kw (strip s) = contains kw s.
Proof.
  intros kw s Hk. unfold strip.
  now rewrite contains_rstrip, contains_lstrip.
Qed.

Lemma contains_lower_strip : forall kw s,
  no_space kw = true -> contains kw (lower (strip s)) = contains kw (lower s).
Proof. intros kw s Hk. rewrite lower_strip. now apply contains_strip. Qed.

(** ** Trimming *)

Lemma is_space_codes : forall c, is_space c = true <-> In (code c) WHITE_SPACE.
Proof.
  intros [b0 b1 b2 b3 b4 b5 b6 b7].
  destruct b0, b1, b2, b3, b4, b5, b6, b7; vm_compute;
    (split; [intros H; first [discriminate H | tauto]
            | intros H; first [reflexivity | intuition discriminate]]).
Qed.

Lemma lstrip_decomposition : forall s,
  exists a, s = a ++ lstrip s /\ blank a = true.
Proof.
  induction s as [|c s [a [Ha Hb]]]; [now exists EmptyString|].
  cbn [lstrip]. destruct (is_space c) eqn:Hc.
  - exists (String c a). cbn [append blank]. rewrite Hc, Hb. now rewrite <- Ha.
  - now exists EmptyString.
Qed.

Lemma rstrip_decomposition : forall s,
  exists b, s = rstrip s ++ b /\ blank b = true.
Proof.
  induction s as [|c s [b [Hs Hb]]]; [now exists EmptyString|].
  cbn [rstrip]. destruct (rstrip s) as [|x r] eqn:Hr.
  - cbn [append] in Hs. subst b. destruct (is_space c) eqn:Hc.
    + exists (String c s). cbn [append blank]. now rewrite Hc, Hb.
    + now exists s.
  - exists b. cbn [append]. split; [|exact Hb]. f_equal. exact Hs.
Qed.

Lemma append_assoc : forall a b c : string, (a ++ b) ++ c = a ++ b ++ c.
Proof.
  induction a as [|x a IH]; intros b c; [reflexivity|].
  cbn [append]. now rewrite IH.
Qed.

(** [strip] removes the white space a text starts and ends with, and
    nothing else. *)
Lemma strip_trimmed : forall s, trimmed_of s (strip s).
Proof.
  intros s. split; [|split].
  - destruct (lstrip_decomposition s) as [a [Ha Hba]].
    destruct (rstrip_decomposition (lstrip s)) as [b [Hb Hbb]].
    exists a, b. unfold strip. now rewrite <- Hb.
  - apply strip_first_not_space.
  - apply strip_last_not_space.
Qed.

(** C3. [parse_time_minutes] trims its text, wants a ":" (which is the same
    as wanting a second ":"-separated part), reads the first two parts with
    [int] and returns hours * 60 + minutes whatever parts follow; every other
    input, a missing value included, gives [None], and as a total function
    into [option Z] it has no exception to let through.  Trimming is
    [str.strip]: it takes away the white space the text starts and ends
    with, the ten code points of [WHITE_SPACE], and nothing else; [int]
    skips blanks of its own around each part, but not the separators
    0x1c-0x1f.  On the four texts of the specification: 480, 480, [None],
    [None]; padded texts read as their trimmed form. *)
Theorem C3_parse_time_minutes :
  (forall t n,
      parse_time_minutes t = Some n <->
      exists raw p0 p1 rest h m,
        t = Some raw /\
        split_on ":" (strip raw) = p0 :: p1 :: rest /\
        py_int p0 = Ok h /\ py_int p1 = Ok m /\
        n = (h * 60 + m)%Z) /\
  (forall s, contains ":" s = true <-> (2 <= length (split_on ":" s))%nat) /\
  (forall t e, parse_time_body t = Raise e -> parse_time_minutes t = None) /\
  (forall raw, trimmed_of raw (strip raw)) /\
  (forall c, is_space c = true <-> In (code c) WHITE_SPACE) /\
  parse_time_minutes None = None /\
  parse_time_minutes (Some "08:00") = Some 480%Z /\
  parse_time_minutes (Some "08:00:00") = Some 480%Z /\
  parse_time_minutes (Some "8") = None /\
  parse_time_minutes (Some EmptyString) = None /\
  parse_time_minutes (Some "   ") = None /\
  parse_time_minutes (Some "nan") = None /\
  parse_time_minutes (Some "ab:cd") = None /\
  parse_time_minutes (Some "  08:00 ") = Some 480%Z /\
  parse_time_minutes (Some (String "009" ("8:05" ++ String "010" EmptyString)))
    = Some 485%Z /\
  parse_time_minutes (Some ("08:00" ++ String "031" EmptyString)) = Some 480%Z /\
  parse_time_minutes (Some " 8 : 30 ") = Some 510%Z /\
  parse_time_minutes (Some ("08" ++ String "028" ":00")) = None /\
  parse_time_minutes (Some "0 8:00") = None /\
  parse_time_minutes (Some "8:30:xx") = Some 510%Z /\
  parse_time_minutes (Some "25:99") = Some 1599%Z /\
  parse_time_minutes (Some "+8:-5") = Some 475%Z /\
  parse_time_minutes (Some "8:") = None /\
  parse_time_minutes (Some ":30") = None /\
  parse_time_minutes (Some "8.5:00") = None.
Proof.
  split; [exact parse_time_minutes_some|].
  split.
  { intros s. rewrite contains_sep_split. apply Nat.leb_le. }
  split.
  { intros t e H. unfold parse_time_minutes. now rewrite H. }
  split; [exact strip_trimmed|].
  split; [exact is_space_codes|].
  repeat split; vm_compute; reflexivity.
Qed.

(** ** Dictionaries *)

Lemma dict_get_set : forall (V : Type) (d : dict V) k v k',
  dict_get (dict_set d k v) k' = if String.eqb k k' then Some v else dict_get d k'.
Proof.
  intros V d k v k'; induction d as [|[a b] d IH]; simpl.
  - reflexivity.
  - destruct (String.eqb_spec a k) as [->|Hak]; simpl.
    + destruct (String.eqb_spec k k'); reflexivity.
    + rewrite IH.
      destruct (String.eqb_spec a k') as [->|Hak']; [|reflexivity].
      destruct (String.eqb_spec k k'); [congruence | reflexivity].
Qed.

(** ** The column classification *)

Lemma mapping_step_consistent : forall mapping col,
  consistent mapping -> consistent (mapping_step mapping col).
Proof.
  intros mapping col Hm k v. unfold mapping_step.
  destruct (canonical_name col) as [name|] eqn:Hc; [|apply Hm].
  rewrite dict_get_set.
  destruct (String.eqb_spec col k) as [<-|_]; [congruence | apply Hm].
Qed.

Lemma mapping_step_same : forall mapping col,
  consistent mapping ->
  dict_get (mapping_step mapping col) col = canonical_name col.
Proof.
  intros mapping col Hm. unfold mapping_step.
  destruct (canonical_name col) as [name|] eqn:Hc.
  - rewrite dict_get_set, String.eqb_refl. reflexivity.
  - destruct (dict_get mapping col) as [v|] eqn:Hg; [|reflexivity].
    apply Hm in Hg. congruence.
Qed.

Lemma mapping_step_keeps : forall mapping col k,
  consistent mapping ->
  dict_get mapping k = canonical_name k ->
  dict_get (mapping_step mapping col) k = canonical_name k.
Proof.
  intros mapping col k Hm Hk.
  destruct (String.eqb_spec col k) as [<-|Hne]; [now apply mapping_step_same|].
  unfold mapping_step. destruct (canonical_name col); [|exact Hk].
  rewrite dict_get_set. destruct (String.eqb_spec col k); [contradiction | exact Hk].
Qed.

Lemma column_mapping_fold : forall cols mapping k,
  consistent mapping ->
  In k cols \/ dict_get mapping k = canonical_name k ->
  dict_get (fold_left mapping_step cols mapping) k = canonical_name k.
Proof.
  induction cols as [|c cols IH]; intros mapping k Hm Hk; simpl.
  - destruct Hk as [[]|Hk]; exact Hk.
  - apply IH; [now apply mapping_step_consistent|].
    destruct Hk as [[->|Hin]|Hk].
    + right. now apply mapping_step_same.
    + now left.
    + right. now apply mapping_step_keeps.
Qed.

(** The dictionary built by the loop answers [canonical_name] on every
    label of the frame. *)
Lemma column_mapping_get : forall cols k,
  In k cols -> dict_get (column_mapping cols) k = canonical_name k.
Proof.
  intros cols k Hin. unfold column_mapping.
  apply column_mapping_fold; [intros ? ? H; discriminate | now left].
Qed.

Lemma rename_columns : forall (V : Type) (df : DataFrame V),
  columns (rename df (column_mapping (columns df))) = map renamed_label (columns df).
Proof.
  intros V df. unfold columns, rename; simpl.
  rewrite !map_map. apply map_ext_in. intros [col vs] Hin. simpl.
  unfold renamed_label.
  rewrite column_mapping_get; [reflexivity|].
  unfold columns. now apply (in_map fst) in Hin.
Qed.

Lemma canonical_name_first_match : forall col,
  canonical_name col =
  first_match (field_rules (fun l => String.eqb (strip l) "day")) (lower col).
Proof.
  intros col. unfold canonical_name, field_rules, first_match.
  rewrite !contains_lower_strip by reflexivity.
  rewrite lower_strip. reflexivity.
Qed.

Lemma strip_eq_day : forall l,
  strip l <> "day" -> String.eqb l "day" = false.
Proof.
  intros l H. destruct (String.eqb_spec l "day") as [->|]; [|reflexivity].
  now contradiction H.
Qed.

(** C5, as the code has it.  Every label gets at most one canonical field:
    the first, in the order day, title, start, end, archetype, notes, whose
    keyword rule holds on the lower-cased label, where the rule of "day" is:
    contains "date", or is the word "day" once the surrounding white space
    is trimmed.  Off the labels that are "day" up to case and white space
    this is the classification as specified, and the renaming gives every
    column the field found for its label. *)
Theorem C5_canonical_name_first_match :
  (forall col,
      canonical_name col =
      first_match (field_rules (fun l => String.eqb (strip l) "day")) (lower col)) /\
  (forall col,
      lower (strip col) <> "day" -> canonical_name col = classify_as_specified col) /\
  (forall col name, canonical_name col = Some name -> In name canonical_fields) /\
  (forall df : DataFrame sheet_cell,
      columns (rename df (column_mapping (columns df))) = renamed_labels df).
Proof.
  split; [exact canonical_name_first_match|].
  split.
  { intros col Hday. rewrite canonical_name_first_match.
    unfold classify_as_specified, field_rules, first_match.
    rewrite lower_strip in Hday.
    rewrite (strip_eq_day _ Hday).
    destruct (String.eqb_spec (strip (lower col)) "day"); [contradiction|].
    reflexivity. }
  split.
  { intros col name. unfold canonical_name.
    repeat match goal with
           | |- (if ?b then _ else _) = _ -> _ => destruct b
           end; intros [= <-]; simpl; tauto. }
  intros df. apply rename_columns.
Qed.

(** C5, counterexample to the wording "equals day exactly": the header
    "Day " with a trailing blank is given the field day by the code, and no
    field by the rules as specified. *)
Lemma C5_padded_day_label :
  canonical_name "Day " = Some "day" /\
  classify_as_specified "Day " = None /\
  canonical_name "Day " <> classify_as_specified "Day ".
Proof. repeat split; vm_compute; congruence. Qed.

(** ** Sorting *)

Section SortedWith.

Variable A : Type.
Variable le : A -> A -> bool.

Lemma insert_sorted_perm : forall x l, Permutation (insert_sorted le x l) (x :: l).
Proof.
  intros x; induction l as [|y l IH]; simpl; [reflexivity|].
  destruct (le x y); [reflexivity|].
  rewrite IH. apply perm_swap.
Qed.

Lemma sorted_with_perm : forall l, Permutation (sorted_with le l) l.
Proof.
  induction l as [|x l IH]; simpl; [reflexivity|].
  rewrite insert_sorted_perm. now constructor.
Qed.

Lemma sorted_with_in : forall l x, In x (sorted_with le l) <-> In x l.
Proof.
  intros l x; split; apply Permutation_in;
    [apply sorted_with_perm | symmetry; apply sorted_with_perm].
Qed.

Lemma sorted_with_length : forall l, length (sorted_with le l) = length l.
Proof. intros l. apply Permutation_length, sorted_with_perm. Qed.

End SortedWith.

Section SortedByKey.

Variable A : Type.
Variable key : A -> nat.

Lemma insert_by_key_sorted : forall x l,
  StronglySorted (key_le key) l ->
  StronglySorted (key_le key) (insert_sorted (key_leb key) x l).
Proof.
  intros x; induction l as [|y l IH]; intros Hs; simpl.
  - constructor; constructor.
  - inversion Hs as [|? ? Hl Hy]; subst.
    unfold key_leb at 1. destruct (Nat.leb_spec (key x) (key y)) as [Hxy|Hxy].
    + constructor; [exact Hs|].
      constructor; [exact Hxy|].
      eapply Forall_impl; [|exact Hy].
      intros z Hz; unfold key_le in *; lia.
    + constructor; [now apply IH|].
      apply Forall_forall. intros z Hz.
      apply (Permutation_in _ (insert_sorted_perm _ (key_leb key) x l)) in Hz.
      destruct Hz as [<-|Hz]; [unfold key_le; lia|].
      rewrite Forall_forall in Hy. now apply Hy.
Qed.

Lemma sorted_by_key_sorted : forall l,
  StronglySorted (key_le key) (sorted_by_key key l).
Proof.
  induction l as [|x l IH]; simpl; [constructor|].
  now apply insert_by_key_sorted.
Qed.

(** Inserting leaves the values of each key in the order they had, the
    new one in front of its equals. *)
Lemma insert_by_key_stable : forall k x l,
  filter (fun y => (key y =? k)%nat) (insert_sorted (key_leb key) x l) =
  filter (fun y => (key y =? k)%nat) (x :: l).
Proof.
  intros k x; induction l as [|y l IH]; [reflexivity|].
  cbn [insert_sorted]. unfold key_leb at 1.
  destruct (Nat.leb_spec (key x) (key y)) as [Hxy|Hxy]; [reflexivity|].
  cbn [filter] in *. rewrite IH.
  destruct (Nat.eqb_spec (key x) k) as [Hx|Hx];
    destruct (Nat.eqb_spec (key y) k) as [Hy|Hy]; try reflexivity.
  lia.
Qed.

Lemma sorted_by_key_stable : forall k l,
  filter (fun y => (key y =? k)%nat) (sorted_by_key key l) =
  filter (fun y => (key y =? k)%nat) l.
Proof.
  intros k; induction l as [|x l IH]; [reflexivity|].
  unfold sorted_by_key in *. cbn [sorted_with].
  rewrite insert_by_key_stable. cbn [filter]. now rewrite IH.
Qed.

End SortedByKey.

Lemma StronglySorted_impl_key : forall (A : Type) (R R' : A -> A -> Prop) l,
  (forall a b, R a b -> R' a b) -> StronglySorted R l -> StronglySorted R' l.
Proof.
  intros A R R' l HR; induction 1 as [|x l Hl IH Hx]; constructor; [exact IH|].
  eapply Forall_impl; [|exact Hx]. intros b; apply HR.
Qed.

(** ** Day ordering *)

Lemma nonempty_false : forall s, nonempty s = false <-> s = EmptyString.
Proof. intros [|c s]; simpl; split; congruence. Qed.

Lemma nonempty_true : forall s, nonempty s = true <-> s <> EmptyString.
Proof. intros [|c s]; simpl; split; congruence. Qed.

Lemma keep_day_spec : forall d,
  keep_day d = true <-> strip d <> EmptyString /\ lower (strip d) <> "nan".
Proof.
  intros d. unfold keep_day.
  rewrite andb_true_iff, negb_true_iff, nonempty_true.
  destruct (String.eqb_spec (lower (strip d)) "nan"); intuition congruence.
Qed.

Lemma filter_days_filter : forall l,
  map Some (filter_days l) =
  filter (fun c => match c with Some d => keep_day d | None => false end) l.
Proof.
  induction l as [|[d|] l IH]; simpl; [reflexivity | | exact IH].
  destruct (keep_day d); simpl; now rewrite IH.
Qed.

(** The key computed by [get_day_order_key] is the rank of the first token
    of the lower-cased label: stripping first changes nothing. *)
Lemma get_day_order_key_rank : forall d, get_day_order_key d = day_rank d.
Proof.
  intros d. unfold get_day_order_key, day_rank.
  rewrite lower_strip, split_ws_strip.
  destruct (nonempty (strip d)) eqn:Hn; [reflexivity|].
  apply nonempty_false in Hn. simpl.
  rewrite <- (split_ws_strip (lower d)), <- lower_strip, Hn. reflexivity.
Qed.

Lemma dict_get_in : forall (V : Type) (d : dict V) k v,
  dict_get d k = Some v -> exists k', In (k', v) d.
Proof.
  intros V d k v; induction d as [|[a b] d IH]; simpl; [discriminate|].
  destruct (String.eqb a k).
  - intros [= <-]. eauto.
  - intros H. destruct (IH H) as [k' Hk']. eauto.
Qed.

Lemma day_rank_range : forall d, In (day_rank d) [1; 2; 3; 4; 5; 6; 7; 99]%nat.
Proof.
  intros d. unfold day_rank.
  destruct (split_ws (lower d)) as [|t ts]; [simpl; tauto|].
  destruct (dict_get day_order t) as [r|] eqn:Hr; [|simpl; tauto].
  apply dict_get_in in Hr as [k Hk].
  unfold day_order in Hk. simpl in Hk.
  repeat (destruct Hk as [Hk|Hk]; [inversion Hk; subst; simpl; tauto|]).
  contradiction.
Qed.

(** C6.  [sort_days] keeps, in their input form, exactly the values that
    are present, not blank once stripped and not "nan" once stripped and
    lower-cased; it returns them ordered by rank, values of equal rank in
    their input order.  The rank is that of the first white-space-delimited
    token of the lower-cased label in the English/French weekday table
    (Monday 1 ... Sunday 7), and 99 for any other label, which is kept.  On
    Friday, monday, Tue 2024-01-02 the result is monday, Tue 2024-01-02,
    Friday. *)
Theorem C6_sort_days :
  (forall l,
      map Some (filter_days l) =
      filter (fun c => match c with Some d => keep_day d | None => false end) l) /\
  (forall d,
      keep_day d = true <-> strip d <> EmptyString /\ lower (strip d) <> "nan") /\
  (forall l, Permutation (sort_days l) (filter_days l)) /\
  (forall l,
      StronglySorted (key_le day_rank) (sort_days l)) /\
  (forall l k,
      filter (fun d => (day_rank d =? k)%nat) (sort_days l) =
      filter (fun d => (day_rank d =? k)%nat) (filter_days l)) /\
  (forall d, get_day_order_key d = day_rank d) /\
  (forall d, In (day_rank d) [1; 2; 3; 4; 5; 6; 7; 99]%nat) /\
  map day_rank
    [ "Monday"; "Mon"; "Lundi"; "Lun"; "Tuesday"; "Tue"; "Mardi"; "Mar";
      "Wednesday"; "Wed"; "Mercredi"; "Mer"; "Thursday"; "Thu"; "Jeudi"; "Jeu";
      "Friday"; "Fri"; "Vendredi"; "Ven"; "Saturday"; "Sat"; "Samedi"; "Sam";
      "Sunday"; "Sun"; "Dimanche"; "Dim"; "Someday"; "2024-01-01" ] =
    [ 1; 1; 1; 1; 2; 2; 2; 2; 3; 3; 3; 3; 4; 4; 4; 4;
      5; 5; 5; 5; 6; 6; 6; 6; 7; 7; 7; 7; 99; 99 ]%nat /\
  sort_days [Some "Friday"; Some "monday"; Some "Tue 2024-01-02"] =
    ["monday"; "Tue 2024-01-02"; "Friday"] /\
  sort_days [Some "Holiday"; None; Some "  "; Some "NaN"; Some "sun"; Some "Break"] =
    ["sun"; "Holiday"; "Break"].
Proof.
  split; [exact filter_days_filter|].
  split; [exact keep_day_spec|].
  split.
  { intros l. apply sorted_with_perm. }
  split.
  { intros l.
    eapply StronglySorted_impl_key; [|apply (sorted_by_key_sorted _ get_day_order_key)].
    intros a b Hab. unfold key_le in *. now rewrite <- !get_day_order_key_rank. }
  split.
  { intros l k. unfold sort_days.
    rewrite (filter_ext _ (fun d => (get_day_order_key d =? k)%nat))
      by (intros d; now rewrite get_day_order_key_rank).
    rewrite sorted_by_key_stable.
    apply filter_ext. intros d. now rewrite get_day_order_key_rank. }
  split; [exact get_day_order_key_rank|].
  split; [exact day_rank_range|].
  repeat split; vm_compute; reflexivity.
Qed.

(** ** The record normaliser *)

Lemma has_column_in : forall (V : Type) (df : DataFrame V) name,
  has_column df name = true <-> In name (columns df).
Proof.
  intros V df name. unfold has_column. rewrite existsb_exists. split.
  - intros [x [Hin Heq]]. apply String.eqb_eq in Heq. now subst.
  - intros Hin. exists name. split; [exact Hin | apply String.eqb_refl].
Qed.

Lemma existsb_eqb_in : forall name labels,
  existsb (String.eqb name) labels = true <-> In name labels.
Proof.
  intros name labels. rewrite existsb_exists. split.
  - intros [x [Hin Heq]]. apply String.eqb_eq in Heq. now subst.
  - intros Hin. exists name. split; [exact Hin | apply String.eqb_refl].
Qed.

Lemma has_column_add : forall df name v k,
  has_column (add_column df name v) k = has_column df k || String.eqb k name.
Proof.
  intros df name v k. unfold has_column, add_column, columns; simpl.
  rewrite map_app, existsb_app. simpl. now rewrite orb_false_r.
Qed.

Lemma ensure_all_cons : forall df p ps,
  ensure_all df (p :: ps) = ensure_all (ensure_column df (fst p) (snd p)) ps.
Proof. reflexivity. Qed.

Lemma ensure_all_series : forall pairs df,
  NoDup (map fst pairs) ->
  n_rows (ensure_all df pairs) = n_rows df /\
  series (ensure_all df pairs) =
  (series df ++
   map (fun p => (fst p, repeat (Value (snd p)) (n_rows df)))
       (filter (fun p => negb (has_column df (fst p))) pairs))%list.
Proof.
  induction pairs as [|p ps IH]; intros df Hnd.
  - simpl. now rewrite app_nil_r.
  - inversion Hnd as [|? ? Hnotin Hnd']; subst.
    rewrite ensure_all_cons. cbn [filter].
    unfold ensure_column.
    destruct (has_column df (fst p)) eqn:Hp; cbn [negb].
    + now apply IH.
    + destruct (IH (add_column df (fst p) (snd p)) Hnd') as [Hn Hs].
      split; [exact Hn|].
      rewrite Hs. cbn [add_column series n_rows map].
      rewrite <- app_assoc. cbn [app]. do 3 f_equal.
      apply filter_ext_in. intros q Hq.
      rewrite has_column_add.
      destruct (String.eqb_spec (fst q) (fst p)) as [Heq|_];
        [|now rewrite orb_false_r].
      exfalso. apply Hnotin. rewrite <- Heq. now apply in_map.
Qed.

Lemma rename_series : forall (V : Type) (df : DataFrame V),
  series (rename df (column_mapping (columns df))) =
  map (fun c => (renamed_label (fst c), snd c)) (series df).
Proof.
  intros V df. unfold rename; simpl.
  apply map_ext_in. intros [col vs] Hin. simpl.
  unfold renamed_label.
  rewrite column_mapping_get; [reflexivity|].
  unfold columns. now apply (in_map fst) in Hin.
Qed.

Lemma clean_columns_result : forall labels todo,
  clean_columns labels todo =
  if forallb (fun c => (count_occ string_dec labels (fst c) <=? 1)%nat) todo
  then Ok (map (fun c => (fst c, map clean_value (snd c))) todo)
  else Raise AttributeError.
Proof.
  intros labels; induction todo as [|[col vs] todo IH]; [reflexivity|].
  cbn [clean_columns forallb fst snd map].
  destruct (Nat.ltb_spec 1 (count_occ string_dec labels col)) as [Hlt|Hge].
  - destruct (Nat.leb_spec (count_occ string_dec labels col) 1); [lia|].
    reflexivity.
  - destruct (Nat.leb_spec (count_occ string_dec labels col) 1); [|lia].
    rewrite IH. cbn [andb].
    destruct (forallb _ todo); reflexivity.
Qed.

Lemma distinct_NoDup : forall labels, distinct labels = true <-> NoDup labels.
Proof.
  intros labels. unfold distinct. rewrite forallb_forall. split.
  - intros H. apply (NoDup_count_occ string_dec). intros x.
    destruct (in_dec string_dec x labels) as [Hin|Hnin].
    + apply Nat.leb_le. now apply H.
    + apply (count_occ_not_In string_dec) in Hnin. lia.
  - intros H x _. apply Nat.leb_le. now apply (NoDup_count_occ string_dec).
Qed.

Lemma canonical_defaults_NoDup : NoDup (map fst canonical_defaults).
Proof.
  simpl. repeat constructor; simpl; intuition discriminate.
Qed.

Lemma missing_defaults_NoDup : forall labels,
  NoDup (map fst (missing_defaults labels)).
Proof.
  intros labels. unfold missing_defaults.
  generalize canonical_defaults_NoDup.
  induction canonical_defaults as [|p ps IH]; intros Hnd; [constructor|].
  inversion Hnd as [|? ? Hnotin Hnd']; subst. simpl.
  destruct (negb (existsb (String.eqb (fst p)) labels)); [|now apply IH].
  simpl. constructor; [|now apply IH].
  intros Hin. apply Hnotin.
  apply in_map_iff in Hin as [q [Hq Hin]]. apply filter_In in Hin as [Hin _].
  rewrite <- Hq. now apply in_map.
Qed.

Lemma missing_defaults_in : forall labels p,
  In p (missing_defaults labels) <->
  In p canonical_defaults /\ ~ In (fst p) labels.
Proof.
  intros labels p. unfold missing_defaults. rewrite filter_In, negb_true_iff.
  rewrite <- (existsb_eqb_in (fst p) labels).
  destruct (existsb (String.eqb (fst p)) labels); intuition congruence.
Qed.

(** The labels of the frame handed to the cleaning loop are free of
    repetition exactly when the renamed labels are. *)
Lemma with_missing_NoDup : forall labels,
  NoDup (labels ++ map fst (missing_defaults labels))%list <-> NoDup labels.
Proof.
  intros labels. split.
  - apply NoDup_app_remove_r.
  - intros H. apply NoDup_app; [exact H | apply missing_defaults_NoDup |].
    intros x Hx Hin.
    apply in_map_iff in Hin as [p [<- Hp]].
    now apply missing_defaults_in in Hp as [_ Hp].
Qed.

Lemma canonical_defaults_stripped : forall p,
  In p canonical_defaults -> strip (snd p) = snd p.
Proof.
  intros p Hp. unfold canonical_defaults in Hp. simpl in Hp.
  repeat (destruct Hp as [<-|Hp]; [vm_compute; reflexivity|]).
  contradiction.
Qed.

Lemma map_repeat : forall (A B : Type) (f : A -> B) x n,
  map f (repeat x n) = repeat (f x) n.
Proof. intros A B f x n; induction n; simpl; congruence. Qed.

Lemma forallb_map : forall (A B : Type) (f : A -> B) (p : B -> bool) l,
  forallb p (map f l) = forallb (fun x => p (f x)) l.
Proof. intros A B f p l; induction l; simpl; congruence. Qed.

Lemma bool_eq_iff : forall a b : bool, (a = true <-> b = true) -> a = b.
Proof.
  intros [] [] [H1 H2]; try reflexivity;
    [symmetry; now apply H1 | now apply H2].
Qed.

Lemma normalize_prepared : forall df : DataFrame sheet_cell,
  let prepared :=
    ensure_all (rename df (column_mapping (columns df))) canonical_defaults in
  n_rows prepared = n_rows df /\
  series prepared =
  (map (fun c => (renamed_label (fst c), snd c)) (series df) ++
   map (fun p => (fst p, repeat (Value (snd p)) (n_rows df)))
       (missing_defaults (renamed_labels df)))%list.
Proof.
  intros df prepared.
  destruct (ensure_all_series canonical_defaults
              (rename df (column_mapping (columns df)))
              canonical_defaults_NoDup) as [Hn Hs].
  split; [exact Hn|].
  unfold prepared. rewrite Hs, rename_series. cbn [rename n_rows].
  do 2 f_equal. unfold missing_defaults.
  apply filter_ext. intros p. unfold has_column.
  now rewrite rename_columns.
Qed.

Lemma prepared_columns : forall df : DataFrame sheet_cell,
  columns (ensure_all (rename df (column_mapping (columns df))) canonical_defaults) =
  (renamed_labels df ++ map fst (missing_defaults (renamed_labels df)))%list.
Proof.
  intros df. unfold columns at 1.
  destruct (normalize_prepared df) as [_ Hs]. rewrite Hs.
  rewrite map_app, !map_map. cbn [fst].
  unfold renamed_labels, columns. now rewrite map_map.
Qed.

Lemma prepared_cleaned : forall df : DataFrame sheet_cell,
  map (fun c => (fst c, map clean_value (snd c)))
      (series (ensure_all (rename df (column_mapping (columns df))) canonical_defaults)) =
  normalized_series df.
Proof.
  intros df. destruct (normalize_prepared df) as [_ Hs]. rewrite Hs.
  unfold normalized_series. rewrite map_app, !map_map. cbn [fst snd].
  f_equal. apply map_ext_in. intros p Hp.
  rewrite map_repeat. cbn [clean_value].
  apply missing_defaults_in in Hp as [Hp _].
  now rewrite (canonical_defaults_stripped p Hp).
Qed.

(** What [normalize_dataframe] returns, in closed form: it raises exactly
    when two renamed labels coincide. *)
Lemma normalize_closed_form : forall df file_name,
  normalize_dataframe df file_name =
  if distinct (renamed_labels df)
  then Ok (mkDataFrame (n_rows df) (normalized_series df),
           [ st_sidebar_info ("📊 " ++ file_name);
             st_sidebar_write_columns (map fst (normalized_series df)) ])
  else Raise AttributeError.
Proof.
  intros df file_name. unfold normalize_dataframe.
  change (fold_left _ ["day"; "title"; "start"; "end"] _) with
    (ensure_all (rename df (column_mapping (columns df)))
       [("day", EmptyString); ("title", EmptyString); ("start", EmptyString);
        ("end", EmptyString)]).
  change (ensure_column (ensure_column (ensure_all ?d _) "archetype" CHRONOS)
            "notes" EmptyString)
    with (ensure_all d canonical_defaults).
  set (prepared := ensure_all _ canonical_defaults).
  rewrite clean_columns_result.
  assert (Hd : forallb
                 (fun c => (count_occ string_dec (columns prepared) (fst c) <=? 1)%nat)
                 (series prepared) = distinct (renamed_labels df)).
  { rewrite <- (forallb_map _ _ fst
                  (fun x => (count_occ string_dec (columns prepared) x <=? 1)%nat)).
    change (distinct (columns prepared) = distinct (renamed_labels df)).
    apply bool_eq_iff. rewrite !distinct_NoDup.
    unfold prepared. rewrite prepared_columns. apply with_missing_NoDup. }
  rewrite Hd. destruct (distinct (renamed_labels df)); [|reflexivity].
  cbn [bind]. unfold prepared. rewrite prepared_cleaned.
  destruct (normalize_prepared df) as [Hn _]. rewrite Hn. reflexivity.
Qed.

Lemma normalize_ok_inv : forall df file_name out ui,
  normalize_dataframe df file_name = Ok (out, ui) ->
  NoDup (renamed_labels df) /\
  out = mkDataFrame (n_rows df) (normalized_series df) /\
  ui = [ st_sidebar_info ("📊 " ++ file_name);
         st_sidebar_write_columns (columns out) ].
Proof.
  intros df file_name out ui. rewrite normalize_closed_form.
  destruct (distinct (renamed_labels df)) eqn:Hd; [|discriminate].
  intros [= <- <-]. apply distinct_NoDup in Hd. auto.
Qed.

Lemma normalize_succeeds : forall df file_name,
  NoDup (renamed_labels df) ->
  exists out ui, normalize_dataframe df file_name = Ok (out, ui).
Proof.
  intros df file_name H. rewrite normalize_closed_form.
  apply distinct_NoDup in H. rewrite H. eauto.
Qed.

Lemma normalize_raises : forall df file_name,
  ~ NoDup (renamed_labels df) ->
  normalize_dataframe df file_name = Raise AttributeError.
Proof.
  intros df file_name H. rewrite normalize_closed_form.
  destruct (distinct (renamed_labels df)) eqn:Hd; [|reflexivity].
  apply distinct_NoDup in Hd. contradiction.
Qed.

Lemma normalized_labels : forall df,
  map fst (normalized_series df) =
  (renamed_labels df ++ map fst (missing_defaults (renamed_labels df)))%list.
Proof.
  intros df. unfold normalized_series.
  rewrite map_app, !map_map. cbn [fst].
  unfold renamed_labels, columns. now rewrite map_map.
Qed.

Lemma normalized_labels_canonical : forall df field,
  In field canonical_fields -> In field (map fst (normalized_series df)).
Proof.
  intros df field Hf. rewrite normalized_labels. apply in_or_app.
  destruct (in_dec string_dec field (renamed_labels df)) as [Hin|Hnin]; [now left|].
  right. unfold canonical_fields in Hf.
  apply in_map_iff in Hf as [p [<- Hp]].
  apply in_map. apply missing_defaults_in. auto.
Qed.

Lemma dict_get_nodup : forall (V : Type) (d : dict V) k v,
  NoDup (map fst d) -> In (k, v) d -> dict_get d k = Some v.
Proof.
  intros V d k v; induction d as [|[a b] d IH]; intros Hnd Hin; [contradiction|].
  inversion Hnd as [|? ? Hnotin Hnd']; subst. simpl.
  destruct Hin as [[= -> ->]|Hin].
  - now rewrite String.eqb_refl.
  - destruct (String.eqb_spec a k) as [->|_]; [|now apply IH].
    exfalso. apply Hnotin. now apply (in_map fst) in Hin.
Qed.

Lemma dict_get_some_in : forall (V : Type) (d : dict V) k v,
  dict_get d k = Some v -> In (k, v) d.
Proof.
  intros V d k v; induction d as [|[a b] d IH]; simpl; [discriminate|].
  destruct (String.eqb_spec a k) as [->|_].
  - intros [= ->]. now left.
  - intros H. right. now apply IH.
Qed.

Lemma dict_get_none : forall (V : Type) (d : dict V) k,
  dict_get d k = None <-> ~ In k (map fst d).
Proof.
  intros V d k; induction d as [|[a b] d IH]; simpl; [tauto|].
  destruct (String.eqb_spec a k) as [->|Hne].
  - split; [discriminate | intros H; exfalso; apply H; now left].
  - rewrite IH. tauto.
Qed.

Lemma row_at_labels : forall df i, map fst (row_at df i) = columns df.
Proof. intros df i. unfold row_at, columns. now rewrite map_map. Qed.

Lemma row_at_get : forall df i k vs,
  NoDup (columns df) -> In (k, vs) (series df) ->
  dict_get (row_at df i) k = Some (nth i vs EmptyString).
Proof.
  intros df i k vs Hnd Hin. apply dict_get_nodup.
  - now rewrite row_at_labels.
  - unfold row_at. apply in_map_iff. exists (k, vs). auto.
Qed.

Lemma clean_value_stripped : forall c, strip (clean_value c) = clean_value c.
Proof. intros [|s|]; cbn [clean_value]; [reflexivity | apply strip_idem..]. Qed.

Lemma normalized_values_stripped : forall df c i,
  In c (normalized_series df) ->
  strip (nth i (snd c) EmptyString) = nth i (snd c) EmptyString.
Proof.
  intros df c i Hin.
  destruct (nth_in_or_default i (snd c) EmptyString) as [Hv| ->]; [|reflexivity].
  revert Hv. generalize (nth i (snd c) EmptyString). intros v Hv.
  unfold normalized_series in Hin. apply in_app_or in Hin as [Hin|Hin];
    apply in_map_iff in Hin as [x [<- Hx]]; cbn [snd] in Hv.
  - apply in_map_iff in Hv as [y [<- _]]. apply clean_value_stripped.
  - apply repeat_spec in Hv. subst v.
    apply missing_defaults_in in Hx as [Hx _].
    now apply canonical_defaults_stripped.
Qed.

Lemma canonical_default_value : forall field v,
  In (field, v) canonical_defaults -> v = default_value field.
Proof.
  intros field v H. unfold canonical_defaults in H. simpl in H.
  repeat (destruct H as [[= <- <-]|H]; [reflexivity|]). contradiction.
Qed.

Lemma nth_clean : forall i vs,
  nth i (map clean_value vs) EmptyString = clean_value (nth i vs Blank).
Proof. intros i vs. apply (map_nth clean_value vs Blank i). Qed.

Lemma normalized_NoDup : forall df,
  NoDup (renamed_labels df) -> NoDup (map fst (normalized_series df)).
Proof. intros df H. rewrite normalized_labels. now apply with_missing_NoDup. Qed.

(** The value of a canonical field in row [i] of the normalised frame. *)
Lemma normalized_field : forall df i field,
  NoDup (renamed_labels df) -> (i < n_rows df)%nat ->
  In field canonical_fields ->
  exists v,
    getitem (row_at (mkDataFrame (n_rows df) (normalized_series df)) i) field = Ok v /\
    strip v = v /\
    (~ In field (renamed_labels df) -> v = default_value field) /\
    (forall col vs,
        In (col, vs) (series df) -> renamed_label col = field ->
        v = clean_value (nth i vs Blank)).
Proof.
  intros df i field Hnd Hi Hf.
  set (out := mkDataFrame (n_rows df) (normalized_series df)).
  assert (Hnd' : NoDup (columns out)) by now apply normalized_NoDup.
  pose proof (normalized_labels_canonical df field Hf) as Hin.
  apply in_map_iff in Hin as [[k vs'] [Hk Hin]]. cbn [fst] in Hk. subst k.
  pose proof (row_at_get out i field vs' Hnd' Hin) as Hget.
  exists (nth i vs' EmptyString). unfold getitem. rewrite Hget.
  split; [reflexivity|].
  split; [exact (normalized_values_stripped df (field, vs') i Hin)|].
  split.
  - intros Hnin. unfold normalized_series in Hin.
    apply in_app_or in Hin as [Hin|Hin]; apply in_map_iff in Hin as [x [Hx Hin]].
    + exfalso. apply Hnin. injection Hx as Hx _. rewrite <- Hx.
      unfold renamed_labels, columns. rewrite map_map.
      apply in_map_iff. exists x. auto.
    + injection Hx as Hx Hv. subst vs'.
      apply missing_defaults_in in Hin as [Hin _].
      rewrite nth_repeat_lt by exact Hi.
      apply canonical_default_value. rewrite <- Hx. now destruct x.
  - intros col vs Hcol Hren.
    assert (Hin2 : In (field, map clean_value vs) (normalized_series df)).
    { unfold normalized_series. apply in_or_app. left.
      apply in_map_iff. exists (col, vs). cbn [fst snd]. now rewrite Hren. }
    pose proof (row_at_get out i field _ Hnd' Hin2) as Hget2.
    rewrite Hget in Hget2. injection Hget2 as ->. apply nth_clean.
Qed.

(** A string that [strip] leaves alone neither begins nor ends with white
    space. *)
Lemma stripped_has_no_outer_space : forall v,
  strip v = v ->
  (forall c r, v = String c r -> is_space c = false) /\
  (forall r c, v = r ++ String c EmptyString -> is_space c = false).
Proof.
  intros v Hv. split.
  - intros c r H. rewrite H in Hv. exact (strip_first_not_space _ _ _ Hv).
  - intros r c H. rewrite H in Hv. exact (strip_last_not_space _ _ _ Hv).
Qed.

Lemma in_iterrows : forall df event,
  In event (iterrows df) <-> exists i, (i < n_rows df)%nat /\ event = row_at df i.
Proof.
  intros df event. unfold iterrows. rewrite in_map_iff. split.
  - intros [i [<- Hi]]. apply in_seq in Hi. exists i. split; [lia | reflexivity].
  - intros [i [Hi ->]]. exists i. split; [reflexivity | apply in_seq; lia].
Qed.

(** What the normaliser guarantees for a sheet whose renamed labels are
    all different: one event per input row, in input order, and in every
    event each of the six canonical fields, holding a string that [strip]
    leaves alone: the cleaned value of the input column renamed to that
    field, or, when no column is, the value synthesised for the field.
    The cleaned value is the empty string for a missing value and the
    trimmed text for a present one; for an empty date see the
    conventions. *)
Lemma normalized_events : forall df file_name,
  NoDup (renamed_labels df) ->
  exists out ui,
    normalize_dataframe df file_name = Ok (out, ui) /\
    n_rows out = n_rows df /\
    iterrows out = map (row_at out) (seq 0 (n_rows df)) /\
    (forall i field,
        (i < n_rows df)%nat -> In field canonical_fields ->
        exists v,
          getitem (row_at out i) field = Ok v /\
          strip v = v /\
          (~ In field (renamed_labels df) -> v = default_value field) /\
          (forall col vs,
              In (col, vs) (series df) -> renamed_label col = field ->
              v = clean_value (nth i vs Blank))) /\
    (forall event field,
        In event (iterrows out) -> In field canonical_fields ->
        exists v, getitem event field = Ok v /\ strip v = v).
Proof.
  intros df file_name Hnd.
  exists (mkDataFrame (n_rows df) (normalized_series df)).
  eexists. split.
  { rewrite normalize_closed_form.
    apply distinct_NoDup in Hnd. rewrite Hnd. reflexivity. }
  split; [reflexivity|].
  split; [reflexivity|].
  split; [intros i field Hi Hf; now apply normalized_field|].
  intros event field Hev Hf.
  apply in_iterrows in Hev as [i [Hi ->]].
  destruct (normalized_field df i field Hnd Hi Hf) as [v [Hv [Hs _]]].
  exists v. auto.
Qed.

(** C4, at a sheet whose Date column holds dates and one empty cell.  The
    normaliser returns its two events in row order, and the filling that
    turns a missing value into the empty string does so for the missing
    note of the first row, while the padded note of the second comes out
    trimmed; but the filling does not reach the empty cell of the date
    column: the second event has the text NaT for its day, not the empty
    string (under pandas 3 the day stays missing, and is no string at
    all). *)
Theorem C4_missing_date_not_emptied :
  nth_error (series dated_sheet) 0 = Some ("Date", [Value "2024-01-01"; NaT]) /\
  clean_value NaT = "NaT" /\
  clean_value Blank = EmptyString /\
  exists out ui,
    normalize_dataframe dated_sheet "busy_week.xlsx" = Ok (out, ui) /\
    n_rows out = 2%nat /\
    columns out = ["day"; "title"; "start"; "end"; "notes"; "archetype"] /\
    map (fun event => getitem event "day") (iterrows out) =
      [Ok "2024-01-01"; Ok "NaT"] /\
    map (fun event => getitem event "title") (iterrows out) =
      [Ok "Revision"; Ok "Exam"] /\
    map (fun event => getitem event "notes") (iterrows out) =
      [Ok EmptyString; Ok "bring ID"] /\
    map (fun event => getitem event "archetype") (iterrows out) =
      [Ok "CHR – Chronos"; Ok "CHR – Chronos"].
Proof.
  split; [reflexivity|]. split; [reflexivity|]. split; [reflexivity|].
  eexists. eexists. split; [vm_compute; reflexivity|].
  repeat split; vm_compute; reflexivity.
Qed.

(** C8, as the code has it.  A column whose label matches none of the
    keyword rules is not dropped: it stays in the normalised frame, at its
    place and under its own label, with as many values as it had, and
    every event carries under that label the value its row has in the
    column, as its trimmed text. *)
Theorem C8_unmatched_column_kept : forall df file_name out ui j col vs,
  normalize_dataframe df file_name = Ok (out, ui) ->
  nth_error (series df) j = Some (col, vs) ->
  canonical_name col = None ->
  nth_error (columns out) j = Some col /\
  exists vs',
    nth_error (series out) j = Some (col, vs') /\
    length vs' = length vs /\
    (forall i s,
        nth_error vs i = Some (Value s) ->
        nth_error vs' i = Some (strip s) /\
        getitem (row_at out i) col = Ok (strip s) /\
        trimmed_of s (strip s)).
Proof.
  intros df file_name out ui j col vs Hok Hj Hc.
  apply normalize_ok_inv in Hok as (Hnd & -> & _).
  assert (Hnth : nth_error (normalized_series df) j = Some (col, map clean_value vs)).
  { unfold normalized_series. rewrite nth_error_app1.
    - rewrite nth_error_map, Hj. cbn. unfold renamed_label. now rewrite Hc.
    - rewrite length_map. apply nth_error_Some. congruence. }
  pose proof (nth_error_In _ _ Hnth) as Hin.
  split.
  { unfold columns. cbn [series]. rewrite nth_error_map, Hnth. reflexivity. }
  exists (map clean_value vs).
  split; [exact Hnth|]. split; [apply length_map|].
  intros i s Hi.
  split; [rewrite nth_error_map, Hi; reflexivity|].
  split; [|apply strip_trimmed].
  unfold getitem.
  rewrite (row_at_get _ i col (map clean_value vs)).
  - rewrite nth_clean, (nth_error_nth vs i Blank Hi). reflexivity.
  - now apply normalized_NoDup.
  - exact Hin.
Qed.

(** C8 at the sample sheet: its column Room, third of the sheet and of the
    frame, and the padded room of the third row. *)
Lemma C8_unmatched_column_kept_witness :
  nth_error (columns busy_week) 2 = Some "Room" /\
  getitem (row_at busy_week 0) "Room" = Ok "B12" /\
  getitem (row_at busy_week 2) "Room" = Ok "Hall".
Proof.
  assert (Hok : normalize_dataframe busy_sheet "busy_week.xlsx" =
                Ok (busy_week,
                    [ st_sidebar_info ("📊 " ++ "busy_week.xlsx");
                      st_sidebar_write_columns (columns busy_week) ]))
    by (vm_compute; reflexivity).
  destruct (C8_unmatched_column_kept busy_sheet "busy_week.xlsx" _ _
              2%nat "Room" [Value "B12"; Blank; Value " Hall "] Hok
              eq_refl eq_refl) as (Hcol & vs' & _ & _ & Hget).
  split; [exact Hcol|].
  split.
  - exact (proj1 (proj2 (Hget 0%nat "B12" eq_refl))).
  - exact (proj1 (proj2 (Hget 2%nat " Hall " eq_refl))).
Defined.

(** C8, counterexample to "dropped": the column Room of the sample sheet
    matches no rule, and the normalised frame still has it, data
    included. *)
Lemma C8_room_column_retained :
  canonical_name "Room" = None /\
  exists out ui,
    normalize_dataframe busy_sheet "busy_week.xlsx" = Ok (out, ui) /\
    columns out = ["day"; "title"; "Room"; "start"; "end"; "notes"; "archetype"] /\
    map (fun event => getitem event "Room") (iterrows out) =
      [Ok "B12"; Ok EmptyString; Ok "Hall"].
Proof.
  split; [vm_compute; reflexivity|].
  eexists. eexists. split; [vm_compute; reflexivity|].
  split; vm_compute; reflexivity.
Qed.

Lemma NoDup_nth_error_eq : forall (l : list string) i j x,
  NoDup l -> nth_error l i = Some x -> nth_error l j = Some x -> i = j.
Proof.
  intros l i j x Hnd Hi Hj.
  apply (proj1 (NoDup_nth_error l) Hnd).
  - apply nth_error_Some. congruence.
  - congruence.
Qed.

(** C9, as the code has it.  When two columns classify as the same
    canonical field, the renaming overwrites nothing: it keeps both columns,
    each in its place and with its own values, under that one label. *)
Theorem C9_rename_overwrites_nothing :
  forall (df : DataFrame sheet_cell) i j c1 c2 field vs1 vs2,
  i <> j ->
  nth_error (series df) i = Some (c1, vs1) ->
  nth_error (series df) j = Some (c2, vs2) ->
  canonical_name c1 = Some field ->
  canonical_name c2 = Some field ->
  let renamed := rename df (column_mapping (columns df)) in
  n_rows renamed = n_rows df /\
  length (series renamed) = length (series df) /\
  map snd (series renamed) = map snd (series df) /\
  nth_error (series renamed) i = Some (field, vs1) /\
  nth_error (series renamed) j = Some (field, vs2).
Proof.
  intros df i j c1 c2 field vs1 vs2 Hij Hi Hj H1 H2 renamed.
  unfold renamed. rewrite rename_series.
  split; [reflexivity|].
  split; [apply length_map|].
  split; [rewrite map_map; reflexivity|].
  rewrite !nth_error_map, Hi, Hj. cbn [option_map fst snd].
  unfold renamed_label. now rewrite H1, H2.
Qed.

(** C9 at a sheet with a Date and a Day column. *)
Lemma C9_rename_overwrites_nothing_witness :
  nth_error (series (rename two_day_columns (column_mapping (columns two_day_columns))))
            0 = Some ("day", [Value "Monday"]) /\
  nth_error (series (rename two_day_columns (column_mapping (columns two_day_columns))))
            1 = Some ("day", [Value "Tuesday"]).
Proof.
  destruct (C9_rename_overwrites_nothing two_day_columns
              0%nat 1%nat "Date" "Day" "day" [Value "Monday"] [Value "Tuesday"]
              (fun H : 0%nat = 1%nat => O_S 0%nat H) eq_refl eq_refl eq_refl eq_refl)
    as (_ & _ & _ & Hi & Hj).
  split; [exact Hi | exact Hj].
Defined.

(** C9, counterexample to "last write wins": with a Date and a Day column
    the renamed frame holds both columns under the label day, the first
    with Monday and the second with Tuesday, and the normaliser raises
    instead of returning one day per row. *)
Lemma C9_no_overwrite :
  series (rename two_day_columns (column_mapping (columns two_day_columns))) =
    [ ("day", [Value "Monday"]); ("day", [Value "Tuesday"]);
      ("title", [Value "Revision"]) ] /\
  normalize_dataframe two_day_columns "quiet_week.xlsx" = Raise AttributeError /\
  ~ exists out ui,
      normalize_dataframe two_day_columns "quiet_week.xlsx" = Ok (out, ui).
Proof.
  split; [vm_compute; reflexivity|].
  split; [vm_compute; reflexivity|].
  intros (out & ui & H). vm_compute in H. discriminate.
Qed.

(** ** Loops that may raise *)

Lemma map_each_nth : forall (A B : Type) (f : A -> result B) xs ys i x,
  map_each f xs = Ok ys -> nth_error xs i = Some x ->
  exists y, f x = Ok y /\ nth_error ys i = Some y.
Proof.
  intros A B f; induction xs as [|a xs IH]; intros ys i x Hm Hi.
  - destruct i; discriminate.
  - cbn [map_each] in Hm.
    destruct (f a) as [b|] eqn:Hb; [|discriminate]. cbn [bind] in Hm.
    destruct (map_each f xs) as [bs|] eqn:Hbs; [|discriminate]. cbn [bind] in Hm.
    injection Hm as <-.
    destruct i as [|i]; cbn [nth_error] in *.
    + injection Hi as <-. eauto.
    + exact (IH bs i x eq_refl Hi).
Qed.

Lemma map_each_forall : forall (A B : Type) (f : A -> result B) (P : B -> Prop) xs ys,
  map_each f xs = Ok ys ->
  (forall x y, In x xs -> f x = Ok y -> P y) -> Forall P ys.
Proof.
  intros A B f P; induction xs as [|a xs IH]; intros ys Hm HP.
  - injection Hm as <-. constructor.
  - cbn [map_each] in Hm.
    destruct (f a) as [b|] eqn:Hb; [|discriminate]. cbn [bind] in Hm.
    destruct (map_each f xs) as [bs|] eqn:Hbs; [|discriminate]. cbn [bind] in Hm.
    injection Hm as <-. constructor.
    + apply (HP a b); [now left | exact Hb].
    + apply (IH bs eq_refl). intros x y Hx. apply HP. now right.
Qed.

Lemma map_each_length : forall (A B : Type) (f : A -> result B) xs ys,
  map_each f xs = Ok ys -> length ys = length xs.
Proof.
  intros A B f; induction xs as [|a xs IH]; intros ys Hm.
  - now injection Hm as <-.
  - cbn [map_each] in Hm.
    destruct (f a) as [b|]; [|discriminate]. cbn [bind] in Hm.
    destruct (map_each f xs) as [bs|] eqn:Hbs; [|discriminate]. cbn [bind] in Hm.
    injection Hm as <-. simpl. f_equal. now apply IH.
Qed.

Lemma map_each_total : forall (A B : Type) (f : A -> result B) xs,
  (forall x, In x xs -> exists y, f x = Ok y) ->
  exists ys, map_each f xs = Ok ys.
Proof.
  intros A B f; induction xs as [|a xs IH]; intros Hf.
  - exists []. reflexivity.
  - destruct (Hf a (or_introl eq_refl)) as [b Hb].
    destruct IH as [bs Hbs]; [intros x Hx; apply Hf; now right|].
    exists (b :: bs). cbn [map_each]. rewrite Hb. cbn [bind]. now rewrite Hbs.
Qed.

Lemma map_each_pure : forall (A B : Type) (f : A -> result B) (g : A -> B) xs,
  (forall x, In x xs -> f x = Ok (g x)) -> map_each f xs = Ok (map g xs).
Proof.
  intros A B f g; induction xs as [|a xs IH]; intros Hf; [reflexivity|].
  cbn [map_each map]. rewrite (Hf a (or_introl eq_refl)). cbn [bind].
  rewrite IH; [reflexivity|]. intros x Hx. apply Hf. now right.
Qed.

Lemma filter_each_passes : forall (A : Type) (p : A -> result bool) xs ys,
  filter_each p xs = Ok ys -> ys = filter (passes p) xs.
Proof.
  intros A p; induction xs as [|a xs IH]; intros ys Hf.
  - now injection Hf as <-.
  - cbn [filter_each] in Hf. cbn [filter]. unfold passes at 1.
    destruct (p a) as [b|]; [|discriminate]. cbn [bind] in Hf.
    destruct (filter_each p xs) as [zs|] eqn:Hzs; [|discriminate]. cbn [bind] in Hf.
    injection Hf as <-. rewrite (IH zs eq_refl). now destruct b.
Qed.

Lemma filter_each_total : forall (A : Type) (p : A -> result bool) xs,
  (forall x, In x xs -> exists b, p x = Ok b) ->
  filter_each p xs = Ok (filter (passes p) xs).
Proof.
  intros A p; induction xs as [|a xs IH]; intros Hp; [reflexivity|].
  cbn [filter_each filter]. unfold passes at 1.
  destruct (Hp a (or_introl eq_refl)) as [b Hb]. rewrite Hb. cbn [bind].
  rewrite IH; [|intros x Hx; apply Hp; now right]. cbn [bind].
  now destruct b.
Qed.

Lemma filter_nil_forall : forall (A : Type) (q : A -> bool) l,
  (forall x, In x l -> q x = false) -> filter q l = [].
Proof.
  intros A q; induction l as [|a l IH]; intros H; [reflexivity|].
  simpl. rewrite (H a (or_introl eq_refl)). apply IH. intros x Hx. apply H. now right.
Qed.

Lemma filter_first : forall (A : Type) (q : A -> bool) l e rest,
  filter q l = e :: rest ->
  exists before after,
    l = (before ++ e :: after)%list /\ q e = true /\
    (forall x, In x before -> q x = false) /\ rest = filter q after.
Proof.
  intros A q; induction l as [|a l IH]; intros e rest H; [discriminate|].
  simpl in H. destruct (q a) eqn:Hq.
  - injection H as -> <-. exists [], l. simpl.
    repeat split; auto. intros x [].
  - destruct (IH e rest H) as (before & after & -> & He & Hb & Hr).
    exists (a :: before), after. simpl. repeat split; auto.
    intros x [<-|Hx]; auto.
Qed.

(** ** Slot occupancy *)

Lemma getitem_field_of : forall event k v,
  getitem event k = Ok v -> field_of event k = v /\ dict_get event k = Some v.
Proof.
  intros event k v. unfold getitem, field_of.
  destruct (dict_get event k); [intros [= ->]; auto | discriminate].
Qed.

(** When the loop keeps an event for a slot. *)
Lemma event_in_slot_true : forall slot event,
  event_in_slot slot event = Ok true <->
  exists start_str end_str s e,
    getitem event "start" = Ok start_str /\
    getitem event "end" = Ok end_str /\
    parse_time_minutes (Some start_str) = Some s /\
    parse_time_minutes (Some end_str) = Some e /\
    s <> 0%Z /\ e <> 0%Z /\ (s <= slot < e)%Z.
Proof.
  intros slot event. unfold event_in_slot. split.
  - destruct (getitem event "start") as [ss|]; [|discriminate]. cbn [bind].
    destruct (getitem event "end") as [es|]; [|discriminate]. cbn [bind].
    unfold slot_test, truthy.
    destruct (parse_time_minutes (Some ss)) as [s|] eqn:Hps; [|discriminate].
    destruct (parse_time_minutes (Some es)) as [e|] eqn:Hpe;
      [|rewrite andb_false_r; discriminate].
    intros [= H]. apply andb_prop in H as [H H3]. apply andb_prop in H as [H1 H2].
    apply andb_prop in H3 as [H3 H4].
    apply negb_true_iff, Z.eqb_neq in H1. apply negb_true_iff, Z.eqb_neq in H2.
    apply Z.leb_le in H3. apply Z.ltb_lt in H4.
    exists ss, es, s, e. repeat split; auto.
  - intros (ss & es & s & e & -> & -> & Hs & He & Hs0 & He0 & Hle & Hlt).
    cbn [bind]. rewrite Hs, He. unfold slot_test, truthy.
    apply Z.eqb_neq in Hs0, He0. rewrite Hs0, He0.
    apply Z.leb_le in Hle. apply Z.ltb_lt in Hlt. rewrite Hle, Hlt. reflexivity.
Qed.

(** Off a start at minute 0 the loop's test is the specified one, for the
    slots of the grid, which are not negative. *)
Lemma event_in_slot_off_midnight : forall slot event b,
  event_in_slot slot event = Ok b -> (0 <= slot)%Z ->
  parse_time_minutes (Some (field_of event "start")) <> Some 0%Z ->
  b = occupies_slot_spec event slot.
Proof.
  intros slot event b H Hslot Hstart. unfold event_in_slot in H.
  destruct (getitem event "start") as [ss|] eqn:Hss; [|discriminate].
  destruct (getitem event "end") as [es|] eqn:Hes; [|discriminate].
  cbn [bind] in H. injection H as <-.
  apply getitem_field_of in Hss as [Hf Hds], Hes as [_ Hde].
  rewrite Hf in Hstart.
  unfold occupies_slot_spec. rewrite Hds, Hde. unfold slot_test, truthy.
  destruct (parse_time_minutes (Some ss)) as [s|]; [|reflexivity].
  destruct (parse_time_minutes (Some es)) as [e|]; [|now rewrite andb_false_r].
  destruct (Z.eqb_spec s 0) as [->|_]; [congruence|].
  destruct (Z.eqb_spec e 0) as [->|_]; [|reflexivity].
  cbn [negb andb]. destruct (Z.ltb_spec slot 0); [lia|].
  now rewrite andb_false_r.
Qed.

(** On the event Commute of the sample, 08:00 to 08:45: in the slots that
    start at 08:00 and at 08:30, both before 08:45, and in neither the one
    of 07:30 nor the one of 09:00.  On Revision, 08:30 to 10:00: in the slot
    of 09:30 and not in the one of 10:00, the end being excluded. *)
Lemma event_in_slot_samples :
  map (fun slot => event_in_slot slot (row_at busy_week 0)) [450; 480; 510; 540]%Z =
    [Ok false; Ok true; Ok true; Ok false] /\
  map (fun slot => event_in_slot slot (row_at busy_week 1)) [570; 600]%Z =
    [Ok true; Ok false].
Proof. split; vm_compute; reflexivity. Qed.

(** C1, at a start of 00:00.  The event Night shift of the sample runs
    from 00:00 to 07:00: both bounds parse, to 0 and 420, and the slot of
    06:00 lies in between, so as specified the event occupies that slot.
    The test of the grid loop takes the start 0 for a missing start and
    answers false; the cell of Tuesday 06:00 has no matching event. *)
Theorem C1_midnight_start_excluded :
  getitem night_shift "start" = Ok "00:00" /\
  getitem night_shift "end" = Ok "07:00" /\
  parse_time_minutes (Some "00:00") = Some 0%Z /\
  parse_time_minutes (Some "07:00") = Some 420%Z /\
  In 360%Z slots /\
  occupies_slot_spec night_shift 360 = true /\
  event_in_slot 360 night_shift = Ok false /\
  on_day "Tuesday" night_shift = true /\
  matching_events busy_week 360 "Tuesday" = Ok [].
Proof.
  repeat split; try (vm_compute; reflexivity).
  vm_compute. tauto.
Qed.

(** ** The grid *)

Lemma cell_at_map : forall (A B : Type) (f : A -> B) m i j,
  cell_at (map (map f) m) i j = option_map f (cell_at m i j).
Proof.
  intros A B f m i j. unfold cell_at. rewrite nth_error_map.
  destruct (nth_error m i) as [row|]; [|reflexivity].
  cbn. now rewrite nth_error_map.
Qed.

(** What a returned figure was built from. *)
Lemma heatmap_inv : forall df days week_key show_text fig ui,
  create_calendar_heatmap df days week_key show_text = Ok (Some fig, ui) ->
  exists archetypes grid,
    df_empty df = false /\
    getcol df "archetype" = Ok archetypes /\
    map_each (fun slot =>
                map_each (resolve_cell df (index_dict (all_archetypes_of archetypes)) slot)
                         days) slots = Ok grid /\
    fig_z fig = map (map cell_z) grid /\
    fig_text fig = (if show_text then Some (map (map cell_text) grid) else None) /\
    fig_hovertext fig = map (map cell_hover) grid /\
    fig_x fig = days /\ fig_y fig = y_labels /\ ui = [].
Proof.
  intros df days week_key show_text fig ui. unfold create_calendar_heatmap.
  destruct (df_empty df); [discriminate|].
  destruct (getcol df "archetype") as [archetypes|]; [|discriminate]. cbn [bind].
  destruct (map_each _ slots) as [grid|] eqn:Hgrid; [|discriminate]. cbn [bind].
  intros [= <- <-]. exists archetypes, grid. cbn. repeat split; auto.
Qed.

(** The matching events of a cell, when the loop over the events of the
    day raises nothing. *)
Lemma matching_events_inv : forall df slot day matching,
  matching_events df slot day = Ok matching ->
  matching = filter (passes (event_in_slot slot)) (filter (on_day day) (iterrows df)).
Proof.
  intros df slot day matching. unfold matching_events, day_events.
  destruct (has_column df "day"); [|discriminate]. cbn [bind].
  apply filter_each_passes.
Qed.

Lemma passes_true : forall (A : Type) (p : A -> result bool) x,
  passes p x = true <-> p x = Ok true.
Proof.
  intros A p x. unfold passes.
  destruct (p x) as [[|]|]; split; congruence.
Qed.

(** The first event of the day, in row order, that the slot test keeps is
    the head of [matching_events]. *)
Lemma matching_events_head : forall df slot day matching before event after,
  matching_events df slot day = Ok matching ->
  iterrows df = (before ++ event :: after)%list ->
  on_day day event = true ->
  event_in_slot slot event = Ok true ->
  (forall e, In e before -> on_day day e = true -> event_in_slot slot e <> Ok true) ->
  exists others, matching = event :: others.
Proof.
  intros df slot day matching before event after Hm Hrows Hday Hslot Hbefore.
  apply matching_events_inv in Hm. subst matching. rewrite Hrows.
  rewrite !filter_app. cbn [filter]. rewrite Hday. cbn [filter].
  rewrite (proj2 (passes_true _ _ _) Hslot).
  rewrite (filter_nil_forall _ (passes (event_in_slot slot)) (filter (on_day day) before)).
  - cbn [app]. eauto.
  - intros e He. apply filter_In in He as [He Hd].
    destruct (passes (event_in_slot slot) e) eqn:Hp; [|reflexivity].
    apply passes_true in Hp. now apply Hbefore in Hp.
Qed.

(** Among the events the slot test of the loop keeps, the first in row
    order makes the cell.  Take a figure returned by the grid builder, a
    slot, a day, and an event of the schedule that is on that day and kept
    by the slot test while no row before it is: whatever events after it
    are kept too, the cell of that slot and day is the cell of this event,
    with its archetype's index, its label and its hover text. *)
Lemma first_kept_event_wins :
  forall df days week_key show_text fig ui i j slot day before event after,
  create_calendar_heatmap df days week_key show_text = Ok (Some fig, ui) ->
  nth_error slots i = Some slot ->
  nth_error days j = Some day ->
  iterrows df = (before ++ event :: after)%list ->
  on_day day event = true ->
  event_in_slot slot event = Ok true ->
  (forall e, In e before -> on_day day e = true -> event_in_slot slot e <> Ok true) ->
  exists archetypes c,
    getcol df "archetype" = Ok archetypes /\
    event_cell (index_dict (all_archetypes_of archetypes)) day event = Ok c /\
    cell_at (fig_z fig) i j = Some (cell_z c) /\
    cell_at (fig_hovertext fig) i j = Some (cell_hover c) /\
    option_map (fun text => cell_at text i j) (fig_text fig) =
      (if show_text then Some (Some (cell_text c)) else None).
Proof.
  intros df days week_key show_text fig ui i j slot day before event after
         Hfig Hi Hj Hrows Hday Hslot Hbefore.
  destruct (heatmap_inv _ _ _ _ _ _ Hfig)
    as (archetypes & grid & _ & Hcol & Hgrid & Hz & Ht & Hh & _).
  destruct (map_each_nth _ _ _ _ _ _ _ Hgrid Hi) as (row & Hrow & Hnrow).
  destruct (map_each_nth _ _ _ _ _ _ _ Hrow Hj) as (c & Hc & Hnc).
  unfold resolve_cell in Hc.
  destruct (matching_events df slot day) as [matching|] eqn:Hm; [|discriminate].
  cbn [bind] in Hc.
  destruct (matching_events_head _ _ _ _ _ _ _ Hm Hrows Hday Hslot Hbefore)
    as [others ->].
  assert (Hat : cell_at grid i j = Some c) by (unfold cell_at; now rewrite Hnrow).
  exists archetypes, c.
  split; [exact Hcol|]. split; [exact Hc|].
  rewrite Hz, Hh, Ht, !cell_at_map, Hat.
  repeat split. destruct show_text; cbn; [|reflexivity].
  now rewrite cell_at_map, Hat.
Qed.

(** C2, at two events of one day that both occupy a slot, the first of
    them starting at 00:00.  On the Monday of [watch_week] the first row is
    Night watch, 00:00 to 09:00, and the second Breakfast, 08:00 to 09:00.
    Both bounds of both parse and the slot of 08:00, the fifth of the grid,
    lies between them: as specified both events occupy the slot, and the
    earlier row, Night watch, is the one to show.  The test of the grid
    loop takes the start 0 of Night watch for a missing start and drops the
    event, so that the events it keeps for the cell are Breakfast alone:
    the cell of Monday 08:00 has the label, the hover text and the colour
    index of Breakfast, not those of Night watch. *)
Theorem C2_midnight_first_row_skipped :
  normalize_dataframe watch_sheet "busy_week.xlsx" =
    Ok (watch_week, [ st_sidebar_info ("📊 " ++ "busy_week.xlsx");
                      st_sidebar_write_columns (columns watch_week) ]) /\
  iterrows watch_week = [row_at watch_week 0; row_at watch_week 1] /\
  map (fun event => getitem event "title") (iterrows watch_week) =
    [Ok "Night watch"; Ok "Breakfast"] /\
  map (on_day "Monday") (iterrows watch_week) = [true; true] /\
  nth_error slots 4 = Some 480%Z /\
  map (fun event => occupies_slot_spec event 480) (iterrows watch_week) =
    [true; true] /\
  map (event_in_slot 480) (iterrows watch_week) = [Ok false; Ok true] /\
  matching_events watch_week 480 "Monday" = Ok [row_at watch_week 1] /\
  exists fig shown hidden,
    create_calendar_heatmap watch_week ["Monday"] "busy" true = Ok (Some fig, []) /\
    event_cell (index_dict (all_archetypes_of ["NYX – Nyx"; "EOS – Eos"])) "Monday"
               (row_at watch_week 1) = Ok shown /\
    event_cell (index_dict (all_archetypes_of ["NYX – Nyx"; "EOS – Eos"])) "Monday"
               (row_at watch_week 0) = Ok hidden /\
    cell_text shown = "🌅 Breakfast" /\
    cell_text hidden = "🌙 Night watch" /\
    cell_z shown <> cell_z hidden /\
    cell_hover shown <> cell_hover hidden /\
    cell_at (fig_z fig) 4 0 = Some (cell_z shown) /\
    cell_at (fig_hovertext fig) 4 0 = Some (cell_hover shown) /\
    option_map (fun text => cell_at text 4 0) (fig_text fig) =
      Some (Some (cell_text shown)).
Proof.
  split; [vm_compute; reflexivity|].
  split; [reflexivity|].
  split; [vm_compute; reflexivity|].
  split; [vm_compute; reflexivity|].
  split; [vm_compute; reflexivity|].
  split; [vm_compute; reflexivity|].
  split; [vm_compute; reflexivity|].
  split; [vm_compute; reflexivity|].
  eexists. eexists. eexists.
  split; [vm_compute; reflexivity|].
  split; [vm_compute; reflexivity|].
  split; [vm_compute; reflexivity|].
  split; [vm_compute; reflexivity|].
  split; [vm_compute; reflexivity|].
  split; [vm_compute; discriminate|].
  split; [vm_compute; discriminate|].
  split; [vm_compute; reflexivity|].
  split; vm_compute; reflexivity.
Qed.

(** ** Totality of the grid on a normalised frame *)

Lemma canonical_getitem : forall df event field,
  canonical df -> In event (iterrows df) -> In field canonical_fields ->
  getitem event field = Ok (field_of event field).
Proof.
  intros df event field Hc Hev Hf.
  apply in_iterrows in Hev as [i [_ ->]].
  apply Hc, has_column_in in Hf. rewrite <- (row_at_labels df i) in Hf.
  unfold getitem, field_of.
  destruct (dict_get (row_at df i) field) eqn:Hg; [reflexivity|].
  apply dict_get_none in Hg. contradiction.
Qed.

Lemma in_canonical_fields :
  In "day" canonical_fields /\ In "title" canonical_fields /\
  In "start" canonical_fields /\ In "end" canonical_fields /\
  In "archetype" canonical_fields /\ In "notes" canonical_fields.
Proof. simpl. tauto. Qed.

Lemma event_in_slot_total : forall df slot event,
  canonical df -> In event (iterrows df) ->
  exists b, event_in_slot slot event = Ok b.
Proof.
  intros df slot event Hc Hev. unfold event_in_slot.
  rewrite (canonical_getitem df event "start" Hc Hev) by apply in_canonical_fields.
  rewrite (canonical_getitem df event "end" Hc Hev) by apply in_canonical_fields.
  cbn [bind]. eauto.
Qed.

Lemma getcol_canonical : forall df field,
  canonical df -> In field canonical_fields ->
  getcol df field = Ok (map (fun event => field_of event field) (iterrows df)).
Proof.
  intros df field Hc Hf. unfold getcol. apply map_each_pure.
  intros event Hev. now apply (canonical_getitem df).
Qed.

Lemma unique_in : forall l x, In x (unique l) <-> In x l.
Proof.
  induction l as [|a l IH]; intros x; [tauto|].
  cbn [unique In]. rewrite filter_In, IH, negb_true_iff.
  destruct (String.eqb_spec a x) as [->|Hne]; intuition congruence.
Qed.

Lemma all_archetypes_in : forall l a,
  In a (all_archetypes_of l) <-> In a l \/ a = EMPTY.
Proof.
  intros l a. unfold all_archetypes_of, sorted_set.
  rewrite sorted_with_in, nodup_In, in_app_iff, unique_in. simpl.
  intuition congruence.
Qed.

Lemma combine_seq_get : forall l start a,
  In a l -> exists i, dict_get (combine l (seq start (length l))) a = Some i.
Proof.
  induction l as [|b l IH]; intros start a Hin; [contradiction|].
  cbn [length seq combine dict_get].
  destruct (String.eqb_spec b a) as [_|Hne]; [eauto|].
  destruct Hin as [Heq|Hin]; [contradiction|]. now apply IH.
Qed.

Lemma index_of_total : forall all a,
  In a all -> exists i, index_of (index_dict all) a = Ok i.
Proof.
  intros all a Hin. unfold index_of, index_dict.
  destruct (combine_seq_get all 0 a Hin) as [i ->]. eauto.
Qed.

Lemma event_cell_total : forall df all day event,
  canonical df -> In event (iterrows df) ->
  In (field_of event "archetype") all ->
  exists c, event_cell (index_dict all) day event = Ok c.
Proof.
  intros df all day event Hc Hev Hin. unfold event_cell.
  rewrite (canonical_getitem df event "archetype" Hc Hev) by apply in_canonical_fields.
  cbn [bind]. destruct (index_of_total all _ Hin) as [z ->]. cbn [bind].
  rewrite (canonical_getitem df event "title" Hc Hev) by apply in_canonical_fields.
  cbn [bind].
  rewrite (canonical_getitem df event "start" Hc Hev) by apply in_canonical_fields.
  cbn [bind].
  rewrite (canonical_getitem df event "end" Hc Hev) by apply in_canonical_fields.
  cbn [bind]. eauto.
Qed.

Lemma resolve_cell_total : forall df slot day,
  canonical df ->
  exists c,
    resolve_cell df
      (index_dict (all_archetypes_of
                     (map (fun event => field_of event "archetype") (iterrows df))))
      slot day = Ok c.
Proof.
  intros df slot day Hc. unfold resolve_cell, matching_events, day_events.
  rewrite (Hc "day") by apply in_canonical_fields. cbn [bind].
  rewrite filter_each_total.
  2:{ intros e He. apply filter_In in He as [He _].
      now apply (event_in_slot_total df). }
  cbn [bind].
  destruct (filter _ (filter _ _)) as [|event others] eqn:Hm.
  - unfold empty_cell.
    destruct (index_of_total
                (all_archetypes_of
                   (map (fun event => field_of event "archetype") (iterrows df)))
                EMPTY) as [z ->]; [apply all_archetypes_in; now right|].
    cbn [bind]. eauto.
  - assert (Hev : In event (iterrows df)).
    { assert (H : In event (event :: others)) by now left.
      rewrite <- Hm in H. apply filter_In in H as [H _].
      now apply filter_In in H as [H _]. }
    apply (event_cell_total df); [exact Hc | exact Hev |].
    apply all_archetypes_in. left.
    apply in_map_iff. exists event. auto.
Qed.

Lemma canonical_not_empty : forall df,
  canonical df -> df_empty df = (n_rows df =? 0)%nat.
Proof.
  intros df Hc. unfold df_empty.
  assert (H : In "day" (columns df)) by (apply has_column_in, Hc, in_canonical_fields).
  unfold columns in H. destruct (series df); [contradiction|].
  cbn. now rewrite orb_false_r.
Qed.

(** The frame returned by the normaliser has the six canonical columns. *)
Lemma normalize_canonical : forall df file_name out ui,
  normalize_dataframe df file_name = Ok (out, ui) -> canonical out.
Proof.
  intros df file_name out ui Hok field Hf.
  apply normalize_ok_inv in Hok as (_ & -> & _).
  apply has_column_in. unfold columns. cbn [series].
  now apply normalized_labels_canonical.
Qed.

(** C10.  With no row the grid builder issues the warning and returns no
    figure, not a grid of empty cells.  A schedule, that is a frame with
    the six canonical columns such as the normaliser returns, that has at
    least one row always gets a figure, and no warning: one row of cells
    per slot, 34 of them from 06:00 to 22:30, and one cell per day in each,
    in the index, label and hover matrices alike. *)
Theorem C10_empty_schedule_no_grid :
  (forall df days week_key show_text,
      n_rows df = 0%nat ->
      create_calendar_heatmap df days week_key show_text =
      Ok (None, [st_warning "No data to display"])) /\
  (forall df days week_key show_text,
      canonical df -> n_rows df <> 0%nat ->
      exists fig,
        create_calendar_heatmap df days week_key show_text = Ok (Some fig, []) /\
        fig_x fig = days /\ fig_y fig = y_labels /\
        length (fig_z fig) = 34%nat /\ length y_labels = 34%nat /\
        Forall (fun row => length row = length days) (fig_z fig) /\
        length (fig_hovertext fig) = 34%nat /\
        Forall (fun row => length row = length days) (fig_hovertext fig)) /\
  (forall raw file_name df ui,
      normalize_dataframe raw file_name = Ok (df, ui) ->
      canonical df /\ n_rows df = n_rows raw).
Proof.
  split.
  { intros df days week_key show_text Hn. unfold create_calendar_heatmap, df_empty.
    now rewrite Hn. }
  split.
  { intros df days week_key show_text Hc Hn. unfold create_calendar_heatmap.
    rewrite (canonical_not_empty df Hc).
    destruct (Nat.eqb_spec (n_rows df) 0); [contradiction|].
    rewrite (getcol_canonical df "archetype" Hc) by apply in_canonical_fields.
    cbn [bind].
    set (idx := index_dict _).
    destruct (map_each_total _ _
                (fun slot => map_each (resolve_cell df idx slot) days) slots)
      as [grid Hgrid].
    { intros slot _. apply map_each_total. intros day _.
      now apply resolve_cell_total. }
    rewrite Hgrid. cbn [bind]. eexists. split; [reflexivity|].
    cbn [fig_x fig_y fig_z fig_hovertext].
    pose proof (map_each_length _ _ _ _ _ Hgrid) as Hlen.
    assert (Hrows : Forall (fun row => length row = length days) grid).
    { apply (map_each_forall _ _ _ _ _ _ Hgrid).
      intros slot row _ Hrow. now apply map_each_length in Hrow. }
    rewrite !length_map, Hlen.
    repeat split; try reflexivity.
    - apply Forall_map. eapply Forall_impl; [|exact Hrows].
      intros row Hr. now rewrite length_map.
    - apply Forall_map. eapply Forall_impl; [|exact Hrows].
      intros row Hr. now rewrite length_map. }
  intros raw file_name df ui Hok. split.
  - exact (normalize_canonical _ _ _ _ Hok).
  - apply normalize_ok_inv in Hok as (_ & -> & _). reflexivity.
Qed.

Lemma busy_week_canonical : canonical busy_week.
Proof.
  intros field Hf. unfold canonical_fields in Hf. simpl in Hf.
  repeat (destruct Hf as [<-|Hf]; [reflexivity|]). contradiction.
Defined.

(** C10 at the sample: a sheet with its header row only gives no figure,
    the sample week gives one of 34 rows. *)
Lemma C10_empty_schedule_no_grid_witness :
  create_calendar_heatmap
    (mkDataFrame 0 (normalized_series (mkDataFrame 0 [("Date", []); ("Activity", [])])))
    busy_days "busy" true = Ok (None, [st_warning "No data to display"]) /\
  exists fig,
    create_calendar_heatmap busy_week busy_days "busy" true = Ok (Some fig, []) /\
    length (fig_z fig) = 34%nat.
Proof.
  destruct C10_empty_schedule_no_grid as (Hempty & Hfull & _).
  split.
  - apply Hempty. reflexivity.
  - destruct (Hfull busy_week busy_days "busy" true busy_week_canonical
                (fun H : 3%nat = 0%nat => O_S 2%nat (eq_sym H)))
      as (fig & Hfig & _ & _ & Hlen & _).
    exists fig. split; [exact Hfig | exact Hlen].
Defined.

(** ** The export table *)

Lemma layout_app : forall rows1 rows2 r,
  layout r (rows1 ++ rows2) =
  (layout r rows1 ++ layout (r + length rows1) rows2)%list.
Proof.
  induction rows1 as [|row rows1 IH]; intros rows2 r; cbn [layout app length].
  - now rewrite Nat.add_0_r.
  - rewrite IH, <- app_assoc.
    replace (S r + length rows1)%nat with (r + S (length rows1))%nat by lia.
    reflexivity.
Qed.

Lemma export_event_ok : forall df day cells r event,
  canonical df -> In event (iterrows df) ->
  export_event day (cells, r) event =
  Ok ((cells ++ row_cells r (event_row day event))%list, S r).
Proof.
  intros df day cells r event Hc Hev. unfold export_event.
  rewrite (canonical_getitem df event "start" Hc Hev) by apply in_canonical_fields.
  cbn [bind].
  rewrite (canonical_getitem df event "end" Hc Hev) by apply in_canonical_fields.
  cbn [bind].
  rewrite (canonical_getitem df event "title" Hc Hev) by apply in_canonical_fields.
  cbn [bind].
  rewrite (canonical_getitem df event "archetype" Hc Hev) by apply in_canonical_fields.
  cbn [bind].
  destruct (getitem_field_of event "notes" _
              (canonical_getitem df event "notes" Hc Hev
                 (proj2 (proj2 (proj2 (proj2 (proj2 in_canonical_fields)))))))
    as [_ Hnotes].
  rewrite Hnotes. unfold ws_cell, event_row, row_cells.
  rewrite <- !app_assoc. reflexivity.
Qed.

Lemma export_events_ok : forall df day evs cells r,
  canonical df -> (forall event, In event evs -> In event (iterrows df)) ->
  for_each (export_event day) evs (cells, r) =
  Ok ((cells ++ layout r (map (event_row day) evs))%list, (r + length evs)%nat).
Proof.
  intros df day; induction evs as [|event evs IH]; intros cells r Hc Hin.
  - cbn. now rewrite app_nil_r, Nat.add_0_r.
  - cbn [for_each].
    rewrite (export_event_ok df) by (auto; apply Hin; now left).
    cbn [bind]. rewrite IH by (auto; intros e He; apply Hin; now right).
    cbn [map layout length]. rewrite <- app_assoc.
    replace (r + S (length evs))%nat with (S r + length evs)%nat by lia.
    reflexivity.
Qed.

Lemma export_day_ok : forall df day cells r,
  canonical df ->
  export_day df (cells, r) day =
  Ok ((cells ++ layout r (export_table df [day]))%list,
      (r + length (export_table df [day]))%nat).
Proof.
  intros df day cells r Hc. unfold export_day, day_events.
  rewrite (Hc "day") by apply in_canonical_fields. cbn [bind].
  unfold export_table. cbn [flat_map]. rewrite app_nil_r.
  destruct (filter (on_day day) (iterrows df)) as [|event evs] eqn:Hf.
  - unfold ws_cell. cbn [layout row_cells length].
    rewrite <- app_assoc, app_nil_r.
    replace (r + 1)%nat with (S r) by lia. reflexivity.
  - rewrite (export_events_ok df); [now rewrite length_map | exact Hc |].
    intros e He. rewrite <- Hf in He. now apply filter_In in He as [He _].
Qed.

Lemma export_table_cons : forall df day days,
  export_table df (day :: days) =
  (export_table df [day] ++ export_table df days)%list.
Proof.
  intros df day days. unfold export_table. cbn [flat_map]. now rewrite app_nil_r.
Qed.

Lemma export_days_ok : forall df days cells r,
  canonical df ->
  for_each (export_day df) days (cells, r) =
  Ok ((cells ++ layout r (export_table df days))%list,
      (r + length (export_table df days))%nat).
Proof.
  intros df; induction days as [|day days IH]; intros cells r Hc.
  - cbn. now rewrite app_nil_r, Nat.add_0_r.
  - cbn [for_each]. rewrite export_day_ok by exact Hc. cbn [bind].
    rewrite IH by exact Hc.
    rewrite (export_table_cons df day days), layout_app, length_app, <- app_assoc.
    now rewrite Nat.add_assoc.
Qed.

(** C7.  On a schedule the export writes, under the title cell and the
    header row, the export table laid out one sheet row per table row from
    row 4 on.  The table runs through the days in the order given; a day
    with no event of the schedule gives the single row Free time, any
    other day one row per event of that day, in stored order, carrying the
    day, start-end, the title, the archetype and the notes.  No clock is
    parsed on the way: an event appears whatever its start and end are. *)
Theorem C7_export_table : forall df week_type days,
  canonical df ->
  create_excel_export df week_type days =
    Ok (mkSheet (week_type ++ " Schedule")
                (sheet_head week_type ++ layout FIRST_ROW (export_table df days))%list) /\
  (forall day rest,
      export_table df (day :: rest) = (export_table df [day] ++ export_table df rest)%list) /\
  (forall day,
      filter (on_day day) (iterrows df) = [] ->
      export_table df [day] = [FreeTime day]) /\
  (forall day,
      filter (on_day day) (iterrows df) <> [] ->
      export_table df [day] = map (event_row day) (filter (on_day day) (iterrows df))) /\
  (forall day event,
      In day days -> In event (iterrows df) -> on_day day event = true ->
      In (event_row day event) (export_table df days)) /\
  (forall day event,
      event_row day event =
      EventRow day (field_of event "start" ++ "-" ++ field_of event "end")
               (field_of event "title") (field_of event "archetype")
               (field_of event "notes")).
Proof.
  intros df week_type days Hc.
  split.
  { unfold create_excel_export.
    change (fold_left _ (combine (seq 1 (length HEADERS)) HEADERS) _)
      with (sheet_head week_type).
    rewrite export_days_ok by exact Hc. reflexivity. }
  split; [intros day rest; apply export_table_cons|].
  split.
  { intros day Hf. unfold export_table. cbn [flat_map]. now rewrite Hf. }
  split.
  { intros day Hf. unfold export_table. cbn [flat_map]. rewrite app_nil_r.
    destruct (filter (on_day day) (iterrows df)); [contradiction | reflexivity]. }
  split; [|reflexivity].
  intros day event Hday Hev Hon. unfold export_table.
  apply in_flat_map. exists day. split; [exact Hday|].
  assert (Hin : In event (filter (on_day day) (iterrows df)))
    by (apply filter_In; auto).
  destruct (filter (on_day day) (iterrows df)); [contradiction|].
  now apply in_map.
Qed.

(** C7 at the sample, for Monday, Tuesday and a day without event:
    Night shift, whose start the grid does not take, has its row. *)
Lemma C7_export_table_witness :
  exists sheet,
    create_excel_export busy_week "busy" ["Monday"; "Tuesday"; "Sunday"] = Ok sheet /\
    export_table busy_week ["Monday"; "Tuesday"; "Sunday"] =
      [ EventRow "Monday" "08:00-08:45" "Commute to school" "CHR – Chronos" "Bus ride";
        EventRow "Monday" "08:30:00-10:00" "Revision" "CHR – Chronos" EmptyString;
        EventRow "Tuesday" "00:00-07:00" "Night shift" "CHR – Chronos" "soon";
        FreeTime "Sunday" ].
Proof.
  destruct (C7_export_table busy_week "busy" ["Monday"; "Tuesday"; "Sunday"]
              busy_week_canonical) as [Hok _].
  eexists. split; [exact Hok | vm_compute; reflexivity].
Defined.

(* ================================================================== *)
(** * Further properties *)

(** ** Axis labels read back by the clock parser *)

Lemma parse_digits_uint : forall d acc b,
  d <> Decimal.Nil \/ b = true ->
  parse_digits acc b (NilEmpty.string_of_uint d) = Some (uint_value acc d).
Proof.
  induction d as [|d IH|d IH|d IH|d IH|d IH|d IH|d IH|d IH|d IH|d IH];
    intros acc b Hb;
    try (cbn [NilEmpty.string_of_uint parse_digits uint_value];
         change (digit_value _) with (Some 0%Z) || change (digit_value _) with (Some 1%Z)
         || change (digit_value _) with (Some 2%Z) || change (digit_value _) with (Some 3%Z)
         || change (digit_value _) with (Some 4%Z) || change (digit_value _) with (Some 5%Z)
         || change (digit_value _) with (Some 6%Z) || change (digit_value _) with (Some 7%Z)
         || change (digit_value _) with (Some 8%Z) || change (digit_value _) with (Some 9%Z);
         apply IH; now right).
  destruct Hb as [Hb| ->]; [congruence | reflexivity].
Qed.

Lemma uint_value_pos : forall d acc,
  uint_value (Zpos acc) d = Zpos (Pos.of_uint_acc d acc).
Proof.
  induction d as [|d IH|d IH|d IH|d IH|d IH|d IH|d IH|d IH|d IH|d IH];
    intros acc; cbn [uint_value Pos.of_uint_acc]; [reflexivity|..];
    rewrite <- IH; f_equal; lia.
Qed.

Lemma uint_value_of_uint : forall d,
  uint_value 0 d = Z.of_N (Pos.of_uint d).
Proof.
  induction d as [|d IH|d IH|d IH|d IH|d IH|d IH|d IH|d IH|d IH|d IH];
    cbn [uint_value Pos.of_uint]; [reflexivity | exact IH |..];
    cbn [Z.mul Z.add Z.of_N]; apply uint_value_pos.
Qed.

Lemma digits_only_uint : forall d, digits_only (NilEmpty.string_of_uint d) = true.
Proof.
  induction d as [|d IH|d IH|d IH|d IH|d IH|d IH|d IH|d IH|d IH|d IH];
    cbn [NilEmpty.string_of_uint digits_only]; [reflexivity|..]; exact IH.
Qed.

Lemma to_uint_not_nil : forall p, Pos.to_uint p <> Decimal.Nil.
Proof.
  intros p H. pose proof (DecimalPos.Unsigned.of_to p) as Hp.
  rewrite H in Hp. discriminate.
Qed.


Lemma parse_decimal_digits : forall n b,
  (0 <= n)%Z -> parse_digits 0 b (decimal_digits n) = Some n.
Proof.
  intros [|p|p] b Hn; [reflexivity | | lia].
  unfold decimal_digits. cbn [Z.to_int NilZero.string_of_int].
  unfold NilZero.string_of_uint.
  pose proof (to_uint_not_nil p) as Hnil.
  destruct (Pos.to_uint p) eqn:Hd; [congruence|..]; rewrite <- Hd;
    (rewrite parse_digits_uint by (left; congruence);
     now rewrite uint_value_of_uint, DecimalPos.Unsigned.of_to).
Qed.

Lemma digits_only_decimal : forall n,
  (0 <= n)%Z -> digits_only (decimal_digits n) = true.
Proof.
  intros [|p|p] Hn; [reflexivity | | lia].
  unfold decimal_digits. cbn [Z.to_int NilZero.string_of_int].
  unfold NilZero.string_of_uint.
  destruct (Pos.to_uint p) eqn:Hd; [reflexivity|..]; rewrite <- Hd;
    apply digits_only_uint.
Qed.

Lemma format_02d_cases : forall n,
  format_02d n = String "0" (decimal_digits n) \/ format_02d n = decimal_digits n.
Proof.
  intros n. unfold format_02d. fold (decimal_digits n).
  destruct (decimal_digits n) as [|c [|c' s]]; auto.
Qed.

Lemma digits_only_format : forall n,
  (0 <= n)%Z -> digits_only (format_02d n) = true.
Proof.
  intros n Hn. destruct (format_02d_cases n) as [-> | ->].
  - cbn [digits_only]. now rewrite digits_only_decimal.
  - now apply digits_only_decimal.
Qed.

Lemma parse_format_02d : forall n b,
  (0 <= n)%Z -> parse_digits 0 b (format_02d n) = Some n.
Proof.
  intros n b Hn. destruct (format_02d_cases n) as [-> | ->].
  - cbn [parse_digits]. change (digit_value "0") with (Some 0%Z).
    now apply parse_decimal_digits.
  - now apply parse_decimal_digits.
Qed.

Lemma is_digit_char : forall c,
  is_digit c = true ->
  is_space c = false /\ Ascii.eqb c ":" = false /\
  Ascii.eqb c "+" = false /\ Ascii.eqb c "-" = false.
Proof.
  intros [b0 b1 b2 b3 b4 b5 b6 b7] H.
  destruct b0, b1, b2, b3, b4, b5, b6, b7; try discriminate H; repeat split.
Qed.

Lemma digits_only_no_space : forall s, digits_only s = true -> no_space s = true.
Proof.
  induction s as [|c s IH]; [reflexivity|].
  cbn [digits_only no_space]. intros H. apply andb_prop in H as [Hc Hs].
  destruct (is_digit_char c Hc) as [-> _]. now rewrite IH.
Qed.

Lemma no_space_app : forall a b,
  no_space (a ++ b) = no_space a && no_space b.
Proof.
  induction a as [|c a IH]; intros b; [reflexivity|].
  cbn [append no_space]. now rewrite IH, andb_assoc.
Qed.

(** Stripping changes nothing in a string without white space. *)
Lemma strip_no_space : forall s, no_space s = true -> strip s = s.
Proof.
  intros s Hs. unfold strip.
  assert (Hl : lstrip s = s).
  { destruct s as [|c s]; [reflexivity|]. cbn [no_space] in Hs.
    apply andb_prop in Hs as [Hc _]. apply negb_true_iff in Hc.
    cbn [lstrip]. now rewrite Hc. }
  rewrite Hl. clear Hl.
  induction s as [|c s IH]; [reflexivity|].
  cbn [no_space] in Hs. apply andb_prop in Hs as [Hc Hs].
  apply negb_true_iff in Hc. cbn [rstrip]. rewrite (IH Hs).
  destruct s; [now rewrite Hc | reflexivity].
Qed.

Lemma is_int_space_is_space : forall c, is_space c = false -> is_int_space c = false.
Proof.
  intros [b0 b1 b2 b3 b4 b5 b6 b7].
  destruct b0, b1, b2, b3, b4, b5, b6, b7; intros H; try discriminate H; reflexivity.
Qed.

(** Nor does [int] find anything to skip around it. *)
Lemma int_strip_no_space : forall s,
  no_space s = true -> int_rstrip (int_lstrip s) = s.
Proof.
  intros s Hs.
  assert (Hl : int_lstrip s = s).
  { destruct s as [|c s]; [reflexivity|]. cbn [no_space] in Hs.
    apply andb_prop in Hs as [Hc _]. apply negb_true_iff in Hc.
    cbn [int_lstrip]. now rewrite (is_int_space_is_space c Hc). }
  rewrite Hl. clear Hl.
  induction s as [|c s IH]; [reflexivity|].
  cbn [no_space] in Hs. apply andb_prop in Hs as [Hc Hs].
  apply negb_true_iff in Hc. cbn [int_rstrip]. rewrite (IH Hs).
  destruct s; [now rewrite (is_int_space_is_space c Hc) | reflexivity].
Qed.

Lemma py_int_of_digits : forall s,
  digits_only s = true ->
  py_int s = match parse_digits 0 false s with
             | Some n => Ok n
             | None => Raise ValueError
             end.
Proof.
  intros s Hs. unfold py_int.
  rewrite (int_strip_no_space s (digits_only_no_space s Hs)).
  destruct s as [|c s]; [reflexivity|].
  cbn [digits_only] in Hs. apply andb_prop in Hs as [Hc _].
  destruct c as [b0 b1 b2 b3 b4 b5 b6 b7].
  destruct b0, b1, b2, b3, b4, b5, b6, b7; try discriminate Hc; reflexivity.
Qed.

Lemma py_int_format_02d : forall n, (0 <= n)%Z -> py_int (format_02d n) = Ok n.
Proof.
  intros n Hn. rewrite py_int_of_digits by now apply digits_only_format.
  now rewrite parse_format_02d.
Qed.

Lemma split_on_digits : forall s,
  digits_only s = true -> split_on ":" s = [s].
Proof.
  induction s as [|c s IH]; [reflexivity|].
  cbn [digits_only split_on]. intros H. apply andb_prop in H as [Hc Hs].
  destruct (is_digit_char c Hc) as (_ & -> & _). now rewrite (IH Hs).
Qed.

Lemma split_on_digits_sep : forall a b,
  digits_only a = true ->
  split_on ":" (a ++ String ":" b) = a :: split_on ":" b.
Proof.
  induction a as [|c a IH]; intros b Ha; [reflexivity|].
  cbn [digits_only] in Ha. apply andb_prop in Ha as [Hc Ha].
  cbn [append split_on]. destruct (is_digit_char c Hc) as (_ & -> & _).
  now rewrite (IH b Ha).
Qed.

Lemma parse_clock_text : forall h m,
  (0 <= h)%Z -> (0 <= m)%Z ->
  parse_time_minutes (Some (format_02d h ++ ":" ++ format_02d m)) =
  Some (h * 60 + m)%Z.
Proof.
  intros h m Hh Hm. apply parse_time_minutes_some.
  exists (format_02d h ++ ":" ++ format_02d m), (format_02d h), (format_02d m), [], h, m.
  pose proof (digits_only_format h Hh) as Dh.
  pose proof (digits_only_format m Hm) as Dm.
  split; [reflexivity|]. split.
  - rewrite strip_no_space.
    + change (format_02d h ++ ":" ++ format_02d m)
        with (format_02d h ++ String ":" (format_02d m)).
      now rewrite split_on_digits_sep, split_on_digits.
    + rewrite no_space_app, (digits_only_no_space _ Dh). cbn [append no_space].
      now rewrite (digits_only_no_space _ Dm).
  - repeat split; now apply py_int_format_02d.
Qed.

(** X1.  A clock text printed the way the axis labels are, two digits at
    least for the hours and for the minutes with a colon in between, is read
    back by [parse_time_minutes] as hours * 60 + minutes, for any hours and
    minutes that are not negative: the parser checks no range, 25:99 gives
    1599.  So every label of the time axis parses to the start of its
    slot. *)
Theorem X1_axis_label_round_trip :
  (forall h m : nat,
      parse_time_minutes
        (Some (format_02d (Z.of_nat h) ++ ":" ++ format_02d (Z.of_nat m))) =
      Some (Z.of_nat h * 60 + Z.of_nat m)%Z) /\
  (forall m : nat,
      parse_time_minutes (Some (slot_label (Z.of_nat m))) = Some (Z.of_nat m)) /\
  y_labels = map slot_label slots /\
  map (fun label => parse_time_minutes (Some label)) y_labels = map Some slots.
Proof.
  assert (Hlabel : forall m, (0 <= m)%Z ->
            parse_time_minutes (Some (slot_label m)) = Some m).
  { intros m Hm. unfold slot_label. rewrite parse_clock_text.
    - f_equal. pose proof (Z.div_mod m 60). lia.
    - apply Z.div_pos; lia.
    - apply Z.mod_pos_bound; lia. }
  split; [intros h m; apply parse_clock_text; lia|].
  split; [intros m; apply Hlabel; lia|].
  split; [reflexivity|].
  change y_labels with (map slot_label slots). rewrite map_map.
  apply map_ext_in. intros m Hm. apply Hlabel.
  unfold slots, py_range in Hm. apply in_map_iff in Hm as [k [<- _]].
  unfold start_hour, slot_minutes. lia.
Qed.

(** ** Sorting the days twice *)

Lemma insert_sorted_front : forall (A : Type) (key : A -> nat) x l,
  StronglySorted (key_le key) (x :: l) ->
  insert_sorted (key_leb key) x l = x :: l.
Proof.
  intros A key x [|y l] Hs; [reflexivity|].
  inversion Hs as [|? ? _ Hx]; subst. inversion Hx as [|? ? Hxy _]; subst.
  cbn [insert_sorted]. unfold key_leb, key_le in *.
  destruct (Nat.leb_spec (key x) (key y)); [reflexivity | lia].
Qed.

(** Sorting leaves a sorted list as it is. *)
Lemma sorted_by_key_fixed : forall (A : Type) (key : A -> nat) l,
  StronglySorted (key_le key) l -> sorted_by_key key l = l.
Proof.
  intros A key; induction l as [|x l IH]; intros Hs; [reflexivity|].
  unfold sorted_by_key in *. cbn [sorted_with].
  inversion Hs as [|? ? Hl _]; subst. rewrite (IH Hl).
  now apply insert_sorted_front.
Qed.

Lemma filter_days_kept : forall l d, In d (filter_days l) -> keep_day d = true.
Proof.
  induction l as [|[s|] l IH]; intros d Hd; cbn [filter_days] in Hd.
  - contradiction.
  - destruct (keep_day s) eqn:Hs; [|now apply IH].
    destruct Hd as [<-|Hd]; [exact Hs | now apply IH].
  - now apply IH.
Qed.

Lemma filter_days_all_kept : forall l,
  (forall d, In d l -> keep_day d = true) -> filter_days (map Some l) = l.
Proof.
  induction l as [|d l IH]; intros H; [reflexivity|].
  cbn [map filter_days]. rewrite (H d (or_introl eq_refl)).
  f_equal. apply IH. intros x Hx. apply H. now right.
Qed.

Lemma sort_days_kept : forall l d, In d (sort_days l) -> keep_day d = true.
Proof.
  intros l d Hd. apply (filter_days_kept l).
  unfold sort_days, sorted_by_key in Hd. now apply sorted_with_in in Hd.
Qed.

(** X2.  [sort_days] applied to its own result returns it unchanged:
    nothing more is dropped and the order stays.  The result is never
    longer than the input, and each of its values was in the input. *)
Theorem X2_sort_days_idempotent : forall l,
  sort_days (map Some (sort_days l)) = sort_days l /\
  (length (sort_days l) <= length l)%nat /\
  (forall d, In d (sort_days l) -> In (Some d) l /\ keep_day d = true).
Proof.
  intros l. split; [|split].
  - unfold sort_days at 1.
    rewrite (filter_days_all_kept (sort_days l) (sort_days_kept l)).
    apply sorted_by_key_fixed. apply sorted_by_key_sorted.
  - unfold sort_days, sorted_by_key. rewrite sorted_with_length.
    induction l as [|[s|] l IH]; cbn [filter_days length]; [lia | | lia].
    destruct (keep_day s); cbn [length]; lia.
  - intros d Hd. split; [|now apply (sort_days_kept l)].
    unfold sort_days, sorted_by_key in Hd. apply sorted_with_in in Hd.
    apply (in_map Some) in Hd. rewrite filter_days_filter in Hd.
    now apply filter_In in Hd as [Hd _].
Qed.

(** ** More on the record normaliser *)

Lemma canonical_name_in_fields : forall col name,
  canonical_name col = Some name -> In name canonical_fields.
Proof.
  intros col name. unfold canonical_name.
  repeat match goal with
         | |- (if ?b then _ else _) = _ -> _ => destruct b
         end; intros [= <-]; simpl; tauto.
Qed.

Lemma canonical_name_fixed : forall name,
  In name canonical_fields -> canonical_name name = Some name.
Proof.
  intros name H. unfold canonical_fields in H. simpl in H.
  repeat (destruct H as [<-|H]; [vm_compute; reflexivity|]). contradiction.
Qed.

Lemma renamed_label_idem : forall col,
  renamed_label (renamed_label col) = renamed_label col.
Proof.
  intros col. unfold renamed_label at 2 3.
  destruct (canonical_name col) as [name|] eqn:Hc.
  - unfold renamed_label.
    now rewrite (canonical_name_fixed name (canonical_name_in_fields _ _ Hc)).
  - unfold renamed_label. now rewrite Hc.
Qed.

Lemma normalized_labels_fixed : forall df label,
  In label (map fst (normalized_series df)) -> renamed_label label = label.
Proof.
  intros df label H. rewrite normalized_labels in H.
  apply in_app_or in H as [H|H].
  - unfold renamed_labels in H. apply in_map_iff in H as [c [<- _]].
    apply renamed_label_idem.
  - apply in_map_iff in H as [p [<- Hp]].
    apply missing_defaults_in in Hp as [Hp _].
    unfold renamed_label. rewrite canonical_name_fixed; [reflexivity|].
    unfold canonical_fields. now apply in_map.
Qed.

Lemma normalized_values_stripped_in : forall df c v,
  In c (normalized_series df) -> In v (snd c) -> strip v = v.
Proof.
  intros df c v Hin Hv.
  unfold normalized_series in Hin. apply in_app_or in Hin as [Hin|Hin];
    apply in_map_iff in Hin as [x [<- Hx]]; cbn [snd] in Hv.
  - apply in_map_iff in Hv as [y [<- _]]. apply clean_value_stripped.
  - apply repeat_spec in Hv. subst v.
    apply missing_defaults_in in Hx as [Hx _].
    now apply canonical_defaults_stripped.
Qed.

Lemma map_fixed : forall (A : Type) (f : A -> A) l,
  (forall x, In x l -> f x = x) -> map f l = l.
Proof.
  intros A f; induction l as [|a l IH]; intros H; [reflexivity|].
  cbn [map]. rewrite (H a (or_introl eq_refl)). f_equal.
  apply IH. intros x Hx. apply H. now right.
Qed.

Lemma missing_defaults_none : forall labels,
  (forall field, In field canonical_fields -> In field labels) ->
  missing_defaults labels = [].
Proof.
  intros labels H. unfold missing_defaults.
  apply filter_nil_forall. intros p Hp. apply negb_false_iff.
  apply existsb_eqb_in. apply H. unfold canonical_fields. now apply in_map.
Qed.

(** Normalising the frame the normaliser returned gives that frame again. *)
Lemma normalize_again : forall df,
  NoDup (renamed_labels df) ->
  let out := mkDataFrame (n_rows df) (normalized_series df) in
  renamed_labels (as_sheet out) = columns out /\
  normalized_series (as_sheet out) = series out.
Proof.
  intros df Hnd out.
  assert (Hlabels : renamed_labels (as_sheet out) = columns out).
  { unfold renamed_labels, as_sheet, columns. cbn [series]. rewrite !map_map.
    cbn [fst]. rewrite <- (map_map fst renamed_label).
    apply map_fixed. intros label Hl. now apply (normalized_labels_fixed df). }
  split; [exact Hlabels|].
  unfold normalized_series at 1. rewrite Hlabels.
  rewrite missing_defaults_none
    by (intros field Hf; now apply normalized_labels_canonical).
  cbn [map]. rewrite app_nil_r.
  unfold as_sheet. cbn [series n_rows]. rewrite map_map. cbn [fst snd].
  apply map_fixed. intros [label vs] Hc. cbn [fst snd].
  rewrite (normalized_labels_fixed df label)
    by (apply in_map_iff; exists (label, vs); auto).
  f_equal. rewrite map_map. cbn [clean_value].
  apply map_fixed. intros v Hv.
  exact (normalized_values_stripped_in df (label, vs) v Hc Hv).
Qed.

Lemma as_sheet_dates_complete : forall df, dates_complete (as_sheet df) = true.
Proof.
  intros df. unfold dates_complete, as_sheet. cbn [series].
  apply forallb_forall. intros c Hc. apply in_map_iff in Hc as [x [<- _]].
  cbn [snd]. apply forallb_forall. intros v Hv.
  apply in_map_iff in Hv as [y [<- _]]. reflexivity.
Qed.

(** X3.  For a sheet without an empty cell in a date column, the frame the
    normaliser returns is a fixed point of it: read again as a sheet, every
    value present, and normalised under any file name, it comes back
    unchanged, with no column renamed, added or repeated and no value
    altered; and read again it has no empty date either.  (What an empty
    date becomes depends on the version of pandas, see the conventions.) *)
Theorem X3_normalize_idempotent : forall df file_name out ui file_name',
  dates_complete df = true ->
  normalize_dataframe df file_name = Ok (out, ui) ->
  normalize_dataframe (as_sheet out) file_name' =
    Ok (out, [ st_sidebar_info ("📊 " ++ file_name');
               st_sidebar_write_columns (columns out) ]) /\
  dates_complete (as_sheet out) = true.
Proof.
  intros df file_name out ui file_name' _ Hok.
  split; [|apply as_sheet_dates_complete].
  apply normalize_ok_inv in Hok as (Hnd & -> & _).
  destruct (normalize_again df Hnd) as [Hlabels Hseries].
  rewrite normalize_closed_form, Hlabels.
  assert (Hd : distinct (columns (mkDataFrame (n_rows df) (normalized_series df))) = true)
    by (apply distinct_NoDup; now apply normalized_NoDup).
  rewrite Hd, Hseries. reflexivity.
Qed.

(** X3 at the sample sheet. *)
Lemma X3_normalize_idempotent_witness :
  dates_complete busy_sheet = true /\
  normalize_dataframe (as_sheet busy_week) "again.xlsx" =
  Ok (busy_week, [ st_sidebar_info ("📊 " ++ "again.xlsx");
                   st_sidebar_write_columns (columns busy_week) ]).
Proof.
  assert (Hok : normalize_dataframe busy_sheet "busy_week.xlsx" =
                Ok (busy_week,
                    [ st_sidebar_info ("📊 " ++ "busy_week.xlsx");
                      st_sidebar_write_columns (columns busy_week) ]))
    by (vm_compute; reflexivity).
  split; [reflexivity|].
  exact (proj1 (X3_normalize_idempotent busy_sheet "busy_week.xlsx" busy_week _
                  "again.xlsx" eq_refl Hok)).
Defined.

Lemma nth_error_middle : forall (A : Type) (l1 l2 : list A) a,
  nth_error (l1 ++ a :: l2) (length l1) = Some a.
Proof.
  intros A l1 l2 a. rewrite nth_error_app2 by lia.
  now rewrite Nat.sub_diag.
Qed.

(** X4.  The normaliser fails in one way only: with AttributeError, and
    only when two different columns of the sheet end up under the same
    label, be it a canonical field given to both or a label they share. *)
Theorem X4_normalize_failure : forall df file_name e,
  normalize_dataframe df file_name = Raise e ->
  e = AttributeError /\
  exists i j c1 c2,
    (i < j)%nat /\
    nth_error (columns df) i = Some c1 /\
    nth_error (columns df) j = Some c2 /\
    renamed_label c1 = renamed_label c2.
Proof.
  intros df file_name e. rewrite normalize_closed_form.
  destruct (distinct (renamed_labels df)) eqn:Hd; [discriminate|].
  intros [= <-]. split; [reflexivity|].
  assert (Hnd : ~ NoDup (renamed_labels df)).
  { intros H. apply distinct_NoDup in H. congruence. }
  apply ListDec.not_NoDup in Hnd;
    [|intros x y; destruct (string_dec x y); [now left | now right]].
  destruct Hnd as (a & l1 & l2 & l3 & Hl).
  assert (Hi : nth_error (renamed_labels df) (length l1) = Some a)
    by (rewrite Hl; apply nth_error_middle).
  assert (Hj : nth_error (renamed_labels df) (length l1 + S (length l2)) = Some a).
  { rewrite Hl. rewrite nth_error_app2 by lia.
    replace (length l1 + S (length l2) - length l1)%nat with (S (length l2)) by lia.
    cbn [nth_error]. apply nth_error_middle. }
  unfold renamed_labels in Hi, Hj. rewrite nth_error_map in Hi, Hj.
  destruct (nth_error (columns df) (length l1)) as [c1|] eqn:H1; [|discriminate].
  destruct (nth_error (columns df) (length l1 + S (length l2))) as [c2|] eqn:H2;
    [|discriminate].
  cbn in Hi, Hj. exists (length l1), (length l1 + S (length l2))%nat, c1, c2.
  repeat split; try assumption; [lia | congruence].
Qed.

(** X4 at the sheet with a Date and a Day column. *)
Lemma X4_normalize_failure_witness :
  exists i j c1 c2,
    (i < j)%nat /\
    nth_error (columns two_day_columns) i = Some c1 /\
    nth_error (columns two_day_columns) j = Some c2 /\
    renamed_label c1 = renamed_label c2.
Proof.
  assert (H : normalize_dataframe two_day_columns "quiet_week.xlsx" =
              Raise AttributeError) by (vm_compute; reflexivity).
  exact (proj2 (X4_normalize_failure two_day_columns "quiet_week.xlsx" _ H)).
Defined.

Lemma NoDup_incl_length_le : forall (l l' : list string),
  NoDup l -> incl l l' -> (length l <= length l')%nat.
Proof. intros l l'. apply NoDup_incl_length. Qed.

(** X5.  On a sheet whose columns all have one value per row, the frame
    returned is again rectangular with the same number of rows; it has the
    columns of the sheet plus one for each canonical field the sheet lacks,
    hence at least six and at most six more than the sheet. *)
Theorem X5_normalize_shape : forall df file_name out ui,
  rectangular df ->
  normalize_dataframe df file_name = Ok (out, ui) ->
  rectangular out /\
  n_rows out = n_rows df /\
  length (columns out) =
    (length (columns df) + length (missing_defaults (renamed_labels df)))%nat /\
  (6 <= length (columns out) <= length (columns df) + 6)%nat /\
  NoDup (columns out).
Proof.
  intros df file_name out ui Hrect Hok.
  apply normalize_ok_inv in Hok as (Hnd & -> & _).
  split.
  { unfold rectangular, normalized_series. cbn [series n_rows].
    apply Forall_app. split; apply Forall_map.
    - eapply Forall_impl; [|exact Hrect]. intros c Hc. cbn [snd].
      now rewrite length_map.
    - apply Forall_forall. intros p _. cbn [snd]. apply repeat_length. }
  split; [reflexivity|].
  assert (Hlen : length (columns (mkDataFrame (n_rows df) (normalized_series df))) =
                 (length (columns df) +
                  length (missing_defaults (renamed_labels df)))%nat).
  { unfold columns at 1. cbn [series]. rewrite normalized_labels, length_app.
    unfold renamed_labels. now rewrite !length_map. }
  split; [exact Hlen|].
  split; [|now apply normalized_NoDup].
  split.
  - apply (NoDup_incl_length_le canonical_fields).
    + exact canonical_defaults_NoDup.
    + intros field Hf. unfold columns. cbn [series].
      now apply normalized_labels_canonical.
  - rewrite Hlen. apply Nat.add_le_mono_l.
    unfold missing_defaults.
    etransitivity; [apply filter_length_le|]. reflexivity.
Qed.

(** X5 at the sample sheet: six columns in, seven out. *)
Lemma X5_normalize_shape_witness :
  rectangular busy_week /\ length (columns busy_week) = 7%nat.
Proof.
  assert (Hrect : rectangular busy_sheet) by (repeat constructor).
  assert (Hok : normalize_dataframe busy_sheet "busy_week.xlsx" =
                Ok (busy_week,
                    [ st_sidebar_info ("📊 " ++ "busy_week.xlsx");
                      st_sidebar_write_columns (columns busy_week) ]))
    by (vm_compute; reflexivity).
  destruct (X5_normalize_shape busy_sheet "busy_week.xlsx" busy_week _ Hrect Hok)
    as (H1 & _ & H3 & _).
  split; [exact H1 | exact H3].
Defined.

(** ** More on the grid *)

Lemma take_chars_code_points : forall s n,
  code_points (take_chars n s) = Nat.min n (code_points s).
Proof.
  induction s as [|c s IH]; intros n; cbn [take_chars code_points].
  - now rewrite Nat.min_0_r.
  - destruct (is_continuation c) eqn:Hc.
    + cbn [code_points]. rewrite Hc, IH. reflexivity.
    + destruct n as [|n]; [reflexivity|].
      cbn [code_points]. rewrite Hc, IH. reflexivity.
Qed.

Lemma take_chars_prefix : forall s n, exists rest, s = take_chars n s ++ rest.
Proof.
  induction s as [|c s IH]; intros n; cbn [take_chars].
  - exists EmptyString. reflexivity.
  - destruct (is_continuation c).
    + destruct (IH n) as [rest Hr]. exists rest. cbn [append]. now rewrite <- Hr.
    + destruct n as [|n]; [exists (String c s); reflexivity|].
      destruct (IH n) as [rest Hr]. exists rest. cbn [append]. now rewrite <- Hr.
Qed.

Lemma take_chars_all : forall s n,
  (code_points s <= n)%nat -> take_chars n s = s.
Proof.
  induction s as [|c s IH]; intros n Hn; [reflexivity|].
  cbn [take_chars code_points] in *.
  destruct (is_continuation c).
  - f_equal. apply IH. lia.
  - destruct n as [|n]; [lia|]. f_equal. apply IH. lia.
Qed.

(** What the three values of a cell with an event are. *)
Lemma event_cell_inv : forall idx day event c,
  event_cell idx day event = Ok c ->
  exists archetype title,
    getitem event "archetype" = Ok archetype /\
    getitem event "title" = Ok title /\
    index_of idx archetype = Ok (cell_z c) /\
    cell_text c = take_chars 30 (display_text archetype title).
Proof.
  intros idx day event c. unfold event_cell.
  destruct (getitem event "archetype") as [a|]; [|discriminate]. cbn [bind].
  destruct (index_of idx a) as [z|] eqn:Hz; [|discriminate]. cbn [bind].
  destruct (getitem event "title") as [t|]; [|discriminate]. cbn [bind].
  destruct (getitem event "start") as [s|]; [|discriminate]. cbn [bind].
  destruct (getitem event "end") as [e|]; [|discriminate]. cbn [bind].
  intros [= <-]. exists a, t.
  split; [reflexivity|]. split; [reflexivity|]. split; [exact Hz | reflexivity].
Qed.

Lemma empty_cell_inv : forall idx day c,
  empty_cell idx day = Ok c ->
  index_of idx EMPTY = Ok (cell_z c) /\
  cell_text c = EmptyString /\ cell_hover c = free_hover day.
Proof.
  intros idx day c. unfold empty_cell.
  destruct (index_of idx EMPTY) as [z|]; [|discriminate]. cbn [bind].
  intros [= <-]. split; [reflexivity|]. split; reflexivity.
Qed.

(** The two ways a cell is made. *)
Lemma resolve_cell_cases : forall df idx slot day c,
  resolve_cell df idx slot day = Ok c ->
  (matching_events df slot day = Ok [] /\ empty_cell idx day = Ok c) \/
  (exists event others,
      matching_events df slot day = Ok (event :: others) /\
      In event (iterrows df) /\ on_day day event = true /\
      event_in_slot slot event = Ok true /\
      event_cell idx day event = Ok c).
Proof.
  intros df idx slot day c. unfold resolve_cell.
  destruct (matching_events df slot day) as [[|event others]|] eqn:Hm;
    [| |discriminate]; cbn [bind]; intros Hc.
  - now left.
  - right. exists event, others. split; [reflexivity|].
    pose proof (matching_events_inv _ _ _ _ Hm) as Hf.
    assert (Hin : In event (event :: others)) by now left.
    rewrite Hf in Hin. apply filter_In in Hin as [Hin Hp].
    apply filter_In in Hin as [Hin Hd]. apply passes_true in Hp. auto.
Qed.

(** What a returned figure was built from, colour scale included. *)
Lemma heatmap_parts : forall df days week_key show_text fig ui,
  create_calendar_heatmap df days week_key show_text = Ok (Some fig, ui) ->
  exists archetypes grid,
    getcol df "archetype" = Ok archetypes /\
    map_each (fun slot =>
                map_each (resolve_cell df (index_dict (all_archetypes_of archetypes)) slot)
                         days) slots = Ok grid /\
    fig_z fig = map (map cell_z) grid /\
    fig_text fig = (if show_text then Some (map (map cell_text) grid) else None) /\
    fig_hovertext fig = map (map cell_hover) grid /\
    fig_colorscale fig =
      map (fun ia => (fst ia, length (all_archetypes_of archetypes), arch_color (snd ia)))
          (combine (seq 0 (length (all_archetypes_of archetypes)))
                   (all_archetypes_of archetypes)).
Proof.
  intros df days week_key show_text fig ui. unfold create_calendar_heatmap.
  destruct (df_empty df); [discriminate|].
  destruct (getcol df "archetype") as [archetypes|]; [|discriminate]. cbn [bind].
  destruct (map_each _ slots) as [grid|] eqn:Hgrid; [|discriminate]. cbn [bind].
  intros [= <- <-]. exists archetypes, grid. cbn. repeat split; auto.
Qed.

(** The cell of slot [i] and day [j] of a returned figure. *)
Lemma heatmap_cell : forall df days week_key show_text fig ui i j slot day,
  create_calendar_heatmap df days week_key show_text = Ok (Some fig, ui) ->
  nth_error slots i = Some slot -> nth_error days j = Some day ->
  exists archetypes c,
    getcol df "archetype" = Ok archetypes /\
    resolve_cell df (index_dict (all_archetypes_of archetypes)) slot day = Ok c /\
    cell_at (fig_z fig) i j = Some (cell_z c) /\
    cell_at (fig_hovertext fig) i j = Some (cell_hover c) /\
    option_map (fun text => cell_at text i j) (fig_text fig) =
      (if show_text then Some (Some (cell_text c)) else None) /\
    fig_colorscale fig =
      map (fun ia => (fst ia, length (all_archetypes_of archetypes), arch_color (snd ia)))
          (combine (seq 0 (length (all_archetypes_of archetypes)))
                   (all_archetypes_of archetypes)).
Proof.
  intros df days week_key show_text fig ui i j slot day Hfig Hi Hj.
  destruct (heatmap_parts _ _ _ _ _ _ Hfig)
    as (archetypes & grid & Hcol & Hgrid & Hz & Ht & Hh & Hcs).
  destruct (map_each_nth _ _ _ _ _ _ _ Hgrid Hi) as (row & Hrow & Hnrow).
  destruct (map_each_nth _ _ _ _ _ _ _ Hrow Hj) as (c & Hc & Hnc).
  assert (Hat : cell_at grid i j = Some c) by (unfold cell_at; now rewrite Hnrow).
  exists archetypes, c.
  split; [exact Hcol|]. split; [exact Hc|].
  rewrite Hz, Hh, Ht, !cell_at_map, Hat.
  repeat split; [|exact Hcs].
  destruct show_text; cbn; [|reflexivity]. now rewrite cell_at_map, Hat.
Qed.

(** The hover text of a cell with an event. *)
Lemma event_cell_hover : forall idx day event c,
  event_cell idx day event = Ok c -> cell_hover c = event_hover day event.
Proof.
  intros idx day event c. unfold event_cell.
  destruct (getitem event "archetype") as [a|] eqn:Ha; [|discriminate]. cbn [bind].
  destruct (index_of idx a) as [z|]; [|discriminate]. cbn [bind].
  destruct (getitem event "title") as [t|] eqn:Ht; [|discriminate]. cbn [bind].
  destruct (getitem event "start") as [s|] eqn:Hs; [|discriminate]. cbn [bind].
  destruct (getitem event "end") as [e|] eqn:He; [|discriminate]. cbn [bind].
  apply getitem_field_of in Ha as [Ha _], Ht as [Ht _], Hs as [Hs _], He as [He _].
  intros [= <-]. cbn [cell_hover]. unfold event_hover.
  rewrite Ha, Ht, Hs, He. unfold field_of.
  destruct (dict_get event "notes") as [notes|]; reflexivity.
Qed.

(** X6.  A cell of a returned figure has a label of at most 30
    characters, which is in the matrix of labels when labels are asked for,
    and is of one of two kinds.  Either no event of that day passes the
    slot test and the cell is the free cell: the index of "(empty)", an
    empty label, the Free time hover text.  Or it shows the first event
    the slot test keeps, an event of the schedule that is on the day of
    the column (case and outer blanks apart) and whose start and end both
    parse, neither to 0, with start <= slot < end: the cell has the index
    of the archetype of that event, its title after the symbol of the
    archetype, cut to 30 characters, and the hover text made of the fields
    of that event.  An event of another day, or with a bound that does not
    parse, is in no cell. *)
Theorem X6_cell_kinds : forall df days week_key show_text fig ui i j slot day,
  create_calendar_heatmap df days week_key show_text = Ok (Some fig, ui) ->
  nth_error slots i = Some slot ->
  nth_error days j = Some day ->
  exists archetypes c,
    getcol df "archetype" = Ok archetypes /\
    cell_at (fig_z fig) i j = Some (cell_z c) /\
    cell_at (fig_hovertext fig) i j = Some (cell_hover c) /\
    option_map (fun text => cell_at text i j) (fig_text fig) =
      (if show_text then Some (Some (cell_text c)) else None) /\
    (code_points (cell_text c) <= 30)%nat /\
    ((matching_events df slot day = Ok [] /\
      index_of (index_dict (all_archetypes_of archetypes)) EMPTY = Ok (cell_z c) /\
      cell_text c = EmptyString /\ cell_hover c = free_hover day) \/
     (exists event others s e,
         matching_events df slot day = Ok (event :: others) /\
         In event (iterrows df) /\ on_day day event = true /\
         parse_time_minutes (Some (field_of event "start")) = Some s /\
         parse_time_minutes (Some (field_of event "end")) = Some e /\
         s <> 0%Z /\ e <> 0%Z /\ (s <= slot < e)%Z /\
         index_of (index_dict (all_archetypes_of archetypes))
                  (field_of event "archetype") = Ok (cell_z c) /\
         cell_text c =
           take_chars 30 (display_text (field_of event "archetype")
                                       (field_of event "title")) /\
         cell_hover c = event_hover day event)).
Proof.
  intros df days week_key show_text fig ui i j slot day Hfig Hi Hj.
  destruct (heatmap_cell _ _ _ _ _ _ _ _ _ _ Hfig Hi Hj)
    as (archetypes & c & Hcol & Hc & Hz & Hh & Ht & _).
  exists archetypes, c.
  split; [exact Hcol|]. split; [exact Hz|]. split; [exact Hh|]. split; [exact Ht|].
  destruct (resolve_cell_cases _ _ _ _ _ Hc)
    as [[Hm He]|(event & others & Hm & Hin & Hday & Hslot & He)].
  - apply empty_cell_inv in He as (Hidx & Htext & Hhov).
    split; [rewrite Htext; cbn; lia|]. left. auto.
  - pose proof (event_cell_hover _ _ _ _ He) as Hhov.
    apply event_cell_inv in He as (a & t & Ha & Htt & Hidx & Htext).
    apply getitem_field_of in Ha as [Hfa _], Htt as [Hft _].
    split.
    { rewrite Htext, take_chars_code_points. apply Nat.le_min_l. }
    right.
    apply event_in_slot_true in Hslot
      as (ss & es & s & e & Hss & Hes & Hs & Hen & Hs0 & He0 & Hint).
    apply getitem_field_of in Hss as [Hfs _], Hes as [Hfe _].
    exists event, others, s, e. rewrite Hfs, Hfe, Hfa, Hft.
    repeat split; auto; apply Hint.
Qed.

(** X6 at the sample: the cell of Monday at 08:30 shows Commute, the first
    of the two events of that half hour. *)
Lemma X6_cell_kinds_witness :
  exists fig c,
    create_calendar_heatmap busy_week busy_days "busy" true = Ok (Some fig, []) /\
    cell_at (fig_z fig) 5 0 = Some (cell_z c) /\
    option_map (fun text => cell_at text 5 0) (fig_text fig) =
      Some (Some (cell_text c)) /\
    cell_text c = "⏱️ Commute to school".
Proof.
  destruct (create_calendar_heatmap busy_week busy_days "busy" true)
    as [[[fig|] ui]|e] eqn:Hfig;
    [ | vm_compute in Hfig; discriminate | vm_compute in Hfig; discriminate ].
  assert (Hui : ui = []) by (vm_compute in Hfig; congruence).
  destruct (X6_cell_kinds busy_week busy_days "busy" true fig ui
              5%nat 0%nat 510%Z "Monday" Hfig eq_refl eq_refl)
    as (archetypes & c & _ & Hz & _ & Ht & _).
  exists fig, c. subst ui.
  split; [reflexivity|]. split; [exact Hz|]. split; [exact Ht|].
  assert (Hv : option_map (fun text => cell_at text 5 0) (fig_text fig) =
               Some (Some "⏱️ Commute to school")).
  { vm_compute in Hfig. injection Hfig as <-. vm_compute. reflexivity. }
  rewrite Hv in Ht. now injection Ht as <-.
Defined.

Lemma combine_seq_get_nth : forall l start a i,
  dict_get (combine l (seq start (length l))) a = Some i ->
  (start <= i)%nat /\ nth_error l (i - start) = Some a.
Proof.
  induction l as [|b l IH]; intros start a i H; [discriminate|].
  cbn [length seq combine dict_get] in H.
  destruct (String.eqb_spec b a) as [->|Hne].
  - injection H as <-. rewrite Nat.sub_diag. split; [lia | reflexivity].
  - apply IH in H as [Hle Hn]. split; [lia|].
    replace (i - start)%nat with (S (i - S start)) by lia. exact Hn.
Qed.

(** Looking an archetype up in the index and the index up in the sorted
    list gives the archetype back. *)
Lemma index_of_nth : forall all a z,
  index_of (index_dict all) a = Ok z -> nth_error all z = Some a.
Proof.
  intros all a z. unfold index_of, index_dict.
  destruct (dict_get _ a) as [i|] eqn:Hg; [|discriminate].
  intros [= <-]. apply combine_seq_get_nth in Hg as [_ Hg].
  now rewrite Nat.sub_0_r in Hg.
Qed.

Lemma combine_seq_nth : forall (l : list string) start z a,
  nth_error l z = Some a ->
  nth_error (combine (seq start (length l)) l) z = Some ((start + z)%nat, a).
Proof.
  induction l as [|b l IH]; intros start z a H; [destruct z; discriminate|].
  destruct z as [|z]; cbn [length seq combine nth_error] in *.
  - injection H as <-. now rewrite Nat.add_0_r.
  - rewrite (IH (S start) z a H). f_equal. f_equal. lia.
Qed.

(** X7.  The category index of a cell picks, in the colour scale of the
    figure, the stop of that cell's archetype: the colour of "(empty)" for
    a free cell, and for a cell with an event the catalogue colour of the
    archetype of that event, or #cccccc when the catalogue does not have
    it.  The index is always within the scale. *)
Theorem X7_cell_colour : forall df days week_key show_text fig ui i j slot day z,
  create_calendar_heatmap df days week_key show_text = Ok (Some fig, ui) ->
  nth_error slots i = Some slot ->
  nth_error days j = Some day ->
  cell_at (fig_z fig) i j = Some z ->
  (z < length (fig_colorscale fig))%nat /\
  exists archetype,
    nth_error (fig_colorscale fig) z =
      Some (z, length (fig_colorscale fig), arch_color archetype) /\
    ((matching_events df slot day = Ok [] /\ archetype = EMPTY) \/
     (exists event others,
         matching_events df slot day = Ok (event :: others) /\
         archetype = field_of event "archetype")).
Proof.
  intros df days week_key show_text fig ui i j slot day z Hfig Hi Hj Hz.
  destruct (heatmap_cell _ _ _ _ _ _ _ _ _ _ Hfig Hi Hj)
    as (archetypes & c & _ & Hc & Hz' & _ & _ & Hcs).
  rewrite Hz in Hz'. injection Hz' as ->.
  set (all := all_archetypes_of archetypes) in *.
  assert (Hlen : length (fig_colorscale fig) = length all).
  { rewrite Hcs, length_map, length_combine, length_seq. apply Nat.min_id. }
  assert (Hstop : forall a, index_of (index_dict all) a = Ok (cell_z c) ->
            nth_error (fig_colorscale fig) (cell_z c) =
            Some (cell_z c, length (fig_colorscale fig), arch_color a)).
  { intros a Ha. apply index_of_nth in Ha. rewrite Hlen, Hcs, nth_error_map.
    now rewrite (combine_seq_nth all 0 (cell_z c) a Ha). }
  destruct (resolve_cell_cases _ _ _ _ _ Hc)
    as [[Hm He]|(event & others & Hm & _ & _ & _ & He)].
  - apply empty_cell_inv in He as (Hidx & _).
    split; [apply nth_error_Some; rewrite (Hstop _ Hidx); discriminate|].
    exists EMPTY. split; [now apply Hstop | now left].
  - apply event_cell_inv in He as (a & t & Ha & _ & Hidx & _).
    apply getitem_field_of in Ha as [Hfa _].
    split; [apply nth_error_Some; rewrite (Hstop _ Hidx); discriminate|].
    exists a. split; [now apply Hstop|].
    right. exists event, others. auto.
Qed.

(** X7 at the sample: Monday at 08:30 has the colour of Chronos. *)
Lemma X7_cell_colour_witness :
  exists fig z,
    create_calendar_heatmap busy_week busy_days "busy" true = Ok (Some fig, []) /\
    cell_at (fig_z fig) 5 0 = Some z /\
    (z < length (fig_colorscale fig))%nat.
Proof.
  destruct (create_calendar_heatmap busy_week busy_days "busy" true)
    as [[[fig|] ui]|e] eqn:Hfig;
    [ | vm_compute in Hfig; discriminate | vm_compute in Hfig; discriminate ].
  assert (Hui : ui = []) by (vm_compute in Hfig; congruence).
  destruct (cell_at (fig_z fig) 5 0) as [z|] eqn:Hz.
  - destruct (X7_cell_colour busy_week busy_days "busy" true fig ui
                5%nat 0%nat 510%Z "Monday" z Hfig eq_refl eq_refl Hz)
      as [Hlt _].
    exists fig, z. subst ui. auto.
  - exfalso. vm_compute in Hfig. injection Hfig as <- _.
    vm_compute in Hz. discriminate.
Defined.

(** X8.  For a day on which the schedule has no event, every slot of a
    returned figure holds the free cell in that day's column: the Free time
    hover text, an empty label and the colour of "(empty)". *)
Theorem X8_empty_day_column : forall df days week_key show_text fig ui i j slot day,
  create_calendar_heatmap df days week_key show_text = Ok (Some fig, ui) ->
  nth_error slots i = Some slot ->
  nth_error days j = Some day ->
  (forall event, In event (iterrows df) -> on_day day event = false) ->
  cell_at (fig_hovertext fig) i j = Some (free_hover day) /\
  option_map (fun text => cell_at text i j) (fig_text fig) =
    (if show_text then Some (Some EmptyString) else None) /\
  exists z,
    cell_at (fig_z fig) i j = Some z /\
    nth_error (fig_colorscale fig) z =
      Some (z, length (fig_colorscale fig), "#f0f0f0").
Proof.
  intros df days week_key show_text fig ui i j slot day Hfig Hi Hj Hnone.
  destruct (heatmap_cell _ _ _ _ _ _ _ _ _ _ Hfig Hi Hj)
    as (archetypes & c & _ & Hc & Hz & Hh & Ht & Hcs).
  destruct (resolve_cell_cases _ _ _ _ _ Hc)
    as [[Hm He]|(event & others & _ & Hin & Hday & _)].
  2:{ rewrite (Hnone event Hin) in Hday. discriminate. }
  apply empty_cell_inv in He as (Hidx & Htext & Hhov).
  rewrite Hh, Hhov, Ht, Htext. split; [reflexivity|]. split; [reflexivity|].
  exists (cell_z c). split; [exact Hz|].
  apply index_of_nth in Hidx.
  rewrite Hcs, nth_error_map, length_map, length_combine, length_seq, Nat.min_id.
  now rewrite (combine_seq_nth _ 0 (cell_z c) EMPTY Hidx).
Qed.

(** X8 at the sample: no event on Sunday. *)
Lemma X8_empty_day_column_witness :
  exists fig,
    create_calendar_heatmap busy_week ["Sunday"] "busy" true = Ok (Some fig, []) /\
    cell_at (fig_hovertext fig) 0 0 = Some (free_hover "Sunday").
Proof.
  destruct (create_calendar_heatmap busy_week ["Sunday"] "busy" true)
    as [[[fig|] ui]|e] eqn:Hfig;
    [ | vm_compute in Hfig; discriminate | vm_compute in Hfig; discriminate ].
  assert (Hui : ui = []) by (vm_compute in Hfig; congruence).
  assert (Hnone : forall event, In event (iterrows busy_week) ->
                    on_day "Sunday" event = false).
  { intros event Hin. apply in_iterrows in Hin as (k & Hk & ->).
    destruct k as [|[|[|k]]]; [reflexivity | reflexivity | reflexivity |].
    cbn in Hk. lia. }
  destruct (X8_empty_day_column busy_week ["Sunday"] "busy" true fig ui
              0%nat 0%nat 360%Z "Sunday" Hfig eq_refl eq_refl Hnone)
    as (Hh & _).
  exists fig. subst ui. auto.
Defined.

(** ** More on the export *)

(** The sheet written for a schedule. *)
Lemma create_excel_export_ok : forall df week_type days,
  canonical df ->
  create_excel_export df week_type days =
  Ok (mkSheet (week_type ++ " Schedule")
              (sheet_head week_type ++ layout FIRST_ROW (export_table df days))%list).
Proof.
  intros df week_type days Hc. unfold create_excel_export.
  change (fold_left _ (combine (seq 1 (length HEADERS)) HEADERS) _)
    with (sheet_head week_type).
  rewrite export_days_ok by exact Hc. reflexivity.
Qed.

Lemma row_cells_coords : forall r row x,
  In x (map fst (row_cells r row)) ->
  fst x = r /\ (1 <= snd x <= 5)%nat.
Proof.
  intros r [day|day t ti a n] x H; cbn in H;
    repeat (destruct H as [<-|H]; [cbn; lia|]); contradiction.
Qed.

Lemma row_cells_NoDup : forall r row, NoDup (map fst (row_cells r row)).
Proof.
  intros r [day|day t ti a n]; cbn; repeat constructor; cbn;
    intuition (try discriminate; try congruence).
Qed.

Lemma layout_coords : forall rows r x,
  In x (map fst (layout r rows)) ->
  (r <= fst x < r + length rows)%nat /\ (1 <= snd x <= 5)%nat.
Proof.
  induction rows as [|row rows IH]; intros r x H; [contradiction|].
  cbn [layout length] in *. rewrite map_app in H. apply in_app_or in H as [H|H].
  - apply row_cells_coords in H. lia.
  - apply IH in H. lia.
Qed.

Lemma layout_NoDup : forall rows r, NoDup (map fst (layout r rows)).
Proof.
  induction rows as [|row rows IH]; intros r; [constructor|].
  cbn [layout]. rewrite map_app. apply NoDup_app.
  - apply row_cells_NoDup.
  - apply IH.
  - intros x H1 H2. apply row_cells_coords in H1. apply layout_coords in H2. lia.
Qed.

Lemma layout_first_column : forall rows r k,
  (k < length rows)%nat -> exists v, In (r + k, 1, v)%nat (layout r rows).
Proof.
  induction rows as [|row rows IH]; intros r k Hk; [cbn in Hk; lia|].
  cbn [layout length] in *. destruct k as [|k].
  - rewrite Nat.add_0_r. destruct row as [day|day t ti a n].
    + exists day. apply in_or_app. left. now left.
    + exists day. apply in_or_app. left. now left.
  - destruct (IH (S r) k) as [v Hv]; [lia|].
    exists v. apply in_or_app. right.
    replace (r + S k)%nat with (S r + k)%nat by lia. exact Hv.
Qed.

Lemma export_table_length : forall df days,
  (length days <= length (export_table df days))%nat.
Proof.
  intros df; induction days as [|day days IH]; [cbn; lia|].
  rewrite (export_table_cons df day days), length_app. cbn [length].
  assert (1 <= length (export_table df [day]))%nat; [|lia].
  unfold export_table. cbn [flat_map]. rewrite app_nil_r.
  destruct (filter (on_day day) (iterrows df)); cbn; lia.
Qed.

Lemma row_cells_first_column : forall r row, In (r, 1%nat, row_day row) (row_cells r row).
Proof. intros r [day|day t ti a n]; now left. Qed.

(** Sheet row [r + k] of a laid out table holds the cells of the [k]-th
    row of the table, and no other. *)
Lemma layout_row : forall rows r k row,
  nth_error rows k = Some row ->
  forall c v,
    In (r + k, c, v)%nat (layout r rows) <-> In (r + k, c, v)%nat (row_cells (r + k) row).
Proof.
  induction rows as [|row0 rows IH]; intros r k row Hk c v; [destruct k; discriminate|].
  cbn [layout]. rewrite in_app_iff. destruct k as [|k]; cbn [nth_error] in Hk.
  - injection Hk as ->. rewrite Nat.add_0_r. split; [|now left].
    intros [H|H]; [exact H|].
    apply (in_map fst) in H. apply layout_coords in H. cbn [fst] in H. lia.
  - replace (r + S k)%nat with (S r + k)%nat by lia.
    rewrite <- (IH (S r) k row Hk c v). split; [|now right].
    intros [H|H]; [|exact H].
    apply (in_map fst) in H. apply row_cells_coords in H. cbn [fst] in H. lia.
Qed.

Lemma export_table_days : forall df days row,
  In row (export_table df days) -> In (row_day row) days.
Proof.
  intros df days row H. unfold export_table in H.
  apply in_flat_map in H as (day & Hday & H).
  destruct (filter (on_day day) (iterrows df)) as [|ev evs].
  - destruct H as [<-|[]]. exact Hday.
  - apply in_map_iff in H as (event & <- & _). exact Hday.
Qed.

(** X9.  The export never writes a cell twice.  Apart from the title in A1
    and the header in row 3, it fills the rows from 4 on without a gap and
    nothing outside columns 1 to 5: sheet row 4 + k holds the cells of the
    k-th row of the table and no other, with the day of that row, one of
    the days listed, in column 1; and there is at least one row for each
    day listed. *)
Theorem X9_export_sheet_layout : forall df week_type days sheet,
  canonical df ->
  create_excel_export df week_type days = Ok sheet ->
  let rows := length (export_table df days) in
  ws_title sheet = week_type ++ " Schedule" /\
  NoDup (map fst (ws_cells sheet)) /\
  (forall r c v,
      In (r, c, v) (ws_cells sheet) ->
      (r = 1 /\ c = 1)%nat \/ (r = 3 /\ 1 <= c <= 5)%nat \/
      (4 <= r < 4 + rows /\ 1 <= c <= 5)%nat) /\
  (forall k row,
      nth_error (export_table df days) k = Some row ->
      In (4 + k, 1, row_day row)%nat (ws_cells sheet) /\
      In (row_day row) days /\
      (forall c v,
          In (4 + k, c, v)%nat (ws_cells sheet) <->
          In (4 + k, c, v)%nat (row_cells (4 + k) row))) /\
  (forall r, (4 <= r < 4 + rows)%nat ->
      exists row, nth_error (export_table df days) (r - 4) = Some row) /\
  (length days <= rows)%nat.
Proof.
  intros df week_type days sheet Hc Hok rows.
  rewrite (create_excel_export_ok df week_type days Hc) in Hok.
  assert (Ht : ws_title sheet = week_type ++ " Schedule")
    by (injection Hok as <-; reflexivity).
  assert (Hs : ws_cells sheet =
               (sheet_head week_type ++ layout FIRST_ROW (export_table df days))%list)
    by (injection Hok as <-; reflexivity).
  split; [exact Ht|].
  rewrite Hs. clear Ht Hs Hok.
  split.
  { rewrite map_app. apply NoDup_app.
    - cbn. repeat constructor; cbn; intuition (try discriminate; try congruence).
    - apply layout_NoDup.
    - intros x H1 H2. apply layout_coords in H2. unfold FIRST_ROW in H2.
      cbn in H1. repeat (destruct H1 as [<-|H1]; [cbn in H2; lia|]). contradiction. }
  split.
  { intros r c v H. apply in_app_or in H as [H|H].
    - cbn in H.
      repeat (destruct H as [[= <- <- <-]|H]; [lia|]). contradiction.
    - apply (in_map fst) in H. apply layout_coords in H. cbn [fst snd] in H.
      unfold FIRST_ROW in H. fold rows in H. lia. }
  split.
  { intros k row Hk.
    assert (Hrow : forall c v,
              In (4 + k, c, v)%nat
                 (sheet_head week_type ++ layout FIRST_ROW (export_table df days))%list <->
              In (4 + k, c, v)%nat (row_cells (4 + k) row)).
    { intros c v. rewrite in_app_iff.
      rewrite (layout_row (export_table df days) FIRST_ROW k row Hk c v).
      split; [|now right]. intros [H|H]; [|exact H].
      unfold sheet_head in H. cbn [In] in H.
      repeat (destruct H as [H|H]; [inversion H; lia|]). contradiction. }
    split; [apply Hrow, row_cells_first_column|].
    split; [|exact Hrow].
    apply (export_table_days df). exact (nth_error_In _ _ Hk). }
  split.
  { intros r Hr.
    destruct (nth_error (export_table df days) (r - 4)) as [row|] eqn:Hn; [eauto|].
    apply nth_error_None in Hn. fold rows in Hn. lia. }
  apply export_table_length.
Qed.

(** X9 at the sample, for Monday, Tuesday and Sunday: sheet row 6 is the
    row of Night shift, on Tuesday. *)
Lemma X9_export_sheet_layout_witness :
  exists sheet,
    create_excel_export busy_week "busy" ["Monday"; "Tuesday"; "Sunday"] = Ok sheet /\
    NoDup (map fst (ws_cells sheet)) /\
    In (6, 1, "Tuesday")%nat (ws_cells sheet) /\
    In (6, 3, "Night shift")%nat (ws_cells sheet).
Proof.
  destruct (create_excel_export busy_week "busy" ["Monday"; "Tuesday"; "Sunday"])
    as [sheet|e] eqn:Hok; [|vm_compute in Hok; discriminate].
  destruct (X9_export_sheet_layout busy_week "busy" ["Monday"; "Tuesday"; "Sunday"]
              sheet busy_week_canonical Hok) as (_ & Hnd & _ & Hrows & _).
  destruct (Hrows 2%nat
              (EventRow "Tuesday" "00:00-07:00" "Night shift" "CHR – Chronos" "soon")
              eq_refl) as (Hday & _ & Hcells).
  exists sheet. split; [reflexivity|]. split; [exact Hnd|].
  split; [exact Hday|].
  apply Hcells. right. right. now left.
Defined.

(** ** The days shown for a schedule *)

Lemma unique_NoDup : forall l, NoDup (unique l).
Proof.
  induction l as [|x l IH]; cbn [unique]; constructor.
  - intros H. apply filter_In in H as [_ H].
    now rewrite String.eqb_refl in H.
  - now apply NoDup_filter.
Qed.

Lemma filter_days_some : forall l, filter_days (map Some l) = filter keep_day l.
Proof.
  induction l as [|d l IH]; [reflexivity|].
  cbn [map filter_days filter]. now rewrite IH.
Qed.

Lemma nonempty_lower : forall s, nonempty (lower s) = nonempty s.
Proof. now intros [|c s]. Qed.

(** Whether a day label is kept depends on its stripped lower-case form
    only. *)
Lemma keep_day_normal_form : forall a b,
  lower (strip a) = lower (strip b) -> keep_day a = keep_day b.
Proof.
  intros a b H. unfold keep_day.
  rewrite <- (nonempty_lower (strip a)), <- (nonempty_lower (strip b)), H.
  reflexivity.
Qed.

Lemma on_day_spec : forall day event,
  on_day day event = true <->
  exists d, dict_get event "day" = Some d /\ lower (strip d) = lower (strip day).
Proof.
  intros day event. unfold on_day.
  destruct (dict_get event "day") as [d|].
  - rewrite String.eqb_eq. split; [eauto | intros (d' & [= <-] & H); exact H].
  - split; [discriminate | intros (d' & H & _); discriminate].
Qed.

Lemma canonical_day : forall df event,
  canonical df -> In event (iterrows df) ->
  dict_get event "day" = Some (field_of event "day").
Proof.
  intros df event Hc Hev.
  apply (getitem_field_of event "day").
  apply (canonical_getitem df); auto. apply in_canonical_fields.
Qed.

Lemma tab_days_value : forall df,
  canonical df ->
  tab_days df =
  Ok (sort_days (map Some (unique (map (fun event => field_of event "day")
                                       (iterrows df))))).
Proof.
  intros df Hc. unfold tab_days.
  rewrite (getcol_canonical df "day" Hc) by apply in_canonical_fields.
  reflexivity.
Qed.

Lemma tab_days_in : forall df d,
  In d (sort_days (map Some (unique (map (fun event => field_of event "day")
                                         (iterrows df))))) <->
  keep_day d = true /\ exists event, In event (iterrows df) /\ field_of event "day" = d.
Proof.
  intros df d. unfold sort_days, sorted_by_key.
  rewrite sorted_with_in, filter_days_some, filter_In, unique_in, in_map_iff.
  split.
  - intros [(event & Hf & Hin) Hk]. eauto.
  - intros [Hk (event & Hin & Hf)]. eauto.
Qed.

(** X10.  The days of a tab are the distinct values of the day column
    that are neither blank nor "nan", each once.  An event with such a day
    is on the day of its own label; an event whose day is blank or "nan"
    is on none of the days of the tab, so it is in no column of the grid
    and in no block of the export built for them.  The list is empty
    exactly when every event is of the second kind. *)
Theorem X10_tab_days : forall df,
  canonical df ->
  exists days,
    tab_days df = Ok days /\
    NoDup days /\
    (forall d,
        In d days <->
        keep_day d = true /\
        exists event, In event (iterrows df) /\ field_of event "day" = d) /\
    (forall event,
        In event (iterrows df) -> keep_day (field_of event "day") = true ->
        In (field_of event "day") days /\
        on_day (field_of event "day") event = true) /\
    (forall event day,
        In event (iterrows df) -> keep_day (field_of event "day") = false ->
        In day days -> on_day day event = false) /\
    (days = [] <->
     forall event, In event (iterrows df) -> keep_day (field_of event "day") = false).
Proof.
  intros df Hc. eexists. split; [apply tab_days_value; exact Hc|].
  set (days := sort_days _).
  assert (Hin : forall d, In d days <->
            keep_day d = true /\
            exists event, In event (iterrows df) /\ field_of event "day" = d)
    by (intros d; apply tab_days_in).
  split.
  { unfold days, sort_days, sorted_by_key.
    eapply Permutation_NoDup; [symmetry; apply sorted_with_perm|].
    rewrite filter_days_some. apply NoDup_filter, unique_NoDup. }
  clearbody days.
  split; [exact Hin|].
  split.
  { intros event Hev Hk. split; [apply Hin; eauto|].
    apply on_day_spec. exists (field_of event "day").
    split; [now apply (canonical_day df) | reflexivity]. }
  split.
  { intros event day Hev Hk Hday.
    destruct (on_day day event) eqn:Hon; [|reflexivity].
    apply on_day_spec in Hon as (d & Hd & Heq).
    rewrite (canonical_day df event Hc Hev) in Hd. injection Hd as <-.
    apply keep_day_normal_form in Heq.
    apply Hin in Hday as [Hkd _]. congruence. }
  split.
  - intros Hnil event Hev.
    destruct (keep_day (field_of event "day")) eqn:Hk; [|reflexivity].
    assert (H : In (field_of event "day") days) by (apply Hin; eauto).
    rewrite Hnil in H. contradiction.
  - intros Hall. destruct days as [|d rest]; [reflexivity|].
    destruct (proj1 (Hin d) (or_introl eq_refl)) as [Hk (event & Hev & Hf)].
    rewrite <- Hf, (Hall event Hev) in Hk. discriminate.
Qed.

(** X10 at the sample: Monday, monday and Tuesday. *)
Lemma X10_tab_days_witness :
  tab_days busy_week = Ok ["Monday"; "monday"; "Tuesday"].
Proof.
  destruct (X10_tab_days busy_week busy_week_canonical) as (days & Hok & _).
  rewrite Hok. f_equal. vm_compute in Hok. now injection Hok as <-.
Defined.

Lemma export_table_in : forall df days day event,
  In day days -> In event (iterrows df) -> on_day day event = true ->
  In (event_row day event) (export_table df days).
Proof.
  intros df days day event Hday Hev Hon. unfold export_table.
  apply in_flat_map. exists day. split; [exact Hday|].
  assert (Hin : In event (filter (on_day day) (iterrows df)))
    by (apply filter_In; auto).
  destruct (filter (on_day day) (iterrows df)); [contradiction|].
  now apply in_map.
Qed.

(** X11.  Day labels are told apart as written when the days of a tab are
    collected, but compared without case when events are picked for a day.
    So when two events carry labels that differ only in case, Monday and
    monday say, both labels are days of the tab and each event is on both:
    the export lists it once under each label, and the grid shows it in
    both columns. *)
Theorem X11_case_variant_days : forall df event other,
  canonical df ->
  In event (iterrows df) -> In other (iterrows df) ->
  field_of event "day" <> field_of other "day" ->
  lower (strip (field_of event "day")) = lower (strip (field_of other "day")) ->
  keep_day (field_of event "day") = true ->
  exists days,
    tab_days df = Ok days /\
    In (field_of event "day") days /\ In (field_of other "day") days /\
    on_day (field_of event "day") event = true /\
    on_day (field_of other "day") event = true /\
    In (event_row (field_of event "day") event) (export_table df days) /\
    In (event_row (field_of other "day") event) (export_table df days) /\
    event_row (field_of event "day") event <> event_row (field_of other "day") event.
Proof.
  intros df event other Hc Hev Hot Hne Heq Hk.
  eexists. split; [apply tab_days_value; exact Hc|].
  set (days := sort_days _).
  assert (H1 : In (field_of event "day") days) by (apply tab_days_in; eauto).
  assert (H2 : In (field_of other "day") days).
  { apply tab_days_in. split; [|eauto].
    now rewrite <- (keep_day_normal_form _ _ Heq). }
  assert (O1 : on_day (field_of event "day") event = true).
  { apply on_day_spec. exists (field_of event "day").
    split; [now apply (canonical_day df) | reflexivity]. }
  assert (O2 : on_day (field_of other "day") event = true).
  { apply on_day_spec. exists (field_of event "day").
    split; [now apply (canonical_day df) | exact Heq]. }
  repeat split; auto using export_table_in.
  unfold event_row. intros [= H]. contradiction.
Qed.

(** X11 at the sample: Commute is on Monday, Revision on monday. *)
Lemma X11_case_variant_days_witness :
  In (event_row "Monday" (row_at busy_week 0))
     (export_table busy_week ["Monday"; "monday"; "Tuesday"]) /\
  In (event_row "monday" (row_at busy_week 0))
     (export_table busy_week ["Monday"; "monday"; "Tuesday"]).
Proof.
  assert (H0 : In (row_at busy_week 0) (iterrows busy_week)) by (left; reflexivity).
  assert (H1 : In (row_at busy_week 1) (iterrows busy_week))
    by (right; left; reflexivity).
  destruct (X11_case_variant_days busy_week (row_at busy_week 0) (row_at busy_week 1)
              busy_week_canonical H0 H1
              (fun H : "Monday" = "monday" =>
                 match H in (_ = s) return
                       (match s with String "M" _ => True | _ => False end)
                 with eq_refl => I end)
              eq_refl eq_refl)
    as (days & Hok & _ & _ & _ & _ & T1 & T2 & _).
  assert (Hd : days = ["Monday"; "monday"; "Tuesday"])
    by (vm_compute in Hok; now injection Hok as <-).
  rewrite Hd in T1, T2. split; [exact T1 | exact T2].
Defined.

(** ** Loading the schedules *)

Lemma load_upload_frames : forall st file,
  let st' := load_upload st file in
  quiet_df (fst st') =
    match (if goes_to_quiet (fst file) then loaded_frame file else None) with
    | Some df => df
    | None => quiet_df (fst st)
    end /\
  busy_df (fst st') =
    match (if negb (goes_to_quiet (fst file)) then loaded_frame file else None) with
    | Some df => df
    | None => busy_df (fst st)
    end.
Proof.
  intros st [name read]. unfold load_upload, loaded_frame, goes_to_quiet.
  cbn [fst snd].
  destruct (read_and_normalize read name) as [[df calls]|e].
  - destruct (contains "busy" (lower name)); cbn.
    + split; [reflexivity|]. now destruct (contains "quiet" (lower name)).
    + destruct (contains "quiet" (lower name)); cbn; split; reflexivity.
  - cbn. split; [now destruct (_ && _) | now destruct (negb _)].
Qed.

(** X12.  After the uploaded files have been gone through, the quiet
    schedule is the frame of the last upload that could be read and
    normalised among those whose lower-cased name has "quiet" and not
    "busy" in it, and the busy schedule that of the last such upload among
    all the others; without one, the schedule held before stays.  A file
    that fails to load changes neither schedule, and a name with "busy" in
    it never reaches the quiet schedule. *)
Theorem X12_last_upload_wins : forall files st,
  quiet_df (fst (fold_left load_upload files st)) =
    match last_loaded goes_to_quiet files with
    | Some df => df
    | None => quiet_df (fst st)
    end /\
  busy_df (fst (fold_left load_upload files st)) =
    match last_loaded (fun name => negb (goes_to_quiet name)) files with
    | Some df => df
    | None => busy_df (fst st)
    end.
Proof.
  induction files as [|file files IH]; intros st; [split; reflexivity|].
  cbn [fold_left last_loaded].
  destruct (IH (load_upload st file)) as [Hq Hb].
  destruct (load_upload_frames st file) as [Hq1 Hb1].
  rewrite Hq, Hb, Hq1, Hb1. clear.
  split.
  - destruct (last_loaded goes_to_quiet files); reflexivity.
  - destruct (last_loaded _ files); reflexivity.
Qed.

Lemma read_and_normalize_held : forall read file_name df calls,
  read_and_normalize read file_name = Ok (df, calls) -> held df.
Proof.
  intros read file_name df calls. unfold read_and_normalize.
  destruct read as [raw|e]; [|discriminate]. cbn [bind]. intros Hok.
  right. split; [exact (normalize_canonical _ _ _ _ Hok)|].
  apply normalize_ok_inv in Hok as (Hnd & -> & _).
  now apply normalized_NoDup.
Qed.

Lemma load_upload_held : forall st file,
  held (busy_df (fst st)) -> held (quiet_df (fst st)) ->
  held (busy_df (fst (load_upload st file))) /\
  held (quiet_df (fst (load_upload st file))).
Proof.
  intros st [name read] Hb Hq. unfold load_upload. cbn [fst snd].
  destruct (read_and_normalize read name) as [[df calls]|e] eqn:Hr.
  - apply read_and_normalize_held in Hr.
    destruct (contains "busy" (lower name)); [cbn; auto|].
    destruct (contains "quiet" (lower name)); cbn; auto.
  - cbn. auto.
Qed.

Lemma load_uploads_held : forall files st,
  held (busy_df (fst st)) -> held (quiet_df (fst st)) ->
  held (busy_df (fst (fold_left load_upload files st))) /\
  held (quiet_df (fst (fold_left load_upload files st))).
Proof.
  induction files as [|file files IH]; intros st Hb Hq; [auto|].
  cbn [fold_left]. destruct (load_upload_held st file Hb Hq) as [Hb' Hq'].
  now apply IH.
Qed.

(** The schedules [main] holds after loading. *)
Lemma load_schedules_held : forall busy_file quiet_file uploaded_files,
  held (busy_df (fst (load_schedules busy_file quiet_file uploaded_files))) /\
  held (quiet_df (fst (load_schedules busy_file quiet_file uploaded_files))).
Proof.
  intros busy_file quiet_file uploaded_files. unfold load_schedules.
  apply load_uploads_held.
  - unfold load_quiet_week, load_busy_week.
    destruct quiet_file as [rq|];
      [destruct (read_and_normalize rq "quiet_week.xlsx") as [[dq cq]|eq]|];
      (destruct busy_file as [rb|];
       [destruct (read_and_normalize rb "busy_week.xlsx") as [[db cb]|eb] eqn:Hb|]);
      cbn; try (now left); now apply read_and_normalize_held in Hb.
  - unfold load_quiet_week, load_busy_week.
    destruct quiet_file as [rq|];
      [destruct (read_and_normalize rq "quiet_week.xlsx") as [[dq cq]|eq] eqn:Hq|];
      (destruct busy_file as [rb|];
       [destruct (read_and_normalize rb "busy_week.xlsx") as [[db cb]|eb]|]);
      cbn; try (now left); now apply read_and_normalize_held in Hq.
Qed.

(** X13.  Whatever the files are, each of the two schedules held after
    loading is either the empty frame [main] starts with or a frame with the
    six canonical columns and no label twice: a file that cannot be read or
    normalised leaves no partial frame behind. *)
Theorem X13_loaded_schedules : forall busy_file quiet_file uploaded_files,
  let s := fst (load_schedules busy_file quiet_file uploaded_files) in
  (busy_df s = NO_FRAME \/ (canonical (busy_df s) /\ NoDup (columns (busy_df s)))) /\
  (quiet_df s = NO_FRAME \/ (canonical (quiet_df s) /\ NoDup (columns (quiet_df s)))).
Proof.
  intros busy_file quiet_file uploaded_files.
  exact (load_schedules_held busy_file quiet_file uploaded_files).
Qed.

(** ** The tabs *)

Lemma heatmap_no_rows : forall df days week_key show_text,
  n_rows df = 0%nat ->
  create_calendar_heatmap df days week_key show_text =
  Ok (None, [st_warning "No data to display"]).
Proof.
  intros df days week_key show_text Hn. unfold create_calendar_heatmap, df_empty.
  now rewrite Hn.
Qed.

Lemma heatmap_total : forall df days week_key show_text,
  canonical df -> n_rows df <> 0%nat ->
  exists fig,
    create_calendar_heatmap df days week_key show_text = Ok (Some fig, []) /\
    fig_x fig = days.
Proof.
  intros df days week_key show_text Hc Hn. unfold create_calendar_heatmap.
  rewrite (canonical_not_empty df Hc).
  destruct (Nat.eqb_spec (n_rows df) 0); [contradiction|].
  rewrite (getcol_canonical df "archetype" Hc) by apply in_canonical_fields.
  cbn [bind]. set (idx := index_dict _).
  destruct (map_each_total _ _
              (fun slot => map_each (resolve_cell df idx slot) days) slots)
    as [grid Hgrid].
  { intros slot _. apply map_each_total. intros day _.
    now apply resolve_cell_total. }
  rewrite Hgrid. cbn [bind]. eexists. split; reflexivity.
Qed.



(** X14.  On a schedule the PNG export never raises.  Without rows it
    gives no image and the warning of the grid builder.  Otherwise it hands
    the renderer the figure of the grid with the labels shown, whatever the
    check box of the page says, under the title ending in EXPORT, and gives
    the bytes the renderer returns, or no image and one error message when
    the renderer raises. *)
Theorem X14_png_export : forall to_image df days week_key,
  canonical df ->
  (n_rows df = 0%nat ->
   export_calendar_as_png to_image df days week_key =
   Ok (None, [from_builder (st_warning "No data to display")])) /\
  (n_rows df <> 0%nat ->
   exists fig,
     create_calendar_heatmap df days week_key true = Ok (Some fig, []) /\
     export_calendar_as_png to_image df days week_key =
     match to_image (with_title fig ("📅 " ++ capitalize week_key
                                     ++ " Week Schedule - EXPORT")) with
     | Ok img_bytes => Ok (Some img_bytes, [])
     | Raise e => Ok (None, [st_error "Error generating PNG: " e])
     end).
Proof.
  intros to_image df days week_key Hc. split; intros Hn.
  - unfold export_calendar_as_png. now rewrite heatmap_no_rows.
  - destruct (heatmap_total df days week_key true Hc Hn) as (fig & Hfig & _).
    exists fig. split; [exact Hfig|].
    unfold export_calendar_as_png. rewrite Hfig. cbn [bind fst snd map app].
    destruct (to_image _); reflexivity.
Qed.

(** X14 at the sample, with a renderer that fails. *)
Lemma X14_png_export_witness :
  export_calendar_as_png (fun _ => Raise ValueError) busy_week busy_days "busy" =
  Ok (None, [st_error "Error generating PNG: " ValueError]).
Proof.
  destruct (X14_png_export (fun _ => Raise ValueError) busy_week busy_days "busy"
              busy_week_canonical) as [_ H].
  destruct (H (fun E : 3%nat = 0%nat => O_S 2%nat (eq_sym E))) as (fig & _ & Hpng).
  exact Hpng.
Defined.

Lemma held_empty : forall df,
  held df -> df_empty df = true -> n_rows df = 0%nat.
Proof.
  intros df [-> | [Hc _]] He; [reflexivity|].
  rewrite (canonical_not_empty df Hc) in He. now apply Nat.eqb_eq.
Qed.







